(** * Feishu folder downloader: a shallow embedding of
    [skills/customer-visit-analysis/scripts/feishu_download_files.py]

    The script authenticates against the Feishu open API, lists a remote
    folder page by page, and downloads every entry into a local directory
    tree.  Here its functions are Rocq functions over

    - Python strings as lists of Unicode code points,
    - parsed JSON values as an inductive type with Python's [dict.get],
      truthiness and iteration,
    - the outside world (HTTP server, file system, clock) as an environment
      that answers each call as a function of the events observed so far,
    - a computation as a function from the event trace to an extended trace
      and a result: a value, a raised exception, or exhausted fuel for the
      two unbounded loops ([while True] in [list_files_in_folder], the
      recursion of [process_file] over the remote tree). *)

From Stdlib Require Import Ascii String.
From Stdlib Require Import List Bool Arith ZArith NArith QArith Qround Lia Lqa.
Import ListNotations.

Set Warnings "-register-all".

(* ================================================================== *)
(** ** Python strings *)

Module PyStr.

(** A Python [str] is a sequence of code points. *)
Definition codepoint := N.
Definition pystr := list codepoint.

(** An ASCII literal of the source as a [pystr]. *)
Definition u (s : String.string) : pystr :=
  List.map N_of_ascii (String.list_ascii_of_string s).

Definition eqb (a b : pystr) : bool :=
  if list_eq_dec N.eq_dec a b then true else false.

(** [s.replace(c, r)] for one-character [c] and [r]. *)
Definition replace_char (c r : codepoint) (s : pystr) : pystr :=
  List.map (fun x => if N.eqb x c then r else x) s.

(** [str.isspace] on one code point, the test [str.strip()] uses:
    the Unicode White_Space code points and the separators U+001C..U+001F. *)
Definition py_isspace (c : codepoint) : bool :=
  ((9 <=? c) && (c <=? 13) || (28 <=? c) && (c <=? 32)
   || (c =? 133) || (c =? 160) || (c =? 5760)
   || (8192 <=? c) && (c <=? 8202)
   || (c =? 8232) || (c =? 8233) || (c =? 8239) || (c =? 8287)
   || (c =? 12288))%N.

Fixpoint drop_while (p : codepoint -> bool) (s : pystr) : pystr :=
  match s with
  | [] => []
  | c :: r => if p c then drop_while p r else s
  end.

Definition lstrip (s : pystr) : pystr := drop_while py_isspace s.
Definition rstrip (s : pystr) : pystr := rev (drop_while py_isspace (rev s)).

(** [s.strip()] *)
Definition strip (s : pystr) : pystr := rstrip (lstrip s).

(** [a or b] on strings: [a] unless it is empty. *)
Definition py_or (a b : pystr) : pystr :=
  match a with [] => b | _ => a end.

(** [s.endswith(t)] *)
Definition endswith (s t : pystr) : bool :=
  (length t <=? length s)%nat && eqb (skipn (length s - length t) s) t.

(** [s.lstrip] of dots *)
Definition lstrip_dot (s : pystr) : pystr := drop_while (N.eqb 46) s.

(** [not s] *)
Definition is_empty (s : pystr) : bool :=
  match s with [] => true | _ => false end.

(** Index of the last dot of [s], if any ([s.rfind] of a dot, with [None]
    for [-1]). *)
Fixpoint rfind_dot_from (i : nat) (s : pystr) (last : option nat) : option nat :=
  match s with
  | [] => last
  | c :: r => rfind_dot_from (S i) r (if N.eqb c 46 then Some i else last)
  end.

Definition rfind_dot (s : pystr) : option nat := rfind_dot_from 0 s None.

Definition is_ascii (c : codepoint) : bool := (c <? 128)%N.

Definition ascii_lower (c : codepoint) : codepoint :=
  if ((65 <=? c) && (c <=? 90))%N then (c + 32)%N else c.

End PyStr.
Import PyStr.

(* ================================================================== *)
(** ** sanitize_filename (lines 88-96) *)

(** The nine characters of [invalid_chars], by code point:
    less-than, greater-than, colon, double quote, slash, backslash,
    vertical bar, question mark, asterisk. *)
Definition invalid_chars : pystr := [60; 62; 58; 34; 47; 92; 124; 63; 42]%N.

Definition underscore : codepoint := 95%N.

Definition sanitize_filename (name : pystr) : pystr :=
  (* for char in invalid_chars: name = name.replace(char, underscore) *)
  let name := fold_left (fun acc c => replace_char c underscore acc)
                        invalid_chars name in
  (* keep the characters with ord(char) >= 32 *)
  let name := filter (fun c => (32 <=? c)%N) name in
  py_or (strip name) (u "unnamed_file"%string).

(** *** Vocabulary for the properties of [sanitize_filename] *)

Definition is_invalid (c : codepoint) : bool := existsb (N.eqb c) invalid_chars.

(** What the chain of [replace] calls does to one character. *)
Definition clean_char (x : codepoint) : codepoint :=
  if is_invalid x then underscore else x.

(** What a sanitized name looks like. *)
Record sanitized (r : pystr) : Prop := {
  san_valid : forall c, In c r -> ~ In c invalid_chars;
  san_printable : forall c, In c r -> (32 <= c)%N;
  san_head : forall c t, r = c :: t -> py_isspace c = false;
  san_last : forall c t, r = t ++ [c] -> py_isspace c = false;
  san_nonempty : r <> []
}.


(* ================================================================== *)
(** ** Parsed JSON values and the Python operations the script applies *)

Inductive json : Type :=
| JNull
| JBool (b : bool)
| JInt (z : Z)
| JFloat (q : Q)
| JStr (s : pystr)
| JArr (l : list json)
| JObj (kv : list (pystr * json)).

(** What the script can raise.  Every constructor but [SystemExit] is a
    subclass of Python's [Exception]. *)
Inductive api_call : Type :=
| CallToken | CallList | CallDownloadUrl | CallCreateExport | CallQueryExport.

Inductive exn : Type :=
| HTTPError (status : Z)             (* response.raise_for_status() *)
| RequestException                   (* connection failure, unusable URL *)
| JSONDecodeError                    (* response.json() on a body that is not JSON *)
| ApiError (c : api_call) (msg : json) (* the raise after [code != 0] *)
| ExportFailed (msg : json)          (* job_status == 2 *)
| ExportFailedOld                    (* task_status == failed *)
| ExportTimedOut                     (* after the poll loop *)
| WrongType                          (* AttributeError, TypeError or KeyError:
                                        an operation on a value of the wrong
                                        Python type *)
| OSError                            (* mkdir or open refused *)
| SystemExit (code : Z).

(** [except Exception] catches everything but [SystemExit]. *)
Definition is_Exception (e : exn) : bool :=
  match e with SystemExit _ => false | _ => true end.

Fixpoint assoc (k : pystr) (kv : list (pystr * json)) : option json :=
  match kv with
  | [] => None
  | (k', v) :: r => if PyStr.eqb k' k then Some v else assoc k r
  end.

(** [d.get(k, default)]; only a dict has [get]. *)
Definition dict_get (d : json) (k : pystr) (default : json) : exn + json :=
  match d with
  | JObj kv => inr (match assoc k kv with Some v => v | None => default end)
  | _ => inl WrongType
  end.

(** Truth value of a Python object. *)
Definition truthy (v : json) : bool :=
  match v with
  | JNull => false
  | JBool b => b
  | JInt z => negb (z =? 0)%Z
  | JFloat q => negb (Qeq_bool q 0)
  | JStr s => negb (is_empty s)
  | JArr l => match l with [] => false | _ => true end
  | JObj kv => match kv with [] => false | _ => true end
  end.

(** [v == n] for an int literal [n]: bools and floats compare as numbers. *)
Definition py_eq_int (v : json) (n : Z) : bool :=
  match v with
  | JInt z => (z =? n)%Z
  | JBool b => ((if b then 1 else 0) =? n)%Z
  | JFloat q => Qeq_bool q (inject_Z n)
  | _ => false
  end.

(** [v == s] for a string literal [s]. *)
Definition py_eq_str (v : json) (s : pystr) : bool :=
  match v with JStr t => PyStr.eqb t s | _ => false end.

(** The elements [list.extend(v)] appends: the items of a list, the
    characters of a string, the keys of a dict; other values are not
    iterable. *)
Definition py_iter (v : json) : exn + list json :=
  match v with
  | JArr l => inr l
  | JStr s => inr (List.map (fun c => JStr [c]) s)
  | JObj kv => inr (List.map (fun p => JStr (fst p)) kv)
  | _ => inl WrongType
  end.

(* ================================================================== *)
(** ** Paths, requests, events *)

(** A [pathlib.Path] as its list of components. *)
Definition path := list pystr.

(** [p / name] for a [name] without a slash (every name the script joins
    is sanitized): an empty or single-dot component is dropped. *)
Definition path_div (p : path) (name : pystr) : path :=
  if is_empty name || PyStr.eqb name [46%N] then p else p ++ [name].

(** [p.parent] *)
Definition parent (p : path) : path := removelast p.

(** [Path(name).suffix] for a slash-free [name]: from the last dot on,
    when that dot is neither the first nor the last character. *)
Definition path_suffix (name : pystr) : pystr :=
  match rfind_dot name with
  | Some i => if (0 <? i)%nat && (i <? length name - 1)%nat
              then skipn i name else []
  | None => []
  end.

Inductive Method : Type := GET | POST.

Record Request : Type := mkRequest {
  method : Method;
  url : pystr;
  headers : list (pystr * pystr);
  params : list (pystr * json);
  json_body : option json;
  stream : bool
}.

Record Response : Type := mkResponse {
  status_code : Z;
  parsed : option json;          (* response.json(), when the body is JSON *)
  chunks : list (list N)         (* response.iter_content(chunk_size=8192) *)
}.

Inductive HttpResult : Type :=
| ConnFail
| Resp (r : Response).

(** The lines the script prints, one constructor per [print] site. *)
Inductive Msg : Type :=
| MProcessing (file_name : pystr) (file_type : json)
| MEnteringFolder (sub_dir : path)
| MErrorFolder (e : exn)
| MUsingExport (file_type : json)
| MExported (output_path : path)
| MDownloaded (output_path : path)
| MDownloadFailed (e : exn)
| MTryingExport
| MExportAlsoFailed (e : exn)
| MErrorFile (e : exn)
| MText (s : pystr)
| MTokenObtained (prefix : pystr)
| MListing (folder_token : pystr)
| MFound (n : nat)
| MItem (i : nat) (type_upper : pystr) (name token : json)
| MDownloadingTo (output_dir : path).

Inductive Event : Type :=
| EHttp (req : Request) (res : HttpResult)
| EMkdir (p : path) (ok : bool)          (* p.mkdir(parents=True, exist_ok=True) *)
| ESave (p : path) (data : list N) (ok : bool)   (* open(p, wb) and the writes *)
| EPrint (m : Msg)
| ETime (t : Q)                          (* time.time() *)
| ESleep (d : Q).                        (* time.sleep(d) *)

Definition trace := list Event.

(** The world outside the script: each answer may depend on everything
    that happened before. *)
Record Env : Type := mkEnv {
  http : trace -> Request -> HttpResult;
  mkdir_ok : trace -> path -> bool;
  save_ok : trace -> path -> bool;
  clock : trace -> Q;
  FEISHU_APP_ID : option pystr;          (* os.getenv *)
  FEISHU_APP_SECRET : option pystr
}.

(** The parts of the Python runtime the script relies on and that are
    taken as given: [str()] of a value that is not a string, the Unicode
    case mappings of strings that are not pure ASCII. *)
Record Python : Type := mkPython {
  str_of : json -> pystr;
  unicode_lower : pystr -> pystr;
  unicode_upper : pystr -> pystr
}.

(* ================================================================== *)
(** ** Computations *)

Inductive result (A : Type) : Type :=
| Val (a : A)
| Exn (e : exn)
| OutOfFuel.
Arguments Val {A} a.
Arguments Exn {A} e.
Arguments OutOfFuel {A}.

Definition M (A : Type) : Type := trace -> trace * result A.

Definition ret {A} (a : A) : M A := fun tr => (tr, Val a).
Definition raise {A} (e : exn) : M A := fun tr => (tr, Exn e).
Definition out_of_fuel {A} : M A := fun tr => (tr, OutOfFuel).

Definition bind {A B} (m : M A) (k : A -> M B) : M B :=
  fun tr =>
    match m tr with
    | (tr', Val a) => k a tr'
    | (tr', Exn e) => (tr', Exn e)
    | (tr', OutOfFuel) => (tr', OutOfFuel)
    end.

(** [try: m  except Exception as e: h e] *)
Definition try_except {A} (m : M A) (h : exn -> M A) : M A :=
  fun tr =>
    match m tr with
    | (tr', Exn e) => if is_Exception e then h e tr' else (tr', Exn e)
    | r => r
    end.

Definition emit (ev : Event) : M unit := fun tr => (tr ++ [ev], Val tt).

Definition lift {A} (r : exn + A) : M A :=
  match r with inl e => raise e | inr a => ret a end.

Declare Scope py_scope.
Delimit Scope py_scope with py.
Notation "x <- m ;; k" := (bind m (fun x => k))
  (at level 61, m at next level, right associativity) : py_scope.
Notation "m ;; k" := (bind m (fun _ => k))
  (at level 61, right associativity) : py_scope.
Open Scope py_scope.

(** [for x in l: f x] *)
Fixpoint for_each {A} (l : list A) (f : A -> M unit) : M unit :=
  match l with
  | [] => ret tt
  | x :: r => f x ;; for_each r f
  end.

Definition print (m : Msg) : M unit := emit (EPrint m).

(* ================================================================== *)
(** ** Constants of the script (lines 32-61) *)

Definition DEFAULT_OUTPUT_DIR : path := [u "feishu-download-file"%string].

Definition API_BASE : pystr := Eval cbv in u "https://open.feishu.cn/open-apis"%string.
Definition AUTH_URL : pystr :=
  Eval cbv in API_BASE ++ u "/auth/v3/tenant_access_token/internal"%string.
Definition FILE_LIST_URL : pystr := Eval cbv in API_BASE ++ u "/drive/v1/files"%string.
Definition FILE_DOWNLOAD_URL : pystr := Eval cbv in API_BASE ++ u "/drive/v1/files"%string.
Definition FILE_META_URL : pystr := Eval cbv in API_BASE ++ u "/drive/v1/files"%string.
Definition EXPORT_TASK_URL : pystr :=
  Eval cbv in API_BASE ++ u "/drive/v1/export_tasks"%string.

Definition TYPE_TO_EXT : list (pystr * pystr) :=
  Eval cbv in
  List.map (fun p => (u (fst p), u (snd p)))
    [ ("docx", ".docx"); ("doc", ".doc"); ("xlsx", ".xlsx"); ("xls", ".xls");
      ("pptx", ".pptx"); ("ppt", ".ppt"); ("pdf", ".pdf"); ("txt", ".txt");
      ("jpg", ".jpg"); ("jpeg", ".jpg"); ("png", ".png"); ("gif", ".gif");
      ("bmp", ".bmp"); ("mp4", ".mp4"); ("mp3", ".mp3"); ("zip", ".zip");
      ("rar", ".rar") ]%string.

(** [TYPE_TO_EXT.get(k, empty string)] *)
Fixpoint ext_get (k : pystr) (m : list (pystr * pystr)) : pystr :=
  match m with
  | [] => []
  | (k', v) :: r => if PyStr.eqb k' k then v else ext_get k r
  end.

(** The list literal of line 297. *)
Definition EXPORT_TYPES : list pystr :=
  Eval cbv in
  List.map u [ "doc"; "docx"; "xlsx"; "xls"; "pptx"; "ppt"; "pdf"; "sheet";
               "slide"; "bitable" ]%string.

(** The list literal of line 306. *)
Definition BINARY_TYPES : list pystr :=
  Eval cbv in
  List.map u [ "jpg"; "jpeg"; "png"; "gif"; "bmp"; "mp4"; "mp3"; "zip";
               "rar" ]%string.

(** [x in l] for a list of strings. *)
Definition mem (x : pystr) (l : list pystr) : bool :=
  existsb (PyStr.eqb x) l.

Definition empty_obj : json := JObj [].
Definition empty_str : json := JStr [].

(* ================================================================== *)
(** ** The script *)

Section Script.

Variable py : Python.
Variable env : Env.

(** An f-string field [{v}]. *)
Definition fstr (v : json) : pystr :=
  match v with JStr s => s | _ => str_of py v end.

(** [s.lower()]: the ASCII mapping on a pure-ASCII string. *)
Definition lower (s : pystr) : pystr :=
  if forallb is_ascii s then List.map ascii_lower s else unicode_lower py s.

Definition ascii_upper (c : codepoint) : codepoint :=
  if ((97 <=? c) && (c <=? 122))%N then (c - 32)%N else c.

(** [s.upper()] *)
Definition upper (s : pystr) : pystr :=
  if forallb is_ascii s then List.map ascii_upper s else unicode_upper py s.

(** *** Primitive effects *)

(** [requests.get] / [requests.post]: the world answers, the exchange is
    recorded; a connection failure raises. *)
Definition send (req : Request) : M Response :=
  fun tr =>
    let r := http env tr req in
    (tr ++ [EHttp req r],
     match r with ConnFail => Exn RequestException | Resp resp => Val resp end).

(** [response.raise_for_status()] *)
Definition raise_for_status (r : Response) : M unit :=
  if ((400 <=? status_code r) && (status_code r <? 600))%Z
  then raise (HTTPError (status_code r)) else ret tt.

(** [response.json()] *)
Definition response_json (r : Response) : M json :=
  match parsed r with Some j => ret j | None => raise JSONDecodeError end.

(** [p.mkdir(parents=True, exist_ok=True)] *)
Definition mkdir (p : path) : M unit :=
  fun tr =>
    let ok := mkdir_ok env tr p in
    (tr ++ [EMkdir p ok], if ok then Val tt else Exn OSError).

(** [with open(p, wb) as f: for chunk in ...: if chunk: f.write(chunk)] *)
Definition save (p : path) (cs : list (list N)) : M unit :=
  fun tr =>
    let ok := save_ok env tr p in
    (tr ++ [ESave p (if ok then List.concat cs else []) ok],
     if ok then Val tt else Exn OSError).

(** [time.time()] *)
Definition time_time : M Q :=
  fun tr => let t := clock env tr in (tr ++ [ETime t], Val t).

(** [time.sleep(d)] *)
Definition time_sleep (d : Q) : M unit := emit (ESleep d).

Definition get (d : json) (k : String.string) (default : json) : M json :=
  lift (dict_get d (u k) default).

(** *** get_tenant_access_token (lines 64-77) *)

Definition opt_str (o : option pystr) : json :=
  match o with Some s => JStr s | None => JNull end.

Definition token_request : Request :=
  mkRequest POST AUTH_URL [] []
    (Some (JObj [ (u "app_id"%string, opt_str (FEISHU_APP_ID env));
                  (u "app_secret"%string, opt_str (FEISHU_APP_SECRET env)) ]))
    false.

Definition get_tenant_access_token : M json :=
  response <- send token_request ;;
  raise_for_status response ;;
  data <- response_json response ;;
  code <- get data "code" JNull ;;
  if negb (py_eq_int code 0)
  then (msg <- get data "msg" JNull ;; raise (ApiError CallToken msg))
  else get data "tenant_access_token" JNull.

(** *** get_headers (lines 80-85) *)

Definition get_headers (token : json) : list (pystr * pystr) :=
  [ (u "Authorization"%string, u "Bearer "%string ++ fstr token);
    (u "Content-Type"%string, u "application/json"%string) ].

(** *** list_files_in_folder (lines 99-132) *)

Definition list_params (folder_token page_token : json) : list (pystr * json) :=
  [ (u "folder_token"%string, folder_token); (u "page_size"%string, JInt 50) ]
  ++ (if truthy page_token then [ (u "page_token"%string, page_token) ] else []).

Definition list_request (token folder_token page_token : json) : Request :=
  mkRequest GET FILE_LIST_URL (get_headers token)
    (list_params folder_token page_token) None false.

(** The body of the [while True] loop, [fuel] bounding its iterations. *)
Fixpoint list_files_loop (fuel : nat) (token folder_token : json)
    (files : list json) (page_token : json) : M (list json) :=
  match fuel with
  | O => out_of_fuel
  | S n =>
    response <- send (list_request token folder_token page_token) ;;
    raise_for_status response ;;
    data <- response_json response ;;
    code <- get data "code" JNull ;;
    if negb (py_eq_int code 0)
    then (msg <- get data "msg" JNull ;; raise (ApiError CallList msg))
    else
      files_data <- get data "data" empty_obj ;;
      items <- get files_data "files" (JArr []) ;;
      new <- lift (py_iter items) ;;
      let files := files ++ new in
      has_more <- get files_data "has_more" (JBool false) ;;
      if negb (truthy has_more)
      then ret files
      else
        page_token <- get files_data "page_token" empty_str ;;
        list_files_loop n token folder_token files page_token
  end.

Definition list_files_in_folder (fuel : nat) (token folder_token : json)
  : M (list json) :=
  list_files_loop fuel token folder_token [] empty_str.

(** *** get_file_download_url (lines 135-147) *)

Definition download_url_request (token file_token : json) : Request :=
  mkRequest GET
    (FILE_DOWNLOAD_URL ++ u "/"%string ++ fstr file_token ++ u "/download"%string)
    (get_headers token) [] None false.

Definition get_file_download_url (token file_token : json) : M json :=
  response <- send (download_url_request token file_token) ;;
  raise_for_status response ;;
  data <- response_json response ;;
  code <- get data "code" JNull ;;
  if negb (py_eq_int code 0)
  then (msg <- get data "msg" JNull ;; raise (ApiError CallDownloadUrl msg))
  else
    d <- get data "data" empty_obj ;;
    get d "url" JNull.

(** *** download_file (lines 165-175) *)

Definition fetch_request (url : pystr) : Request :=
  mkRequest GET url [] [] None true.

(** [requests.get(url, stream=True)]: a [url] that is not a string has no
    scheme and is refused before anything is sent. *)
Definition download_file (url : json) (output_path : path) : M unit :=
  match url with
  | JStr s =>
    response <- send (fetch_request s) ;;
    raise_for_status response ;;
    mkdir (parent output_path) ;;
    save output_path (chunks response)
  | _ => raise RequestException
  end.

(** *** create_export_task (lines 178-198) *)

Definition export_payload (file_token file_type : json) (file_extension : pystr)
  : json :=
  JObj ([ (u "token"%string, file_token); (u "type"%string, file_type) ]
        ++ (if is_empty file_extension then []
            else [ (u "file_extension"%string, JStr file_extension) ])).

Definition create_export_request (token file_token file_type : json)
    (file_extension : pystr) : Request :=
  mkRequest POST EXPORT_TASK_URL (get_headers token) []
    (Some (export_payload file_token file_type file_extension)) false.

Definition create_export_task (token file_token file_type : json)
    (file_extension : pystr) : M json :=
  response <- send (create_export_request token file_token file_type file_extension) ;;
  raise_for_status response ;;
  data <- response_json response ;;
  code <- get data "code" JNull ;;
  if negb (py_eq_int code 0)
  then (msg <- get data "msg" JNull ;; raise (ApiError CallCreateExport msg))
  else
    d <- get data "data" empty_obj ;;
    get d "ticket" JNull.

(** *** query_export_task (lines 201-236) *)

Definition query_export_request (token ticket file_token : json) : Request :=
  mkRequest GET
    (EXPORT_TASK_URL ++ u "/"%string ++ fstr ticket ++ u "?token="%string
     ++ fstr file_token)
    (get_headers token) [] None false.

(** One round of the [while] loop after its test: [inl v] is [return v],
    [inr tt] falls through to [time.sleep(1)]. *)
Definition query_once (token ticket file_token : json) : M (json + unit) :=
  response <- send (query_export_request token ticket file_token) ;;
  raise_for_status response ;;
  data <- response_json response ;;
  code <- get data "code" JNull ;;
  if negb (py_eq_int code 0)
  then (msg <- get data "msg" JNull ;; raise (ApiError CallQueryExport msg))
  else
    d <- get data "data" empty_obj ;;
    result <- get d "result" empty_obj ;;
    job_status <- get result "job_status" JNull ;;
    if py_eq_int job_status 0 then
      ft <- get result "file_token" JNull ;; ret (inl ft)
    else if py_eq_int job_status 2 then
      msg <- get result "job_error_msg" JNull ;; raise (ExportFailed msg)
    else
      match job_status with
      | JNull =>
        d <- get data "data" empty_obj ;;
        task_status <- get d "task_status" JNull ;;
        if py_eq_str task_status (u "done"%string) then
          d <- get data "data" empty_obj ;;
          r <- get d "result" empty_obj ;;
          ft <- get r "file_token" JNull ;; ret (inl ft)
        else if py_eq_str task_status (u "failed"%string) then
          raise ExportFailedOld
        else ret (inr tt)
      | _ => ret (inr tt)
      end.

Fixpoint query_loop (fuel : nat) (token ticket file_token : json)
    (start_time max_wait : Q) : M json :=
  match fuel with
  | O => out_of_fuel
  | S n =>
    now <- time_time ;;
    if Qlt_le_dec (now - start_time) max_wait then
      r <- query_once token ticket file_token ;;
      match r with
      | inl ft => ret ft
      | inr _ =>
        time_sleep 1 ;;
        query_loop n token ticket file_token start_time max_wait
      end
    else raise ExportTimedOut
  end.

Definition query_export_task (fuel : nat) (token ticket file_token : json)
    (max_wait : Q) : M json :=
  start_time <- time_time ;;
  query_loop fuel token ticket file_token start_time max_wait.

(** *** download_exported_file (lines 239-252) *)

Definition export_download_request (token export_file_token : json) : Request :=
  mkRequest GET
    (API_BASE ++ u "/drive/v1/export_tasks/file/"%string ++ fstr export_file_token
     ++ u "/download"%string)
    (get_headers token) [] None false.

Definition download_exported_file (token export_file_token : json)
    (output_path : path) : M unit :=
  response <- send (export_download_request token export_file_token) ;;
  raise_for_status response ;;
  mkdir (parent output_path) ;;
  save output_path (chunks response).

(** *** process_file (lines 255-333) *)

(** [sanitize_filename(v)]: only a string has [replace]. *)
Definition sanitize_json (v : json) : exn + pystr :=
  match v with JStr s => inr (sanitize_filename s) | _ => inl WrongType end.

(** Lines 279-286: the extension for a file of type [file_type]. *)
Definition choose_extension (file_type file_name : pystr) : pystr :=
  let extension := ext_get (lower file_type) TYPE_TO_EXT in
  if is_empty extension && negb (is_empty file_name) then
    let ext := path_suffix file_name in
    if negb (is_empty ext) then ext else u ".bin"%string
  else extension.

(** Lines 289-290. *)
Definition with_extension (file_name extension : pystr) : pystr :=
  if negb (endswith (lower file_name) (lower extension))
  then file_name ++ extension else file_name.

(** Lines 300 and 324: the extension without its leading dots. *)
Definition ext_for_api (extension file_type : pystr) : pystr :=
  if negb (is_empty extension) then lstrip_dot extension else file_type.

(** Lines 300-303 and 324-327: the create / poll / download triplet. *)
Definition export_workflow (fuel : nat) (token file_token : json)
    (file_type extension : pystr) (output_path : path) : M unit :=
  ticket <- create_export_task token file_token (JStr file_type)
              (ext_for_api extension file_type) ;;
  export_file_token <- query_export_task fuel token ticket file_token 60 ;;
  download_exported_file token export_file_token output_path ;;
  print (MExported output_path).

(** Lines 308-310 and 315-317: the direct download. *)
Definition direct_workflow (token file_token : json) (output_path : path)
  : M unit :=
  download_url <- get_file_download_url token file_token ;;
  download_file download_url output_path ;;
  print (MDownloaded output_path).

(** Lines 294-333: the guarded download of one file. *)
Definition download_entry (fuel : nat) (token file_token : json)
    (file_type extension : pystr) (output_path : path) : M unit :=
  try_except
    (if mem (lower file_type) EXPORT_TYPES then
       print (MUsingExport (JStr file_type)) ;;
       export_workflow fuel token file_token file_type extension output_path
     else if mem file_type BINARY_TYPES then
       direct_workflow token file_token output_path
     else
       try_except
         (direct_workflow token file_token output_path)
         (fun e =>
            print (MDownloadFailed e) ;;
            try_except
              (print MTryingExport ;;
               export_workflow fuel token file_token file_type extension
                 output_path)
              (fun export_error => print (MExportAlsoFailed export_error))))
    (fun e => print (MErrorFile e)).

Fixpoint process_file (fuel : nat) (token file_info : json) (output_dir : path)
  : M unit :=
  match fuel with
  | O => out_of_fuel
  | S n =>
    file_token <- get file_info "token" JNull ;;
    name <- get file_info "name" (JStr (u "file_"%string ++ fstr file_token)) ;;
    file_name <- lift (sanitize_json name) ;;
    file_type <- get file_info "type" empty_str ;;
    print (MProcessing file_name file_type) ;;
    if py_eq_str file_type (u "folder"%string) then
      let sub_dir := path_div output_dir file_name in
      mkdir sub_dir ;;
      print (MEnteringFolder sub_dir) ;;
      try_except
        (sub_files <- list_files_in_folder n token file_token ;;
         for_each sub_files
           (fun sub_file => process_file n token sub_file sub_dir))
        (fun e => print (MErrorFolder e))
    else
      match file_type with
      | JStr ft =>
        let extension := choose_extension ft file_name in
        let file_name := with_extension file_name extension in
        let output_path := path_div output_dir file_name in
        download_entry n token file_token ft extension output_path
      | _ => raise WrongType          (* file_type.lower() *)
      end
  end.

(** *** main (lines 336-390) *)

Definition falsy_opt (o : option pystr) : bool :=
  match o with Some s => is_empty s | None => true end.

(** [token[:20]] inside the f-string of line 366. *)
Definition token_prefix (token : json) : exn + pystr :=
  match token with
  | JStr s => inr (firstn 20 s)
  | JArr l => inr (str_of py (JArr (firstn 20 l)))
  | _ => inl WrongType
  end.

(** [file_type.upper() if file_type else UNKNOWN] *)
Definition type_label (file_type : json) : exn + pystr :=
  if truthy file_type then
    match file_type with JStr s => inr (upper s) | _ => inl WrongType end
  else inr (u "UNKNOWN"%string).

Fixpoint print_items (i : nat) (files : list json) : M unit :=
  match files with
  | [] => ret tt
  | file_info :: r =>
    name <- get file_info "name" JNull ;;
    file_type <- get file_info "type" JNull ;;
    file_token <- get file_info "token" JNull ;;
    label <- lift (type_label file_type) ;;
    print (MItem i label name file_token) ;;
    print_items (S i) r
  end.

Definition rule (c : codepoint) : pystr := repeat c 50.

Definition main (fuel : nat) (folder_token : pystr) (output_dir : path)
  : M unit :=
  print (MText (u "Feishu File Downloader"%string)) ;;
  print (MText (rule 61%N)) ;;
  if falsy_opt (FEISHU_APP_ID env) || falsy_opt (FEISHU_APP_SECRET env) then
    print (MText (u "Error: FEISHU_APP_ID and FEISHU_APP_SECRET must be set in .env file"%string)) ;;
    raise (SystemExit 1)
  else
    print (MText (u "Getting access token..."%string)) ;;
    token <- get_tenant_access_token ;;
    prefix <- lift (token_prefix token) ;;
    print (MTokenObtained prefix) ;;
    mkdir output_dir ;;
    print (MListing folder_token) ;;
    files <- list_files_in_folder fuel token (JStr folder_token) ;;
    print (MFound (length files)) ;;
    print_items 1 files ;;
    print (MDownloadingTo output_dir) ;;
    print (MText (rule 45%N)) ;;
    for_each files (fun file_info => process_file fuel token file_info output_dir) ;;
    print (MText (10%N :: rule 61%N)) ;;
    print (MText (u "Download complete!"%string)).

End Script.

(* ================================================================== *)
(** ** Vocabulary for statements about runs *)

(** The requests sent along a trace, in order. *)
Definition reqs (tr : trace) : list Request :=
  flat_map (fun ev => match ev with EHttp r _ => [r] | _ => [] end) tr.

(** The paths written successfully along a trace, in order. *)
Definition saved (tr : trace) : list path :=
  flat_map (fun ev => match ev with ESave p _ true => [p] | _ => [] end) tr.

(** [post m S]: from every trace, [m] appends some events [new] and ends
    with a result [r] such that [S new r]. *)
Definition post {A} (m : M A) (S : trace -> result A -> Prop) : Prop :=
  forall tr, exists new, fst (m tr) = tr ++ new /\ S new (snd (m tr)).

(** [appends P m]: every event [m] appends satisfies [P]. *)
Definition appends {A} (P : Event -> Prop) (m : M A) : Prop :=
  post m (fun new _ => Forall P new).

(** [silent m]: [m] appends nothing. *)
Definition silent {A} (m : M A) : Prop := forall tr, fst (m tr) = tr.



(** The request for a bearer token. *)
Definition is_token_request (req : Request) : bool :=
  match method req with
  | POST => PyStr.eqb (url req) AUTH_URL
  | GET => false
  end.

(** An API request: every request but the plain fetch of a download URL
    ([download_file], the only request sent with [stream=True]). *)
Definition is_api_request (req : Request) : bool := negb (stream req).

(** An event of a run authenticated with [token]: an API request carries
    the headers [get_headers token] and does not ask for a token; the
    fetch of a download URL carries no header. *)
Definition with_token (py : Python) (token : json) (ev : Event) : Prop :=
  match ev with
  | EHttp req _ =>
    is_token_request req = false
    /\ (if is_api_request req then headers req = get_headers py token
        else headers req = [])
  | _ => True
  end.

(** No request at all. *)
Definition offline (ev : Event) : Prop :=
  match ev with EHttp _ _ => False | _ => True end.


(** *** Vocabulary for the poll loop *)

(** The clock never runs backwards and a [time.sleep(1)] takes at least one
    second. *)
Definition clock_advances (env : Env) : Prop :=
  (forall tr ev, clock env tr <= clock env (tr ++ [ev]))
  /\ (forall tr, clock env tr + 1 <= clock env (tr ++ [ESleep 1])).

(** Rounds that suffice for a wait of [max_wait] seconds. *)
Definition poll_bound (max_wait : Q) : nat := S (Z.to_nat (Qceiling max_wait)).

(** The export job itself reported failure. *)
Definition job_failure (e : exn) : bool :=
  match e with ExportFailed _ | ExportFailedOld => true | _ => false end.

(** A status request failed: no connection, an HTTP error status, a body
    that is not JSON or not of the expected shape, a non-zero API code. *)
Definition query_failure (e : exn) : bool :=
  match e with
  | HTTPError _ | RequestException | JSONDecodeError | WrongType
  | ApiError CallQueryExport _ => true
  | _ => false
  end.

(** The three outcomes of a poll: the exported file token, an error of a
    failed job, the timeout error. *)
Definition poll_outcome (r : result json) : Prop :=
  (exists v, r = Val v)
  \/ (exists e, r = Exn e /\ job_failure e = true)
  \/ r = Exn ExportTimedOut.

(** The events of a poll loop: the clock readings, the status requests for
    one ticket and the one-second sleeps between them. *)
Definition poll_event (py : Python) (token ticket file_token : json)
    (ev : Event) : Prop :=
  match ev with
  | ETime _ => True
  | EHttp req _ => req = query_export_request py token ticket file_token
  | ESleep d => d = 1
  | _ => False
  end.


(** *** Concrete worlds for the examples *)

(** A stand-in for the parts of the Python runtime that are taken as
    given; the examples below only use ASCII strings. *)
Definition demo_py : Python :=
  mkPython (fun _ => u "?"%string) (fun s => s) (fun s => s).

(** A clock that ticks once per event. *)
Definition tick_clock (tr : trace) : Q := inject_Z (Z.of_nat (length tr)).

Definition json_response (j : json) : HttpResult :=
  Resp (mkResponse 200 (Some j) []).

Definition str (s : String.string) : json := JStr (u s).

(** A server that rejects every request with a non-zero API code. *)
Definition env_denied : Env :=
  mkEnv (fun _ _ => json_response
                      (JObj [ (u "code"%string, JInt 99991663);
                              (u "msg"%string, str "token invalid") ]))
        (fun _ _ => true) (fun _ _ => true) tick_clock
        (Some (u "app"%string)) (Some (u "secret"%string)).

(** A server whose export job is done at the first status request. *)
Definition env_job_done : Env :=
  mkEnv (fun _ _ => json_response
                      (JObj [ (u "code"%string, JInt 0);
                              (u "data"%string,
                               JObj [ (u "result"%string,
                                       JObj [ (u "job_status"%string, JInt 0);
                                              (u "file_token"%string, str "boxcn") ]) ]) ]))
        (fun _ _ => true) (fun _ _ => true) tick_clock
        (Some (u "app"%string)) (Some (u "secret"%string)).


(** *** Vocabulary for the folder listing *)

(** One page of a listing, as [list_files_in_folder] reads it from the
    response: the items, the [has_more] flag and the [page_token]. *)
Record Page : Type := mkPage {
  p_resp : Response;
  p_items : list json;
  p_more : json;
  p_next : json
}.

(** The response [r] is a successful page with the given contents. *)
Definition is_page (p : Page) : Prop :=
  let r := p_resp p in
  ((400 <=? status_code r) && (status_code r <? 600))%Z = false
  /\ exists data code files_data items,
      parsed r = Some data
      /\ dict_get data (u "code"%string) JNull = inr code
      /\ py_eq_int code 0 = true
      /\ dict_get data (u "data"%string) empty_obj = inr files_data
      /\ dict_get files_data (u "files"%string) (JArr []) = inr items
      /\ py_iter items = inr (p_items p)
      /\ dict_get files_data (u "has_more"%string) (JBool false) = inr (p_more p)
      /\ dict_get files_data (u "page_token"%string) empty_str = inr (p_next p).

(** The exchanges of a listing that starts with [page_token] and receives
    [pages]. *)
Fixpoint list_trace (py : Python) (token folder_token page_token : json)
    (pages : list Page) : trace :=
  match pages with
  | [] => []
  | p :: rest =>
    EHttp (list_request py token folder_token page_token) (Resp (p_resp p))
    :: list_trace py token folder_token (p_next p) rest
  end.

(** From the trace [tr] on, the server answers the successive listing
    requests with [pages]. *)
Fixpoint serves (py : Python) (env : Env) (token folder_token : json)
    (tr : trace) (page_token : json) (pages : list Page) : Prop :=
  match pages with
  | [] => True
  | p :: rest =>
    http env tr (list_request py token folder_token page_token) = Resp (p_resp p)
    /\ is_page p
    /\ serves py env token folder_token
         (tr ++ [EHttp (list_request py token folder_token page_token)
                       (Resp (p_resp p))])
         (p_next p) rest
  end.

(** The request carries [page_size] 50 and names the folder. *)
Definition page_request (folder_token : json) (req : Request) : Prop :=
  method req = GET /\ url req = FILE_LIST_URL
  /\ In (u "page_size"%string, JInt 50) (params req)
  /\ In (u "folder_token"%string, folder_token) (params req).

(** Each request after the first passes on the [page_token] of the page
    before it (a token that is empty is not passed at all). *)
Fixpoint tokens_passed (page_token : json) (rs : list Request)
    (pages : list Page) : Prop :=
  match rs, pages with
  | req :: rs', p :: pages' =>
    (if truthy page_token
     then In (u "page_token"%string, page_token) (params req)
     else forall v, ~ In (u "page_token"%string, v) (params req))
    /\ tokens_passed (p_next p) rs' pages'
  | [], [] => True
  | _, _ => False
  end.


(** A folder listed in two pages: two items, then one. *)
Definition item (token name type : String.string) : json :=
  JObj [ (u "token"%string, str token); (u "name"%string, str name);
         (u "type"%string, str type) ].

Definition page_body (items : list json) (has_more : bool)
    (page_token : String.string) : json :=
  JObj [ (u "code"%string, JInt 0);
         (u "data"%string,
          JObj [ (u "files"%string, JArr items);
                 (u "has_more"%string, JBool has_more);
                 (u "page_token"%string, str page_token) ]) ].

Definition page_one : Page :=
  mkPage (mkResponse 200
            (Some (page_body [item "t1" "a.txt" "file"; item "t2" "b" "docx"]
                             true "p2")) [])
         [item "t1" "a.txt" "file"; item "t2" "b" "docx"]
         (JBool true) (str "p2").

Definition page_two : Page :=
  mkPage (mkResponse 200 (Some (page_body [item "t3" "c.png" "png"] false "p3")) [])
         [item "t3" "c.png" "png"]
         (JBool false) (str "p3").

Definition has_page_token (req : Request) : bool :=
  existsb (fun kv => PyStr.eqb (fst kv) (u "page_token"%string)) (params req).

Definition env_two_pages : Env :=
  mkEnv (fun _ req => if has_page_token req then Resp (p_resp page_two)
                      else Resp (p_resp page_one))
        (fun _ _ => true) (fun _ _ => true) tick_clock
        (Some (u "app"%string)) (Some (u "secret"%string)).


(** *** Vocabulary for the two download workflows *)

(** The run did not complete. *)
Definition failed {A} (r : result A) : Prop :=
  match r with Val _ => False | _ => True end.

(** The run completed or raised an [Exception]. *)
Definition ordinary {A} (r : result A) : Prop :=
  match r with
  | Val _ => True
  | Exn e => is_Exception e = true
  | OutOfFuel => False
  end.

(** The run did not raise [SystemExit]. *)
Definition no_exit {A} (r : result A) : Prop :=
  match r with Exn e => is_Exception e = true | _ => True end.

(** Either nothing was written and the run failed, or exactly
    [output_path] was written and the run completed. *)
Definition wrote_or_failed (output_path : path) (new : trace)
    (r : result unit) : Prop :=
  (saved new = [] /\ failed r) \/ (saved new = [output_path] /\ r = Val tt).

(** A run of the direct download: the request for the download URL, then
    at most the fetch of that URL. *)
Definition direct_run (py : Python) (token file_token : json)
    (output_path : path) (new : trace) (r : result unit) : Prop :=
  ordinary r
  /\ exists rest,
      reqs new = download_url_request py token file_token :: rest
      /\ ((rest = [] /\ saved new = [] /\ failed r)
          \/ (exists url, rest = [fetch_request url]
                          /\ wrote_or_failed output_path new r)).

(** A run of the export workflow: the request that creates the task, then
    status requests for its ticket, then at most the download of the
    exported file, which needs at least one status request before it. *)
Definition export_run (py : Python) (token file_token : json)
    (file_type extension : pystr) (output_path : path) (new : trace)
    (r : result unit) : Prop :=
  no_exit r
  /\ exists ticket export_file_token k rest,
      reqs new
      = create_export_request py token file_token (JStr file_type)
          (ext_for_api extension file_type)
        :: repeat (query_export_request py token ticket file_token) k ++ rest
      /\ ((rest = [] /\ saved new = [] /\ failed r)
          \/ (rest = [export_download_request py token export_file_token]
              /\ (1 <= k)%nat
              /\ wrote_or_failed output_path new r)).

(** The workflow was invoked: its first request was sent. *)
Definition invoked_direct (py : Python) (token file_token : json)
    (new : trace) : Prop :=
  In (download_url_request py token file_token) (reqs new).

Definition invoked_export (py : Python) (token file_token : json)
    (file_type : pystr) (new : trace) : Prop :=
  exists ext,
    In (create_export_request py token file_token (JStr file_type) ext)
       (reqs new).

(** What [process_file] reads from a listed item: its token, its name (a
    string, or absent) and its type (a string). *)
Definition entry_of (py : Python) (file_info file_token : json)
    (name file_type : pystr) : Prop :=
  dict_get file_info (u "token"%string) JNull = inr file_token
  /\ dict_get file_info (u "name"%string)
       (JStr (u "file_"%string ++ fstr py file_token)) = inr (JStr name)
  /\ dict_get file_info (u "type"%string) empty_str = inr (JStr file_type).

(** The local file name of an item (lines 258 and 278-290). *)
Definition local_name (py : Python) (name file_type : pystr) : pystr :=
  let file_name := sanitize_filename name in
  with_extension py file_name (choose_extension py file_type file_name).

(** The type is one of [types] up to the case of its ASCII letters. *)
Definition type_among (types : list pystr) (file_type : pystr) : Prop :=
  In (List.map ascii_lower file_type) types.


(** The run ended without an exception: it completed or ran out of fuel. *)
Definition settled (r : result unit) : Prop := r = Val tt \/ r = OutOfFuel.

(** A run for a type in neither list: the direct download first; when it
    completed nothing more; when it raised [e], the failure is printed and
    the export workflow runs as a fallback. *)
Definition fallback_run (py : Python) (token file_token : json)
    (file_type extension : pystr) (output_path : path) (new : trace) : Prop :=
  exists n1 r1 n2,
    new = n1 ++ n2
    /\ direct_run py token file_token output_path n1 r1
    /\ match r1 with
       | Val _ => n2 = []
       | Exn e =>
         In (EPrint (MDownloadFailed e)) n2
         /\ exists r2,
             export_run py token file_token file_type extension output_path n2 r2
       | OutOfFuel => False
       end.

(** A server on which every call succeeds at once: one answer serves as
    the ticket, the finished job, the download URL and an empty last page;
    every body has the same three bytes. *)
Definition env_ok : Env :=
  mkEnv (fun _ _ =>
           Resp (mkResponse 200
                   (Some (JObj [ (u "code"%string, JInt 0);
                                 (u "data"%string,
                                  JObj [ (u "ticket"%string, str "ticket1");
                                         (u "url"%string, str "https://cdn.example/f");
                                         (u "result"%string,
                                          JObj [ (u "job_status"%string, JInt 0);
                                                 (u "file_token"%string, str "boxcn") ]);
                                         (u "files"%string, JArr []);
                                         (u "has_more"%string, JBool false) ]) ]))
                   [[1; 2]; []; [3]]%N))
        (fun _ _ => true) (fun _ _ => true) tick_clock
        (Some (u "app"%string)) (Some (u "secret"%string)).


(** *** Vocabulary for error recovery *)

(** A listed item as the API delivers it: a dict whose name, when present,
    and whose type are strings. *)
Definition wf_item (py : Python) (v : json) : Prop :=
  exists file_token name file_type, entry_of py v file_token name file_type.

(** Every listing the server sends holds such items only. *)
Definition listing_wf (py : Python) (env : Env) : Prop :=
  forall tr req r data files_data items l,
    http env tr req = Resp r ->
    parsed r = Some data ->
    dict_get data (u "data"%string) empty_obj = inr files_data ->
    dict_get files_data (u "files"%string) (JArr []) = inr items ->
    py_iter items = inr l ->
    Forall (wf_item py) l.

(** Local directories can be created. *)
Definition dirs_creatable (env : Env) : Prop :=
  forall tr p, mkdir_ok env tr p = true.

(** The event that announces the processing of an item (line 261). *)
Definition announces (py : Python) (file_info : json) (ev : Event) : Prop :=
  exists file_token name file_type,
    entry_of py file_info file_token name file_type
    /\ ev = EPrint (MProcessing (sanitize_filename name) (JStr file_type)).

(** The trace announces an item of that (sanitized) name. *)
Definition mentions (name : pystr) (ev : Event) : bool :=
  match ev with
  | EPrint (MProcessing n _) => PyStr.eqb n name
  | _ => false
  end.

(** A run in which the folder [a] cannot be created locally (say, a file
    of that name is in the way): the listing has the folder [a] and then
    the document [b]. *)
Definition env_blocked_dir : Env :=
  mkEnv (fun _ req =>
           match method req with
           | POST =>
             json_response (JObj [ (u "code"%string, JInt 0);
                                   (u "tenant_access_token"%string, str "t-abc") ])
           | GET =>
             json_response (page_body [item "f1" "a" "folder"; item "d2" "b" "docx"]
                                      false "p")
           end)
        (fun _ p => (length p <=? 1)%nat) (fun _ _ => true) tick_clock
        (Some (u "app"%string)) (Some (u "secret"%string)).


(** The directories a run creates, in order. *)
Definition made (tr : trace) : list path :=
  flat_map (fun ev => match ev with EMkdir p true => [p] | _ => [] end) tr.

(** A server like [env_ok] whose listings hold one text file. *)
Definition env_one_file : Env :=
  mkEnv (fun tr req =>
           if PyStr.eqb (url req) FILE_LIST_URL
           then json_response (page_body [item "x1" "memo" "txt"] false "p")
           else http env_ok tr req)
        (fun _ _ => true) (fun _ _ => true) tick_clock
        (Some (u "app"%string)) (Some (u "secret"%string)).


(* ================================================================== *)
(** ** Vocabulary for the further properties *)

(** The status [raise_for_status] lets pass. *)
Definition status_ok (r : Response) : Prop :=
  ((400 <=? status_code r) && (status_code r <? 600))%Z = false.

(** The member [key] of a JSON object given by its bindings, [dflt] when
    there is none. *)
Definition member (kv : list (pystr * json)) (key : String.string)
    (dflt : json) : json :=
  match assoc (u key) kv with Some v => v | None => dflt end.

(** A server that answers every request with status 404 and a body that
    looks like a success. *)
Definition env_not_found : Env :=
  mkEnv (fun _ _ =>
           Resp (mkResponse 404
                   (Some (JObj [ (u "code"%string, JInt 0);
                                 (u "tenant_access_token"%string, str "t-abc") ]))
                   [[1]]%N))
        (fun _ _ => true) (fun _ _ => true) tick_clock
        (Some (u "app"%string)) (Some (u "secret"%string)).

(** A server that answers every request with an empty JSON object. *)
Definition env_empty_object : Env :=
  mkEnv (fun _ _ => json_response (JObj []))
        (fun _ _ => true) (fun _ _ => true) tick_clock
        (Some (u "app"%string)) (Some (u "secret"%string)).

(** A server that answers every request with code 0 and nothing else. *)
Definition env_bare_success : Env :=
  mkEnv (fun _ _ => json_response (JObj [ (u "code"%string, JInt 0) ]))
        (fun _ _ => true) (fun _ _ => true) tick_clock
        (Some (u "app"%string)) (Some (u "secret"%string)).


(** What a download leaves behind: its one request and nothing else when
    the request failed; after an answer [rsp] that passes the status check,
    the creation of the parent directory and then the file with the body
    of [rsp]. *)
Definition download_events (req : Request) (output_path : path)
    (new : trace) (r : result unit) : Prop :=
  (exists res, new = [EHttp req res] /\ failed r)
  \/ exists rsp,
      status_ok rsp
      /\ ((new = [EHttp req (Resp rsp); EMkdir (parent output_path) false]
           /\ r = Exn OSError)
          \/ (new = [EHttp req (Resp rsp); EMkdir (parent output_path) true;
                     ESave output_path [] false]
              /\ r = Exn OSError)
          \/ (new = [EHttp req (Resp rsp); EMkdir (parent output_path) true;
                     ESave output_path (concat (chunks rsp)) true]
              /\ r = Val tt)).


(** A server whose every answer is a page of a listing that reports
    [has_more]. *)
Definition endless (env : Env) : Prop :=
  forall tr req,
    exists p, http env tr req = Resp (p_resp p) /\ is_page p
              /\ truthy (p_more p) = true.

Definition page_more : Page :=
  mkPage (mkResponse 200 (Some (page_body [item "t1" "a.txt" "file"] true "next")) [])
         [item "t1" "a.txt" "file"] (JBool true) (str "next").

Definition env_always_more : Env :=
  mkEnv (fun _ _ => Resp (p_resp page_more))
        (fun _ _ => true) (fun _ _ => true) tick_clock
        (Some (u "app"%string)) (Some (u "secret"%string)).


(** The answer [rsp] to a status request reports the export as done, with
    the file token [v]: [job_status] is 0, or, in the older format,
    [job_status] is absent and [task_status] is [done]. *)
Definition reports_done (rsp : Response) (v : json) : Prop :=
  exists data d result job_status,
    parsed rsp = Some data
    /\ dict_get data (u "data"%string) empty_obj = inr d
    /\ dict_get d (u "result"%string) empty_obj = inr result
    /\ dict_get result (u "job_status"%string) JNull = inr job_status
    /\ dict_get result (u "file_token"%string) JNull = inr v
    /\ (py_eq_int job_status 0 = true
        \/ (job_status = JNull
            /\ exists task_status,
                dict_get d (u "task_status"%string) JNull = inr task_status
                /\ py_eq_str task_status (u "done"%string) = true)).


(** An extension as the script means it: a dot, then at least one
    character, none of them a dot. *)
Definition dotted (ext : pystr) : bool :=
  match ext with
  | c :: rest =>
    N.eqb c 46 && negb (is_empty rest) && negb (existsb (N.eqb 46) rest)
  | [] => false
  end.

(** The types of line 297 for which [TYPE_TO_EXT] has no entry. *)
Definition UNMAPPED_EXPORT_TYPES : list pystr :=
  Eval cbv in List.map u [ "sheet"; "slide"; "bitable" ]%string.


(** The event is a printed line. *)
Definition printed (ev : Event) : Prop := exists m, ev = EPrint m.


(** A path component free of the nine invalid characters, the slash among
    them. *)
Definition clean_component (comp : pystr) : Prop :=
  forall c, In c comp -> ~ In c invalid_chars.

(** [p] is [root] followed by clean components. *)
Definition below (root p : path) : Prop :=
  exists rest, p = root ++ rest /\ Forall clean_component rest.

(** The directories an event creates and the files it writes lie below
    [root]. *)
Definition touches_below (root : path) (ev : Event) : Prop :=
  match ev with
  | EMkdir p _ => below root p
  | ESave p _ _ => below root p
  | _ => True
  end.


(** The body of [r] is unusable: not JSON at all, which [response.json()]
    answers with [JSONDecodeError], or JSON that is not an object, on which
    [data.get] fails. *)
Definition body_error (r : Response) (e : exn) : Prop :=
  (parsed r = None /\ e = JSONDecodeError)
  \/ (exists v, parsed r = Some v /\ (forall kv, v <> JObj kv) /\ e = WrongType).

(** A server that answers every request with the bytes of a file. *)
Definition env_raw_bytes : Env :=
  mkEnv (fun _ _ => Resp (mkResponse 200 None [[80; 75; 3; 4]]%N))
        (fun _ _ => true) (fun _ _ => true) tick_clock
        (Some (u "app"%string)) (Some (u "secret"%string)).

(** A server whose answers hold a download URL that is not a string. *)
Definition env_null_url : Env :=
  mkEnv (fun _ _ => json_response
                      (JObj [ (u "code"%string, JInt 0);
                              (u "data"%string,
                               JObj [ (u "url"%string, JNull) ]) ]))
        (fun _ _ => true) (fun _ _ => true) tick_clock
        (Some (u "app"%string)) (Some (u "secret"%string)).

(* ================================================================== *)
(** * Properties *)

(** ** Strings *)

Module PyStrFacts.

Lemma eqb_eq (a b : pystr) : PyStr.eqb a b = true <-> a = b.
Proof.
  unfold PyStr.eqb. destruct (list_eq_dec N.eq_dec a b); split; congruence.
Qed.

Lemma eqb_refl (a : pystr) : PyStr.eqb a a = true.
Proof. now apply eqb_eq. Qed.

Lemma eqb_neq (a b : pystr) : PyStr.eqb a b = false <-> a <> b.
Proof.
  unfold PyStr.eqb. destruct (list_eq_dec N.eq_dec a b); split; congruence.
Qed.

(** [drop_while] cuts a prefix of characters satisfying [p] and stops at the
    first character that does not. *)
Lemma drop_while_split (p : codepoint -> bool) (s : pystr) :
  exists w, s = w ++ drop_while p s /\ forallb p w = true.
Proof.
  induction s as [|c r IH]; simpl.
  - exists []. auto.
  - destruct (p c) eqn:E.
    + destruct IH as [w [Hw Hp]]. exists (c :: w). simpl.
      rewrite E, Hp. split; [congruence | reflexivity].
    + exists []. auto.
Qed.

Lemma drop_while_head (p : codepoint -> bool) (s : pystr) c t :
  drop_while p s = c :: t -> p c = false.
Proof.
  induction s as [|d r IH]; simpl; [discriminate|].
  destruct (p d) eqn:E; [exact IH|].
  intros H. injection H as -> _. exact E.
Qed.

Lemma drop_while_id (p : codepoint -> bool) (s : pystr) :
  (forall c t, s = c :: t -> p c = false) -> drop_while p s = s.
Proof.
  destruct s as [|c r]; simpl; [reflexivity|].
  intros H. now rewrite (H c r eq_refl).
Qed.

Lemma drop_while_incl (p : codepoint -> bool) (s : pystr) c :
  In c (drop_while p s) -> In c s.
Proof.
  destruct (drop_while_split p s) as [w [Hw _]].
  intros H. rewrite Hw. apply in_or_app. now right.
Qed.

Lemma rstrip_split (s : pystr) :
  exists w, s = rstrip s ++ w /\ forallb py_isspace w = true.
Proof.
  unfold rstrip.
  destruct (drop_while_split py_isspace (rev s)) as [w [Hw Hp]].
  exists (rev w). split.
  - rewrite <- rev_app_distr, <- Hw. now rewrite rev_involutive.
  - rewrite forallb_forall in *. intros x Hx. apply Hp. now apply in_rev.
Qed.

Lemma rstrip_last (s : pystr) c t :
  rstrip s = t ++ [c] -> py_isspace c = false.
Proof.
  unfold rstrip. intros H.
  apply (f_equal (@rev _)) in H.
  rewrite rev_involutive, rev_app_distr in H. simpl in H.
  exact (drop_while_head _ _ _ _ H).
Qed.

Lemma rstrip_head (s : pystr) c t :
  (forall c' t', s = c' :: t' -> py_isspace c' = false) ->
  rstrip s = c :: t -> py_isspace c = false.
Proof.
  intros Hs H. destruct (rstrip_split s) as [w [Hw _]].
  rewrite H in Hw. simpl in Hw. exact (Hs _ _ Hw).
Qed.

Lemma rstrip_id (s : pystr) :
  (forall c t, s = t ++ [c] -> py_isspace c = false) -> rstrip s = s.
Proof.
  intros H. unfold rstrip. rewrite drop_while_id.
  - apply rev_involutive.
  - intros c t E. apply (H c (rev t)).
    rewrite <- (rev_involutive s), E. reflexivity.
Qed.

Lemma strip_incl (s : pystr) c : In c (strip s) -> In c s.
Proof.
  unfold strip, rstrip, lstrip. intros H.
  apply in_rev in H. apply drop_while_incl in H. apply in_rev in H.
  now apply drop_while_incl in H.
Qed.

Lemma strip_head (s : pystr) c t : strip s = c :: t -> py_isspace c = false.
Proof.
  unfold strip. apply rstrip_head. intros c' t'. apply drop_while_head.
Qed.

Lemma strip_last (s : pystr) c t : strip s = t ++ [c] -> py_isspace c = false.
Proof. unfold strip. apply rstrip_last. Qed.

Lemma strip_id (s : pystr) :
  (forall c t, s = c :: t -> py_isspace c = false) ->
  (forall c t, s = t ++ [c] -> py_isspace c = false) ->
  strip s = s.
Proof.
  intros Hh Hl. unfold strip, lstrip.
  rewrite (drop_while_id _ _ Hh). now apply rstrip_id.
Qed.

End PyStrFacts.

(** ** sanitize_filename *)

Section Sanitize.

(** The chain of [replace] calls maps every character of [cs] to [r] and
    leaves the others. *)
Lemma replace_chain_char (cs : list codepoint) (r x : codepoint) :
  fold_left (fun y c => if N.eqb y c then r else y) cs x
  = if existsb (N.eqb x) cs then r else x.
Proof.
  revert x. induction cs as [|c cs IH]; intros x; simpl; [reflexivity|].
  rewrite IH. destruct (N.eqb x c); simpl; [|reflexivity].
  now destruct (existsb (N.eqb r) cs).
Qed.

Lemma replace_chain (cs : list codepoint) (r : codepoint) (s : pystr) :
  fold_left (fun acc c => replace_char c r acc) cs s
  = List.map (fun x => if existsb (N.eqb x) cs then r else x) s.
Proof.
  revert s. induction cs as [|c cs IH]; intros s; simpl.
  - symmetry. apply map_id.
  - rewrite IH. unfold replace_char. rewrite map_map.
    apply map_ext. intros x. destruct (N.eqb x c); simpl; [|reflexivity].
    now destruct (existsb (N.eqb r) cs).
Qed.

Lemma sanitize_filename_unfold (name : pystr) :
  sanitize_filename name
  = py_or (strip (filter (fun c => (32 <=? c)%N) (List.map clean_char name)))
          (u "unnamed_file"%string).
Proof. unfold sanitize_filename. now rewrite replace_chain. Qed.

Lemma clean_char_valid (x : codepoint) : is_invalid (clean_char x) = false.
Proof.
  unfold clean_char. destruct (is_invalid x) eqn:E; [reflexivity | exact E].
Qed.

Lemma is_invalid_In (c : codepoint) : is_invalid c = false <-> ~ In c invalid_chars.
Proof.
  unfold is_invalid. split.
  - intros H Hin.
    assert (existsb (N.eqb c) invalid_chars = true) as K.
    { apply existsb_exists. exists c. split; [exact Hin | apply N.eqb_refl]. }
    congruence.
  - intros H. destruct (existsb (N.eqb c) invalid_chars) eqn:E; [|reflexivity].
    apply existsb_exists in E. destruct E as [x [Hx Hc]].
    apply N.eqb_eq in Hc. subst. contradiction.
Qed.

Lemma unnamed_file_sanitized : sanitized (u "unnamed_file"%string).
Proof.
  split.
  - intros c Hc. apply is_invalid_In. revert c Hc. apply Forall_forall.
    repeat constructor.
  - apply Forall_forall. repeat constructor; discriminate.
  - intros c t H. injection H as <- _. reflexivity.
  - intros c t H.
    assert (last (u "unnamed_file"%string) 0%N = c) as K.
    { rewrite H. apply last_last. }
    rewrite <- K. reflexivity.
  - discriminate.
Qed.

Lemma sanitize_filename_sanitized (name : pystr) :
  sanitized (sanitize_filename name).
Proof.
  rewrite sanitize_filename_unfold.
  set (body := filter _ _).
  destruct (strip body) as [|c0 t0] eqn:E; simpl.
  - apply unnamed_file_sanitized.
  - rewrite <- E. split.
    + intros c Hc. apply PyStrFacts.strip_incl in Hc. unfold body in Hc.
      apply filter_In in Hc. destruct Hc as [Hc _].
      apply in_map_iff in Hc. destruct Hc as [x [<- _]].
      apply is_invalid_In, clean_char_valid.
    + intros c Hc. apply PyStrFacts.strip_incl in Hc. unfold body in Hc.
      apply filter_In in Hc. destruct Hc as [_ Hc]. now apply N.leb_le.
    + apply PyStrFacts.strip_head.
    + apply PyStrFacts.strip_last.
    + rewrite E. discriminate.
Qed.

Lemma sanitize_filename_fixed (r : pystr) :
  sanitized r -> sanitize_filename r = r.
Proof.
  intros [Hv Hp Hh Hl Hn]. rewrite sanitize_filename_unfold.
  assert (List.map clean_char r = r) as ->.
  { rewrite <- (map_id r) at 2. apply map_ext_in. intros x Hx.
    unfold clean_char. apply Hv, is_invalid_In in Hx. now rewrite Hx. }
  assert (filter (fun c => (32 <=? c)%N) r = r) as ->.
  { apply forallb_filter_id. apply forallb_forall. intros x Hx.
    now apply N.leb_le, Hp. }
  rewrite PyStrFacts.strip_id by assumption.
  destruct r; [contradiction | reflexivity].
Qed.

End Sanitize.

(** C8. For every input string, [sanitize_filename] returns a string that
    contains none of the nine characters of [invalid_chars], contains no
    code point below 32, neither starts nor ends with a whitespace
    character, and is not empty. *)
Theorem sanitize_filename_safe (name : pystr) :
  let r := sanitize_filename name in
  (forall c, In c r -> ~ In c invalid_chars)
  /\ (forall c, In c r -> (32 <= c)%N)
  /\ (forall c t, r = c :: t -> py_isspace c = false)
  /\ (forall c t, r = t ++ [c] -> py_isspace c = false)
  /\ r <> [].
Proof.
  destruct (sanitize_filename_sanitized name) as [Hv Hp Hh Hl Hn].
  cbv zeta. auto.
Qed.

(** C9. [sanitize_filename] is idempotent. *)
Theorem sanitize_filename_idempotent (s : pystr) :
  sanitize_filename (sanitize_filename s) = sanitize_filename s.
Proof. apply sanitize_filename_fixed, sanitize_filename_sanitized. Qed.

(* ================================================================== *)
(** ** Rules for runs *)

Section RunRules.

Variable py : Python.
Variable env : Env.

Lemma reqs_app (a b : trace) : reqs (a ++ b) = reqs a ++ reqs b.
Proof. unfold reqs. now rewrite flat_map_app. Qed.

Lemma saved_app (a b : trace) : saved (a ++ b) = saved a ++ saved b.
Proof. unfold saved. now rewrite flat_map_app. Qed.

Lemma post_ret A (a : A) (S : trace -> result A -> Prop) :
  S [] (Val a) -> post (ret a) S.
Proof. intros H tr. exists []. simpl. now rewrite app_nil_r. Qed.

Lemma post_raise A (e : exn) (S : trace -> result A -> Prop) :
  S [] (Exn e) -> post (raise e) S.
Proof. intros H tr. exists []. simpl. now rewrite app_nil_r. Qed.

Lemma post_out_of_fuel A (S : trace -> result A -> Prop) :
  S [] OutOfFuel -> post out_of_fuel S.
Proof. intros H tr. exists []. simpl. now rewrite app_nil_r. Qed.

Lemma post_emit (ev : Event) (S : trace -> result unit -> Prop) :
  S [ev] (Val tt) -> post (emit ev) S.
Proof. intros H tr. exists [ev]. simpl. auto. Qed.

Lemma post_lift A (x : exn + A) (S : trace -> result A -> Prop) :
  (forall e, x = inl e -> S [] (Exn e)) ->
  (forall a, x = inr a -> S [] (Val a)) ->
  post (lift x) S.
Proof.
  intros He Ha. destruct x; simpl.
  - apply post_raise. now apply He.
  - apply post_ret. now apply Ha.
Qed.

Lemma post_conseq A (m : M A) (S1 S2 : trace -> result A -> Prop) :
  post m S1 -> (forall new r, S1 new r -> S2 new r) -> post m S2.
Proof.
  intros H HS tr. destruct (H tr) as [new [E K]]. exists new. auto.
Qed.

Lemma post_bind A B (m : M A) (k : A -> M B)
    (S1 : trace -> result A -> Prop) (S : trace -> result B -> Prop) :
  post m S1 ->
  (forall n1 a, S1 n1 (Val a) -> post (k a) (fun n2 r => S (n1 ++ n2) r)) ->
  (forall n1 e, S1 n1 (Exn e) -> S n1 (Exn e)) ->
  (forall n1, S1 n1 OutOfFuel -> S n1 OutOfFuel) ->
  post (bind m k) S.
Proof.
  intros Hm Hk He Hf tr. unfold bind.
  destruct (Hm tr) as [n1 [E1 K1]].
  destruct (m tr) as [tr1 r1]. simpl in E1, K1. subst tr1.
  destruct r1 as [a|e|].
  - destruct (Hk n1 a K1 (tr ++ n1)) as [n2 [E2 K2]].
    exists (n1 ++ n2). rewrite app_assoc. auto.
  - exists n1. simpl. auto.
  - exists n1. simpl. auto.
Qed.

Lemma post_try A (m : M A) (h : exn -> M A)
    (S1 S : trace -> result A -> Prop) :
  post m S1 ->
  (forall n1 a, S1 n1 (Val a) -> S n1 (Val a)) ->
  (forall n1 e, S1 n1 (Exn e) -> is_Exception e = true ->
                post (h e) (fun n2 r => S (n1 ++ n2) r)) ->
  (forall n1 e, S1 n1 (Exn e) -> is_Exception e = false -> S n1 (Exn e)) ->
  (forall n1, S1 n1 OutOfFuel -> S n1 OutOfFuel) ->
  post (try_except m h) S.
Proof.
  intros Hm Hv Hh He Hf tr. unfold try_except.
  destruct (Hm tr) as [n1 [E1 K1]].
  destruct (m tr) as [tr1 r1]. simpl in E1, K1. subst tr1.
  destruct r1 as [a|e|].
  - exists n1. simpl. auto.
  - destruct (is_Exception e) eqn:Ex.
    + destruct (Hh n1 e K1 Ex (tr ++ n1)) as [n2 [E2 K2]].
      exists (n1 ++ n2). rewrite app_assoc. auto.
    + exists n1. simpl. auto.
  - exists n1. simpl. auto.
Qed.

Lemma post_send (req : Request) (S : trace -> result Response -> Prop) :
  S [EHttp req ConnFail] (Exn RequestException) ->
  (forall r, S [EHttp req (Resp r)] (Val r)) ->
  post (send env req) S.
Proof.
  intros Hf Hr tr. unfold send. exists [EHttp req (http env tr req)].
  simpl. split; [reflexivity|]. destruct (http env tr req); auto.
Qed.

Lemma post_mkdir (p : path) (S : trace -> result unit -> Prop) :
  S [EMkdir p true] (Val tt) -> S [EMkdir p false] (Exn OSError) ->
  post (mkdir env p) S.
Proof.
  intros Ht Hf tr. unfold mkdir. exists [EMkdir p (mkdir_ok env tr p)].
  simpl. split; [reflexivity|]. destruct (mkdir_ok env tr p); auto.
Qed.

Lemma post_save (p : path) (cs : list (list N))
    (S : trace -> result unit -> Prop) :
  S [ESave p (List.concat cs) true] (Val tt) ->
  S [ESave p [] false] (Exn OSError) ->
  post (save env p cs) S.
Proof.
  intros Ht Hf tr. unfold save.
  exists [ESave p (if save_ok env tr p then List.concat cs else [])
                (save_ok env tr p)].
  simpl. split; [reflexivity|]. destruct (save_ok env tr p); auto.
Qed.

Lemma post_time (S : trace -> result Q -> Prop) :
  (forall t, S [ETime t] (Val t)) -> post (time_time env) S.
Proof.
  intros H tr. unfold time_time. exists [ETime (clock env tr)]. simpl. auto.
Qed.

(** The pure steps of the script append nothing. *)
Lemma post_silent A (m : M A) (S : trace -> result A -> Prop) :
  silent m -> (forall r, S [] r) -> post m S.
Proof.
  intros Hs H tr. exists []. rewrite app_nil_r. split; [apply Hs | apply H].
Qed.

Lemma silent_ret A (a : A) : silent (ret a).
Proof. intros tr. reflexivity. Qed.

Lemma silent_raise A (e : exn) : silent (@raise A e).
Proof. intros tr. reflexivity. Qed.

Lemma silent_lift A (x : exn + A) : silent (lift x).
Proof. destruct x; intros tr; reflexivity. Qed.

Lemma silent_get (d : json) (k : String.string) (dflt : json) :
  silent (get d k dflt).
Proof. apply silent_lift. Qed.

Lemma silent_raise_for_status (r : Response) : silent (raise_for_status r).
Proof. unfold raise_for_status. destruct (_ && _); intros tr; reflexivity. Qed.

Lemma silent_response_json (r : Response) : silent (response_json r).
Proof. unfold response_json. destruct (parsed r); intros tr; reflexivity. Qed.

Lemma silent_bind A B (m : M A) (k : A -> M B) :
  silent m -> (forall a, silent (k a)) -> silent (bind m k).
Proof.
  intros Hm Hk tr. unfold bind. specialize (Hm tr).
  destruct (m tr) as [tr1 [a|e|]]; simpl in *; subst; auto. apply Hk.
Qed.

End RunRules.

(** Decompose a goal [silent m] along the structure of [m]. *)
Ltac silent_tac :=
  repeat first
    [ apply silent_ret | apply silent_raise | apply silent_get
    | apply silent_lift | apply silent_raise_for_status
    | apply silent_response_json
    | apply silent_bind; [| intros ?]
    | match goal with
      | |- silent (if ?c then _ else _) => destruct c
      | |- silent (match ?x with _ => _ end) => destruct x
      end ].

(** ** Rules for a step followed by the rest of the function *)

Section StepRules.

Variable py : Python.
Variable env : Env.
Variables A B : Type.
Variable S : trace -> result B -> Prop.

Lemma post_bind_lift (x : exn + A) (k : A -> M B) :
  (forall e, x = inl e -> S [] (Exn e)) ->
  (forall a, x = inr a -> post (k a) S) ->
  post (bind (lift x) k) S.
Proof.
  intros He Hk. destruct x as [e|a]; simpl.
  - intros tr. exists []. unfold bind, raise. simpl. rewrite app_nil_r. auto.
  - intros tr. destruct (Hk a eq_refl tr) as [new [E K]]. exists new.
    unfold bind, ret. auto.
Qed.

End StepRules.

Section StepRules2.

Variable py : Python.
Variable env : Env.
Variable B : Type.
Variable S : trace -> result B -> Prop.

Lemma post_bind_get (d : json) (key : String.string) (dflt : json)
    (k : json -> M B) :
  S [] (Exn WrongType) ->
  (forall v, post (k v) S) ->
  post (bind (get d key dflt) k) S.
Proof.
  intros He Hk. unfold get. apply post_bind_lift.
  - intros e H. destruct d; simpl in H; try discriminate;
      injection H as <-; exact He.
  - intros a _. apply Hk.
Qed.

Lemma post_get (d : json) (key : String.string) (dflt : json)
    (S' : trace -> result json -> Prop) :
  S' [] (Exn WrongType) ->
  (forall v, S' [] (Val v)) ->
  post (get d key dflt) S'.
Proof.
  intros He Hv. unfold get. apply post_lift.
  - intros e H. destruct d; simpl in H; try discriminate;
      injection H as <-; exact He.
  - intros a _. apply Hv.
Qed.

Lemma post_bind_raise_for_status (r : Response) (k : unit -> M B) :
  (forall s, S [] (Exn (HTTPError s))) ->
  post (k tt) S ->
  post (bind (raise_for_status r) k) S.
Proof.
  intros He Hk. unfold raise_for_status. destruct (_ && _).
  - intros tr. exists []. unfold bind, raise. simpl. rewrite app_nil_r. auto.
  - intros tr. destruct (Hk tr) as [new [E K]]. exists new.
    unfold bind, ret. auto.
Qed.

Lemma post_bind_response_json (r : Response) (k : json -> M B) :
  S [] (Exn JSONDecodeError) ->
  (forall j, post (k j) S) ->
  post (bind (response_json r) k) S.
Proof.
  intros He Hk. unfold response_json. destruct (parsed r) as [j|].
  - intros tr. destruct (Hk j tr) as [new [E K]]. exists new.
    unfold bind, ret. auto.
  - intros tr. exists []. unfold bind, raise. simpl. rewrite app_nil_r. auto.
Qed.

Lemma post_bind_emit (ev : Event) (k : unit -> M B) :
  post (k tt) (fun n2 r => S (ev :: n2) r) ->
  post (bind (emit ev) k) S.
Proof.
  intros Hk tr. unfold bind, emit.
  destruct (Hk (tr ++ [ev])) as [new [E K]]. exists (ev :: new).
  rewrite E, <- app_assoc. auto.
Qed.

Lemma post_bind_print (m : Msg) (k : unit -> M B) :
  post (k tt) (fun n2 r => S (EPrint m :: n2) r) ->
  post (bind (print m) k) S.
Proof. apply post_bind_emit. Qed.

Lemma post_bind_send (req : Request) (k : Response -> M B) :
  S [EHttp req ConnFail] (Exn RequestException) ->
  (forall r, post (k r) (fun n2 res => S (EHttp req (Resp r) :: n2) res)) ->
  post (bind (send env req) k) S.
Proof.
  intros Hf Hk tr. unfold bind, send.
  destruct (http env tr req) as [|r].
  - exists [EHttp req ConnFail]. auto.
  - destruct (Hk r (tr ++ [EHttp req (Resp r)])) as [new [E K]].
    exists (EHttp req (Resp r) :: new). rewrite E, <- app_assoc. auto.
Qed.

Lemma post_bind_mkdir (p : path) (k : unit -> M B) :
  S [EMkdir p false] (Exn OSError) ->
  post (k tt) (fun n2 r => S (EMkdir p true :: n2) r) ->
  post (bind (mkdir env p) k) S.
Proof.
  intros Hf Hk tr. unfold bind, mkdir.
  destruct (mkdir_ok env tr p).
  - destruct (Hk (tr ++ [EMkdir p true])) as [new [E K]].
    exists (EMkdir p true :: new). rewrite E, <- app_assoc. auto.
  - exists [EMkdir p false]. auto.
Qed.

Lemma post_bind_time (k : Q -> M B) :
  (forall t, post (k t) (fun n2 r => S (ETime t :: n2) r)) ->
  post (bind (time_time env) k) S.
Proof.
  intros Hk tr. unfold bind, time_time.
  destruct (Hk (clock env tr) (tr ++ [ETime (clock env tr)])) as [new [E K]].
  exists (ETime (clock env tr) :: new). rewrite E, <- app_assoc. auto.
Qed.

End StepRules2.

(** Walk through a function body step by step; what remains are the
    conditions on the events and results at its exits. *)
Ltac wp_step :=
  first
    [ apply post_bind_get; [| intros ?]
    | apply post_bind_raise_for_status; [intros ? |]
    | apply post_bind_response_json; [| intros ?]
    | apply post_bind_print
    | apply post_bind_emit
    | apply post_bind_send; [| intros ?]
    | apply post_bind_mkdir
    | apply post_bind_time; intros ?
    | apply post_bind_lift; [intros ? ? | intros ? ?]
    | apply post_get; [| intros ?]
    | apply post_ret | apply post_raise | apply post_out_of_fuel
    | apply post_emit
    | apply post_save
    | apply post_mkdir
    | match goal with
      | |- post (if ?c then _ else _) _ => destruct c
      | |- post (match ?x with _ => _ end) _ => destruct x
      end ].

Ltac wp_tac := repeat wp_step.

(** ** Event invariants *)

Section Appends.

Variable py : Python.
Variable env : Env.
Variable P : Event -> Prop.

Lemma appends_ret A (a : A) : appends P (ret a).
Proof. apply post_ret. constructor. Qed.

Lemma appends_raise A (e : exn) : appends P (@raise A e).
Proof. apply post_raise. constructor. Qed.

Lemma appends_out_of_fuel A : appends P (@out_of_fuel A).
Proof. apply post_out_of_fuel. constructor. Qed.

Lemma appends_silent A (m : M A) : silent m -> appends P m.
Proof. intros H. apply post_silent; [exact H | constructor]. Qed.

Lemma appends_emit (ev : Event) : P ev -> appends P (emit ev).
Proof. intros H. apply post_emit. auto. Qed.

Lemma appends_print (m : Msg) : P (EPrint m) -> appends P (print m).
Proof. apply appends_emit. Qed.

Lemma appends_bind A B (m : M A) (k : A -> M B) :
  appends P m -> (forall a, appends P (k a)) -> appends P (bind m k).
Proof.
  intros Hm Hk. eapply post_bind; [exact Hm | | auto | auto].
  intros n1 a H1. eapply post_conseq; [apply Hk|].
  intros new r H2. apply Forall_app. auto.
Qed.

Lemma appends_try A (m : M A) (h : exn -> M A) :
  appends P m -> (forall e, appends P (h e)) -> appends P (try_except m h).
Proof.
  intros Hm Hh. eapply post_try; [exact Hm | auto | | auto | auto].
  intros n1 e H1 _. eapply post_conseq; [apply Hh|].
  intros new r H2. apply Forall_app. auto.
Qed.

Lemma appends_send (req : Request) :
  (forall res, P (EHttp req res)) -> appends P (send env req).
Proof. intros H. apply post_send; auto. Qed.

Lemma appends_mkdir (p : path) :
  (forall ok, P (EMkdir p ok)) -> appends P (mkdir env p).
Proof. intros H. apply post_mkdir; auto. Qed.

Lemma appends_save (p : path) (cs : list (list N)) :
  (forall d ok, P (ESave p d ok)) -> appends P (save env p cs).
Proof. intros H. apply post_save; auto. Qed.

Lemma appends_time : (forall t, P (ETime t)) -> appends P (time_time env).
Proof. intros H. apply post_time; auto. Qed.

Lemma appends_for_each A (l : list A) (f : A -> M unit) :
  (forall x, In x l -> appends P (f x)) -> appends P (for_each l f).
Proof.
  induction l as [|x r IH]; intros H; simpl.
  - apply appends_ret.
  - apply appends_bind; [apply H; now left|].
    intros _. apply IH. intros y Hy. apply H. now right.
Qed.

End Appends.

(** Decompose a goal [appends P m] along the structure of [m]; what
    remains are the events themselves and the calls of other functions. *)
Ltac appends_step :=
  first
    [ apply appends_ret | apply appends_raise | apply appends_out_of_fuel
    | apply appends_silent; solve [silent_tac]
    | apply appends_bind; [| intros ?]
    | apply appends_try; [| intros ?]
    | apply appends_print | apply appends_emit
    | apply appends_send; intros ?
    | apply appends_mkdir; intros ?
    | apply appends_save; intros ? ?
    | apply appends_time; intros ?
    | match goal with
      | |- appends _ (if ?c then _ else _) => destruct c
      | |- appends _ (match ?x with _ => _ end) => destruct x
      end ].

Ltac appends_tac := repeat appends_step.

(** ** One token for the whole run *)

Section OneToken.

Variable py : Python.
Variable env : Env.
Variable token : json.

Let P := with_token py token.

Ltac token_tac :=
  appends_tac; try solve [exact I | split; reflexivity].

Lemma list_files_loop_token fuel folder_token files page_token :
  appends P (list_files_loop py env fuel token folder_token files page_token).
Proof.
  revert files page_token.
  induction fuel as [|n IH]; intros files page_token; simpl.
  - apply appends_out_of_fuel.
  - token_tac. apply IH.
Qed.

Lemma get_file_download_url_token file_token :
  appends P (get_file_download_url py env token file_token).
Proof. unfold get_file_download_url. token_tac. Qed.

Lemma download_file_token url output_path :
  appends P (download_file env url output_path).
Proof. unfold download_file. token_tac. Qed.

Lemma create_export_task_token file_token file_type ext :
  appends P (create_export_task py env token file_token file_type ext).
Proof. unfold create_export_task. token_tac. Qed.

Lemma query_once_token ticket file_token :
  appends P (query_once py env token ticket file_token).
Proof. unfold query_once. token_tac. Qed.

Lemma query_loop_token fuel ticket file_token start_time max_wait :
  appends P (query_loop py env fuel token ticket file_token start_time max_wait).
Proof.
  induction fuel as [|n IH]; simpl.
  - apply appends_out_of_fuel.
  - appends_step; [token_tac|].
    destruct (Qlt_le_dec _ _); [|apply appends_raise].
    appends_step; [apply query_once_token|].
    destruct a0; [apply appends_ret|].
    appends_step; [apply appends_emit; exact I | apply IH].
Qed.

Lemma query_export_task_token fuel ticket file_token max_wait :
  appends P (query_export_task py env fuel token ticket file_token max_wait).
Proof.
  unfold query_export_task. appends_step; [token_tac|]. apply query_loop_token.
Qed.

Lemma download_exported_file_token export_file_token output_path :
  appends P (download_exported_file py env token export_file_token output_path).
Proof. unfold download_exported_file. token_tac. Qed.

Lemma export_workflow_token fuel file_token file_type ext output_path :
  appends P (export_workflow py env fuel token file_token file_type ext output_path).
Proof.
  unfold export_workflow.
  appends_step; [apply create_export_task_token|].
  appends_step; [apply query_export_task_token|].
  appends_step; [apply download_exported_file_token|].
  token_tac.
Qed.

Lemma direct_workflow_token file_token output_path :
  appends P (direct_workflow py env token file_token output_path).
Proof.
  unfold direct_workflow.
  appends_step; [apply get_file_download_url_token|].
  appends_step; [apply download_file_token|].
  token_tac.
Qed.

Lemma download_entry_token fuel file_token file_type ext output_path :
  appends P (download_entry py env fuel token file_token file_type ext output_path).
Proof.
  unfold download_entry.
  pose proof (export_workflow_token fuel file_token file_type ext output_path).
  pose proof (direct_workflow_token file_token output_path).
  appends_step; [|token_tac].
  destruct (mem _ _).
  { appends_step; [token_tac | assumption]. }
  destruct (mem _ _); [assumption|].
  appends_step; [assumption|].
  appends_step; [token_tac|].
  appends_step; [|token_tac].
  appends_step; [token_tac | assumption].
Qed.

Lemma process_file_token fuel file_info output_dir :
  appends P (process_file py env fuel token file_info output_dir).
Proof.
  revert file_info output_dir.
  induction fuel as [|n IH]; intros file_info output_dir; simpl.
  - apply appends_out_of_fuel.
  - do 5 (appends_step; [token_tac|]).
    destruct (py_eq_str _ _).
    + do 2 (appends_step; [token_tac|]).
      appends_step; [|token_tac].
      appends_step; [apply list_files_loop_token|].
      apply appends_for_each. intros x _. apply IH.
    + destruct a2; try apply appends_raise. apply download_entry_token.
Qed.

End OneToken.

Section MainToken.

Variable py : Python.
Variable env : Env.

Lemma get_tenant_access_token_trace (tr : trace) :
  fst (get_tenant_access_token env tr)
  = tr ++ [EHttp (token_request env) (http env tr (token_request env))].
Proof.
  unfold get_tenant_access_token, bind at 1, send.
  destruct (http env tr (token_request env)) as [|r]; [reflexivity|].
  match goal with |- fst (?k ?t) = _ => assert (silent k) as Hs end.
  { silent_tac. }
  apply Hs.
Qed.

Lemma print_items_offline i files : appends offline (print_items py i files).
Proof.
  revert i. induction files as [|f r IH]; intros i; simpl.
  - apply appends_ret.
  - appends_tac; try exact I. apply IH.
Qed.

Lemma print_items_token token i files :
  appends (with_token py token) (print_items py i files).
Proof.
  eapply post_conseq; [apply print_items_offline|].
  intros new r H. eapply Forall_impl; [|exact H].
  intros ev Ha. destruct ev; simpl in *; auto. contradiction.
Qed.

End MainToken.


(** ** The poll loop of query_export_task *)

Section Poll.

Variable py : Python.
Variable env : Env.
Variables token ticket file_token : json.

Let q := query_export_request py token ticket file_token.

(** One round sends one status request; it ends with a verdict or with an
    error of the job or of the request. *)
Lemma query_once_spec :
  post (query_once py env token ticket file_token)
       (fun new r =>
          (exists res, new = [EHttp q res])
          /\ match r with
             | Val _ => True
             | Exn e => job_failure e || query_failure e = true
             | OutOfFuel => False
             end).
Proof.
  unfold query_once. fold q. wp_tac; simpl; eauto.
Qed.

Lemma inject_nat_succ (n : nat) :
  inject_Z (Z.of_nat (S n)) == inject_Z (Z.of_nat n) + 1.
Proof.
  rewrite Nat2Z.inj_succ. unfold Z.succ. rewrite inject_Z_plus. reflexivity.
Qed.

Variable max_wait : Q.
Hypothesis Hclock : clock_advances env.

Let loop_spec (fuel : nat) (start : Q) (new : trace) (r : result json) : Prop :=
  Forall (poll_event py token ticket file_token) new
  /\ (length (reqs new) <= fuel)%nat
  /\ (poll_outcome r \/ exists e, r = Exn e /\ query_failure e = true)
  /\ (r = Exn ExportTimedOut ->
      exists mid now, new = mid ++ [ETime now] /\ max_wait <= now - start).

(** The loop ends within [fuel] rounds once [fuel] exceeds the time that is
    left by one. *)
Lemma query_loop_spec (k fuel : nat) (start : Q) (tr : trace) :
  (0 < k <= fuel)%nat ->
  max_wait - (clock env tr - start) + 1 <= inject_Z (Z.of_nat k) ->
  exists new r,
    query_loop py env fuel token ticket file_token start max_wait tr
    = (tr ++ new, r)
    /\ loop_spec k start new r.
Proof.
  destruct Hclock as [Hmono Hsleep].
  revert fuel tr. induction k as [|n IH]; intros fuel tr Hpos Hfuel; [lia|].
  destruct fuel as [|fuel]; [lia|].
  simpl. unfold bind at 1, time_time.
  set (now := clock env tr). set (tr1 := tr ++ [ETime now]).
  destruct (Qlt_le_dec (now - start) max_wait) as [Hlt|Hge].
  - unfold bind at 1.
    destruct (query_once_spec tr1) as [n1 [E1 [[res Hres] Hclass]]].
    destruct (query_once py env token ticket file_token tr1) as [tr2 r2].
    simpl in E1, Hclass. subst tr2 n1. fold q.
    destruct r2 as [[ft|[]]|e|]; [| | |contradiction].
    + exists [ETime now; EHttp q res], (Val ft).
      unfold ret, tr1. rewrite <- app_assoc. split; [reflexivity|].
      repeat split.
      * repeat constructor.
      * simpl. lia.
      * left. left. eauto.
      * discriminate.
    + unfold bind at 1, time_sleep, emit.
      set (tr3 := (tr1 ++ [EHttp q res]) ++ [ESleep 1]).
      assert (now + 1 <= clock env tr3) as Hadv.
      { unfold tr3, tr1, now.
        pose proof (Hmono tr (ETime (clock env tr))).
        pose proof (Hmono (tr ++ [ETime (clock env tr)]) (EHttp q res)).
        pose proof (Hsleep ((tr ++ [ETime (clock env tr)]) ++ [EHttp q res])).
        lra. }
      pose proof (inject_nat_succ n) as Hs.
      fold now in Hfuel.
      assert (0 < n)%nat as Hn.
      { destruct n; [|lia]. change (inject_Z (Z.of_nat 1)) with 1 in Hfuel. lra. }
      destruct (IH fuel tr3) as [new [r [E [Hev [Hlen [Hout Hto]]]]]]; [lia|lra|].
      exists ([ETime now; EHttp q res; ESleep 1] ++ new), r.
      split.
      { rewrite E. unfold tr3, tr1. now rewrite <- !app_assoc. }
      repeat split.
      * apply Forall_app. split; [repeat constructor | exact Hev].
      * rewrite reqs_app, length_app. simpl. lia.
      * exact Hout.
      * intros Hr. destruct (Hto Hr) as [mid [t [-> Ht]]].
        exists ([ETime now; EHttp q res; ESleep 1] ++ mid), t.
        split; [now rewrite <- app_assoc | exact Ht].
    + exists [ETime now; EHttp q res], (Exn e).
      unfold tr1. rewrite <- app_assoc. split; [reflexivity|].
      repeat split.
      * repeat constructor.
      * simpl. lia.
      * apply orb_true_iff in Hclass. destruct Hclass as [H|H].
        -- left. right. left. eauto.
        -- right. eauto.
      * intros H. injection H as ->. discriminate.
  - exists [ETime now], (Exn ExportTimedOut). unfold raise, tr1.
    split; [reflexivity|].
    repeat split.
    + repeat constructor.
    + simpl. lia.
    + left. right. right. reflexivity.
    + intros _. exists [], now. auto.
Qed.

End Poll.

Lemma poll_bound_enough (max_wait elapsed : Q) :
  0 <= elapsed ->
  max_wait - elapsed + 1 <= inject_Z (Z.of_nat (poll_bound max_wait)).
Proof.
  intros He. unfold poll_bound. rewrite inject_nat_succ.
  pose proof (Qle_ceiling max_wait) as Hc.
  assert (inject_Z (Qceiling max_wait)
          <= inject_Z (Z.of_nat (Z.to_nat (Qceiling max_wait)))) as Hz.
  { rewrite <- Zle_Qle. lia. }
  lra.
Qed.

Lemma tick_clock_advances (e : Env) :
  clock e = tick_clock -> clock_advances e.
Proof.
  intros H. unfold clock_advances. rewrite H. unfold tick_clock. split.
  - intros tr ev. rewrite <- Zle_Qle, length_app. simpl. lia.
  - intros tr. rewrite length_app. simpl.
    replace (length tr + 1)%nat with (S (length tr)) by lia.
    rewrite inject_nat_succ. lra.
Qed.

(** C6 (as amended). With a clock that never runs backwards and a
    [time.sleep(1)] that takes at least a second, [query_export_task] ends
    within [poll_bound max_wait] rounds: it reads the start time, then only
    reads the clock, sends the status request and sleeps one second between
    two requests; it ends with the file token, with the error of a failed
    job, with the error of a failed status request, or with the timeout
    error, the latter only when [max_wait] seconds have passed since the
    start. *)
Theorem query_export_task_terminates (py : Python) (env : Env)
    (token ticket file_token : json) (max_wait : Q) (fuel : nat) (tr : trace) :
  clock_advances env ->
  (poll_bound max_wait <= fuel)%nat ->
  exists start new r,
    query_export_task py env fuel token ticket file_token max_wait tr
    = (tr ++ ETime start :: new, r)
    /\ Forall (poll_event py token ticket file_token) new
    /\ (length (reqs new) <= poll_bound max_wait)%nat
    /\ (poll_outcome r \/ exists e, r = Exn e /\ query_failure e = true)
    /\ (r = Exn ExportTimedOut ->
        exists mid now, new = mid ++ [ETime now] /\ max_wait <= now - start).
Proof.
  intros Hclock Hfuel. unfold query_export_task, bind at 1, time_time.
  set (start := clock env tr).
  destruct (query_loop_spec py env token ticket file_token max_wait Hclock
              (poll_bound max_wait) fuel start (tr ++ [ETime start]))
    as [new [r [E H]]].
  - unfold poll_bound in *. lia.
  - apply (poll_bound_enough max_wait (clock env (tr ++ [ETime start]) - start)).
    destruct Hclock as [Hmono _]. specialize (Hmono tr (ETime start)).
    fold start in Hmono. lra.
  - exists start, new, r. rewrite E, <- app_assoc. split; [reflexivity|].
    exact H.
Qed.

Lemma query_export_task_terminates_witness :
  exists start new r,
    query_export_task demo_py env_job_done 61 (str "t-abc") (str "ticket1")
      (str "doccn1") 60 []
    = ([] ++ ETime start :: new, r)
    /\ Forall (poll_event demo_py (str "t-abc") (str "ticket1") (str "doccn1")) new
    /\ (length (reqs new) <= poll_bound 60)%nat
    /\ (poll_outcome r \/ exists e, r = Exn e /\ query_failure e = true)
    /\ (r = Exn ExportTimedOut ->
        exists mid now, new = mid ++ [ETime now] /\ 60 <= now - start).
Proof.
  apply (query_export_task_terminates demo_py env_job_done (str "t-abc")
           (str "ticket1") (str "doccn1") 60 61 []).
  - apply tick_clock_advances. reflexivity.
  - vm_compute. lia.
Defined.

(** C6 (as stated) fails: when the status request is answered with a
    non-zero API code, the loop ends with the error of that request, which
    is neither a file token, nor the error of a failed job, nor the
    timeout. *)
Lemma query_export_task_request_error :
  clock_advances env_denied
  /\ snd (query_export_task demo_py env_denied 61 (str "t-abc") (str "ticket1")
            (str "doccn1") 60 [])
     = Exn (ApiError CallQueryExport (str "token invalid"))
  /\ ~ poll_outcome
       (snd (query_export_task demo_py env_denied 61 (str "t-abc")
               (str "ticket1") (str "doccn1") 60 [])).
Proof.
  assert (snd (query_export_task demo_py env_denied 61 (str "t-abc")
                 (str "ticket1") (str "doccn1") 60 [])
          = Exn (ApiError CallQueryExport (str "token invalid"))) as E.
  { vm_compute. reflexivity. }
  split; [apply tick_clock_advances; reflexivity|].
  split; [exact E|].
  rewrite E. intros [[v H]|[[e [H1 H2]]|H]].
  - discriminate.
  - injection H1 as <-. discriminate.
  - discriminate.
Qed.

(** ** Paging through a folder listing *)

Section Listing.

Variable py : Python.
Variable env : Env.
Variables token folder_token : json.

Lemma list_files_loop_page (n : nat) (files : list json) (page_token : json)
    (p : Page) (tr : trace) :
  http env tr (list_request py token folder_token page_token) = Resp (p_resp p) ->
  is_page p ->
  list_files_loop py env (S n) token folder_token files page_token tr
  = let tr' := tr ++ [EHttp (list_request py token folder_token page_token)
                            (Resp (p_resp p))] in
    if truthy (p_more p)
    then list_files_loop py env n token folder_token (files ++ p_items p)
           (p_next p) tr'
    else (tr', Val (files ++ p_items p)).
Proof.
  intros Hhttp [Hst [data [code [fd [items [Hp [Hc [Hz [Hd [Hf [Hi [Hm Ht]]]]]]]]]]]].
  cbn [list_files_loop]. unfold bind at 1, send. rewrite Hhttp. cbv zeta.
  unfold bind at 1, raise_for_status. rewrite Hst. unfold ret at 1.
  unfold bind at 1, response_json. rewrite Hp. unfold ret at 1.
  unfold bind at 1, get at 1. rewrite Hc. unfold lift at 1, ret at 1.
  rewrite Hz. cbn [negb].
  unfold bind at 1, get at 1. rewrite Hd. unfold lift at 1, ret at 1.
  unfold bind at 1, get at 1. rewrite Hf. unfold lift at 1, ret at 1.
  unfold bind at 1. rewrite Hi. unfold lift at 1, ret at 1.
  unfold bind at 1, get at 1. rewrite Hm. unfold lift at 1, ret at 1.
  destruct (truthy (p_more p)); cbn [negb].
  - unfold bind at 1, get at 1. rewrite Ht. unfold lift at 1, ret at 1.
    reflexivity.
  - reflexivity.
Qed.

Lemma list_files_loop_pages (pages : list Page) (last : Page) :
  forall (fuel : nat) (files : list json) (page_token : json) (tr : trace),
  serves py env token folder_token tr page_token (pages ++ [last]) ->
  Forall (fun p => truthy (p_more p) = true) pages ->
  truthy (p_more last) = false ->
  (length pages < fuel)%nat ->
  list_files_loop py env fuel token folder_token files page_token tr
  = (tr ++ list_trace py token folder_token page_token (pages ++ [last]),
     Val (files ++ concat (List.map p_items (pages ++ [last])))).
Proof.
  induction pages as [|p rest IH]; intros fuel files page_token tr Hs Hmore Hlast Hfuel;
    (destruct fuel as [|n]; [simpl in Hfuel; lia|]).
  - simpl in Hs. destruct Hs as [Hhttp [Hpage _]].
    rewrite (list_files_loop_page n files page_token last tr Hhttp Hpage).
    cbv zeta. rewrite Hlast. simpl. now rewrite app_nil_r.
  - simpl in Hs. destruct Hs as [Hhttp [Hpage Hrest]].
    rewrite (list_files_loop_page n files page_token p tr Hhttp Hpage).
    cbv zeta. inversion Hmore as [|? ? Hp Hmore']; subst. rewrite Hp.
    rewrite (IH n (files ++ p_items p) (p_next p) _ Hrest Hmore' Hlast)
      by (simpl in Hfuel; lia).
    simpl. now rewrite <- !app_assoc.
Qed.

Lemma list_trace_requests (page_token : json) (pages : list Page) :
  Forall (page_request folder_token)
         (reqs (list_trace py token folder_token page_token pages))
  /\ tokens_passed page_token
       (reqs (list_trace py token folder_token page_token pages)) pages
  /\ length (reqs (list_trace py token folder_token page_token pages))
     = length pages.
Proof.
  revert page_token. induction pages as [|p rest IH]; intros page_token; simpl.
  - repeat split. constructor.
  - destruct (IH (p_next p)) as [H1 [H2 H3]]. repeat split.
    + constructor; [|exact H1].
      unfold page_request, list_request, list_params. simpl. intuition.
    + unfold list_request, list_params. simpl.
      destruct (truthy page_token); simpl; [auto|].
      intros v [H|[H|[]]]; apply (f_equal fst) in H; vm_compute in H;
        discriminate.
    + exact H2.
    + now rewrite H3.
Qed.

End Listing.

(** C4. When the server answers the successive listing requests with the
    pages [pages ++ [last]], every page of [pages] reporting [has_more] and
    [last] not, [list_files_in_folder] sends exactly one request per page,
    each for 50 items of the folder and each passing on the [page_token] of
    the page before it, stops after [last], and returns the items of all
    the pages in order. *)
Theorem list_files_in_folder_pages (py : Python) (env : Env)
    (token folder_token : json) (pages : list Page) (last : Page)
    (fuel : nat) (tr : trace) :
  serves py env token folder_token tr empty_str (pages ++ [last]) ->
  Forall (fun p => truthy (p_more p) = true) pages ->
  truthy (p_more last) = false ->
  (length pages < fuel)%nat ->
  exists new,
    list_files_in_folder py env fuel token folder_token tr
    = (tr ++ new, Val (concat (List.map p_items (pages ++ [last]))))
    /\ new = list_trace py token folder_token empty_str (pages ++ [last])
    /\ Forall (page_request folder_token) (reqs new)
    /\ tokens_passed empty_str (reqs new) (pages ++ [last])
    /\ length (reqs new) = S (length pages).
Proof.
  intros Hs Hmore Hlast Hfuel.
  exists (list_trace py token folder_token empty_str (pages ++ [last])).
  unfold list_files_in_folder.
  rewrite (list_files_loop_pages py env token folder_token pages last fuel []
             empty_str tr Hs Hmore Hlast Hfuel).
  destruct (list_trace_requests py token folder_token empty_str (pages ++ [last]))
    as [H1 [H2 H3]].
  repeat split; auto.
  rewrite H3, length_app. simpl. lia.
Qed.

Lemma page_one_is_page : is_page page_one.
Proof.
  split; [reflexivity|]. do 4 eexists.
  repeat (split; [reflexivity|]). reflexivity.
Qed.

Lemma page_two_is_page : is_page page_two.
Proof.
  split; [reflexivity|]. do 4 eexists.
  repeat (split; [reflexivity|]). reflexivity.
Qed.

Lemma list_files_in_folder_pages_witness :
  exists new,
    list_files_in_folder demo_py env_two_pages 2 (str "t-abc") (str "fld") []
    = ([] ++ new, Val (concat (List.map p_items ([page_one] ++ [page_two]))))
    /\ new = list_trace demo_py (str "t-abc") (str "fld") empty_str
               ([page_one] ++ [page_two])
    /\ Forall (page_request (str "fld")) (reqs new)
    /\ tokens_passed empty_str (reqs new) ([page_one] ++ [page_two])
    /\ length (reqs new) = S (length [page_one]).
Proof.
  apply (list_files_in_folder_pages demo_py env_two_pages (str "t-abc")
           (str "fld") [page_one] page_two 2 []).
  - simpl. repeat split; try reflexivity.
    + apply page_one_is_page.
    + apply page_two_is_page.
  - repeat constructor.
  - reflexivity.
  - simpl. lia.
Defined.

(** ** The two download workflows *)

Section Workflows.

Variable py : Python.
Variable env : Env.
Variables token file_token : json.

(** Close the conditions at the exits of a function body. *)
Ltac exits :=
  cbv beta; simpl;
  repeat match goal with
         | |- _ /\ _ => split
         | |- True => exact I
         | |- ?x = ?x => reflexivity
         end;
  try solve [ auto | discriminate | left; auto | right; auto ].

Lemma create_export_task_spec (file_type : json) (ext : pystr) :
  post (create_export_task py env token file_token file_type ext)
       (fun new r =>
          ordinary r /\ saved new = []
          /\ reqs new = [create_export_request py token file_token file_type ext]).
Proof. unfold create_export_task. wp_tac; exits. Qed.

Lemma get_file_download_url_spec :
  post (get_file_download_url py env token file_token)
       (fun new r =>
          ordinary r /\ saved new = []
          /\ reqs new = [download_url_request py token file_token]).
Proof. unfold get_file_download_url. wp_tac; exits. Qed.

Lemma download_exported_file_spec (export_file_token : json) (p : path) :
  post (download_exported_file py env token export_file_token p)
       (fun new r =>
          ordinary r /\ wrote_or_failed p new r
          /\ reqs new = [export_download_request py token export_file_token]).
Proof.
  unfold download_exported_file, wrote_or_failed, failed. wp_tac; exits.
Qed.

Lemma download_file_spec (url : json) (p : path) :
  post (download_file env url p)
       (fun new r =>
          ordinary r
          /\ ((reqs new = [] /\ saved new = [] /\ failed r)
              \/ exists s, reqs new = [fetch_request s]
                           /\ wrote_or_failed p new r)).
Proof.
  unfold download_file, wrote_or_failed, failed.
  destruct url; try (apply post_raise; exits).
  wp_tac; exits; right; exists s; exits.
Qed.

Lemma query_failure_Exception (e : exn) :
  job_failure e || query_failure e = true -> is_Exception e = true.
Proof. destruct e; simpl; auto; discriminate. Qed.

Lemma query_loop_run (ticket : json) (fuel : nat) (start max_wait : Q) :
  post (query_loop py env fuel token ticket file_token start max_wait)
       (fun new r =>
          no_exit r /\ saved new = []
          /\ exists k,
              reqs new = repeat (query_export_request py token ticket file_token) k
              /\ (forall v, r = Val v -> (1 <= k)%nat)).
Proof.
  induction fuel as [|n IH]; simpl.
  - apply post_out_of_fuel. exits. exists 0%nat. exits.
  - apply post_bind_time. intros t.
    destruct (Qlt_le_dec (t - start) max_wait).
    + eapply post_bind; [apply query_once_spec | | | ].
      * intros n1 a [[res ->] _]. destruct a as [ft|[]].
        -- apply post_ret. exits. exists 1%nat. exits.
        -- apply post_bind_emit. eapply post_conseq; [apply IH|].
           intros new r [H1 [H2 [k [H3 H4]]]]. exits.
           exists (S k). rewrite H3. simpl. split; [reflexivity|].
           intros. lia.
      * intros n1 e [[res ->] Hc]. exits.
        -- now apply query_failure_Exception.
        -- exists 1%nat. exits.
      * intros n1 [_ []].
    + apply post_raise. exits. exists 0%nat. exits.
Qed.

Lemma query_export_task_run (ticket : json) (fuel : nat) (max_wait : Q) :
  post (query_export_task py env fuel token ticket file_token max_wait)
       (fun new r =>
          no_exit r /\ saved new = []
          /\ exists k,
              reqs new = repeat (query_export_request py token ticket file_token) k
              /\ (forall v, r = Val v -> (1 <= k)%nat)).
Proof.
  unfold query_export_task. apply post_bind_time. intros t.
  eapply post_conseq; [apply query_loop_run|].
  intros new r H. exact H.
Qed.

Lemma ordinary_no_exit A (r : result A) : ordinary r -> no_exit r.
Proof. destruct r; simpl; auto. Qed.

Lemma export_workflow_spec (fuel : nat) (file_type ext : pystr) (p : path) :
  post (export_workflow py env fuel token file_token file_type ext p)
       (export_run py token file_token file_type ext p).
Proof.
  unfold export_workflow, export_run, wrote_or_failed.
  eapply post_bind; [apply create_export_task_spec | | | ].
  - intros n1 ticket [_ [Hs1 Hr1]].
    eapply post_bind; [apply (query_export_task_run ticket) | | | ].
    + intros n2 eft [_ [Hs2 [k [Hr2 Hk]]]].
      eapply post_bind; [apply download_exported_file_spec | | | ].
      * intros n3 [] [Ho3 [Hw3 Hr3]]. apply post_emit.
        split; [exact I|]. exists ticket, eft, k, [export_download_request py token eft].
        rewrite !reqs_app, !saved_app, Hr1, Hr2, Hr3, Hs1, Hs2. simpl.
        split; [reflexivity|]. right. split; [reflexivity|].
        split; [now apply (Hk eft)|].
        destruct Hw3 as [[_ []]|[Hw _]]. right. rewrite Hw. auto.
      * intros n3 e [Ho3 [Hw3 Hr3]].
        split; [exact Ho3|]. exists ticket, eft, k, [export_download_request py token eft].
        rewrite !reqs_app, !saved_app, Hr1, Hr2, Hr3, Hs1, Hs2. simpl.
        split; [reflexivity|]. right. split; [reflexivity|].
        split; [now apply (Hk eft)|].
        destruct Hw3 as [[Hw _]|[_ Hw]]; [|discriminate].
        left. rewrite Hw. simpl. auto.
      * intros n3 [[] _].
    + intros n2 e [Ho2 [Hs2 [k [Hr2 Hk]]]].
      split; [exact Ho2|]. exists ticket, JNull, k, [].
      rewrite !reqs_app, !saved_app, Hr1, Hr2, Hs1, Hs2, app_nil_r. simpl.
      split; [reflexivity|]. left. simpl. auto.
    + intros n2 [Ho2 [Hs2 [k [Hr2 Hk]]]].
      split; [exact I|]. exists ticket, JNull, k, [].
      rewrite !reqs_app, !saved_app, Hr1, Hr2, Hs1, Hs2, app_nil_r. simpl.
      split; [reflexivity|]. left. simpl. auto.
  - intros n1 e [Ho1 [Hs1 Hr1]].
    split; [exact Ho1|]. exists JNull, JNull, 0%nat, [].
    rewrite Hr1, Hs1. simpl. split; [reflexivity|]. left. simpl. auto.
  - intros n1 [[] _].
Qed.

Lemma direct_workflow_spec (p : path) :
  post (direct_workflow py env token file_token p)
       (direct_run py token file_token p).
Proof.
  unfold direct_workflow, direct_run, wrote_or_failed.
  eapply post_bind; [apply get_file_download_url_spec | | | ].
  - intros n1 url [_ [Hs1 Hr1]].
    eapply post_bind; [apply download_file_spec | | | ].
    + intros n2 [] [Ho2 Hd]. apply post_emit.
      split; [exact I|].
      destruct Hd as [[_ [_ []]]|[s [Hr2 Hw]]].
      exists [fetch_request s].
      rewrite !reqs_app, Hr1, Hr2. simpl. split; [reflexivity|].
      right. exists s. split; [reflexivity|].
      destruct Hw as [[_ []]|[Hw _]]. right.
      rewrite !saved_app, Hs1, Hw. simpl. auto.
    + intros n2 e [Ho2 Hd]. split; [exact Ho2|].
      destruct Hd as [[Hr2 [Hs2 _]]|[s [Hr2 Hw]]].
      * exists []. rewrite reqs_app, saved_app, Hr1, Hr2, Hs1, Hs2. simpl.
        split; [reflexivity|]. left. auto.
      * exists [fetch_request s]. rewrite reqs_app, Hr1, Hr2. simpl.
        split; [reflexivity|]. right. exists s. split; [reflexivity|].
        destruct Hw as [[Hw _]|[_ Hw]]; [|discriminate].
        left. rewrite saved_app, Hs1, Hw. simpl. auto.
    + intros n2 [[] _].
  - intros n1 e [Ho1 [Hs1 Hr1]].
    split; [exact Ho1|]. exists []. rewrite Hr1, Hs1. simpl.
    split; [reflexivity|]. left. auto.
  - intros n1 [[] _].
Qed.

End Workflows.

(** ** One listed file *)

Section Entry.

Variable py : Python.
Variable env : Env.
Variables token file_token : json.
Variables file_type ext : pystr.
Variable p : path.

Lemma post_run A (m : M A) (S : trace -> result A -> Prop) (tr : trace) :
  post m S -> exists new r, m tr = (tr ++ new, r) /\ S new r.
Proof.
  intros H. destruct (H tr) as [new [E K]]. exists new, (snd (m tr)).
  split; [|exact K]. rewrite <- E. now destruct (m tr).
Qed.

Lemma export_run_ext (new new' : trace) (r : result unit) :
  reqs new' = reqs new -> saved new' = saved new ->
  export_run py token file_token file_type ext p new r ->
  export_run py token file_token file_type ext p new' r.
Proof.
  intros Hr Hs H. unfold export_run, wrote_or_failed in *.
  rewrite Hr, Hs. exact H.
Qed.

Lemma direct_run_ext (new new' : trace) (r : result unit) :
  reqs new' = reqs new -> saved new' = saved new ->
  direct_run py token file_token p new r ->
  direct_run py token file_token p new' r.
Proof.
  intros Hr Hs H. unfold direct_run, wrote_or_failed in *.
  rewrite Hr, Hs. exact H.
Qed.

Lemma no_exit_Exception (e : exn) :
  no_exit (@Exn unit e) -> is_Exception e = false -> False.
Proof. simpl. intros H1 H2. congruence. Qed.

(** A type of the export list: the export workflow, guarded. *)
Lemma download_entry_export (fuel : nat) :
  mem (lower py file_type) EXPORT_TYPES = true ->
  post (download_entry py env fuel token file_token file_type ext p)
       (fun new r =>
          settled r
          /\ exists r0, export_run py token file_token file_type ext p new r0).
Proof.
  intros Hm. unfold download_entry. rewrite Hm.
  eapply post_try.
  - apply post_bind_emit.
    eapply post_conseq; [apply export_workflow_spec|].
    intros new r H.
    exact (export_run_ext new (EPrint (MUsingExport (JStr file_type)) :: new)
             r eq_refl eq_refl H).
  - intros n1 [] H. split; [now left | eauto].
  - intros n1 e H _. apply post_emit. split; [now left|].
    exists (Exn e). apply (export_run_ext n1); auto.
    + rewrite reqs_app. simpl. apply app_nil_r.
    + rewrite saved_app. simpl. apply app_nil_r.
  - intros n1 e [H _] Hx. destruct (no_exit_Exception e H Hx).
  - intros n1 H. split; [now right | eauto].
Qed.

(** A type of the binary list: the direct download, guarded. *)
Lemma download_entry_binary (fuel : nat) :
  mem (lower py file_type) EXPORT_TYPES = false ->
  mem file_type BINARY_TYPES = true ->
  post (download_entry py env fuel token file_token file_type ext p)
       (fun new r =>
          settled r
          /\ exists r0, direct_run py token file_token p new r0).
Proof.
  intros Hm Hb. unfold download_entry. rewrite Hm, Hb.
  eapply post_try.
  - apply direct_workflow_spec.
  - intros n1 [] H. split; [now left | eauto].
  - intros n1 e H _. apply post_emit. split; [now left|].
    exists (Exn e). apply (direct_run_ext n1); auto.
    + rewrite reqs_app. simpl. apply app_nil_r.
    + rewrite saved_app. simpl. apply app_nil_r.
  - intros n1 e [H _] Hx. simpl in H. congruence.
  - intros n1 [[] _].
Qed.

(** Any other type: the direct download, then the export workflow when the
    direct download raised. *)
Lemma download_entry_other (fuel : nat) :
  mem (lower py file_type) EXPORT_TYPES = false ->
  mem file_type BINARY_TYPES = false ->
  post (download_entry py env fuel token file_token file_type ext p)
       (fun new r =>
          settled r
          /\ fallback_run py token file_token file_type ext p new).
Proof.
  intros Hm Hb. unfold download_entry. rewrite Hm, Hb.
  assert (post
            (try_except (direct_workflow py env token file_token p)
               (fun e =>
                  print (MDownloadFailed e) ;;
                  try_except
                    (print MTryingExport ;;
                     export_workflow py env fuel token file_token file_type ext p)
                    (fun export_error => print (MExportAlsoFailed export_error))))
            (fun new r =>
               settled r
               /\ fallback_run py token file_token file_type ext p new)) as Hin.
  { eapply post_try; [apply direct_workflow_spec | | | | ].
    - intros n1 [] H. split; [now left|].
      exists n1, (Val tt), []. rewrite app_nil_r. auto.
    - intros n1 e H _. apply post_bind_emit.
      eapply post_try with (S1 := export_run py token file_token file_type ext p).
      + apply post_bind_emit.
        eapply post_conseq; [apply export_workflow_spec|].
        intros new r Hx. apply (export_run_ext new); auto.
      + intros n2 [] Hx. cbv beta. split; [now left|].
        exists n1, (Exn e), (EPrint (MDownloadFailed e) :: n2).
        split; [reflexivity|]. split; [exact H|].
        split; [now left|]. exists (Val tt). apply (export_run_ext n2); auto.
      + intros n2 e2 Hx _. apply post_emit. cbv beta. split; [now left|].
        exists n1, (Exn e),
          (EPrint (MDownloadFailed e) :: n2 ++ [EPrint (MExportAlsoFailed e2)]).
        split; [reflexivity|]. split; [exact H|].
        split; [now left|]. exists (Exn e2). apply (export_run_ext n2); auto.
        * simpl. rewrite reqs_app. simpl. apply app_nil_r.
        * simpl. rewrite saved_app. simpl. apply app_nil_r.
      + intros n2 e2 [Hx _] Hn. destruct (no_exit_Exception e2 Hx Hn).
      + intros n2 Hx. cbv beta. split; [now right|].
        exists n1, (Exn e), (EPrint (MDownloadFailed e) :: n2).
        split; [reflexivity|]. split; [exact H|].
        split; [now left|]. exists OutOfFuel. apply (export_run_ext n2); auto.
    - intros n1 e [H _] Hx. simpl in H. congruence.
    - intros n1 [[] _]. }
  eapply post_try; [exact Hin | | | | ].
  - intros n1 a H. exact H.
  - intros n1 e [[H|H] _]; discriminate.
  - intros n1 e [[H|H] _]; discriminate.
  - intros n1 H. exact H.
Qed.

Lemma process_file_entry (n : nat) (file_info : json) (out : path)
    (tr : trace) (nm : pystr) :
  entry_of py file_info file_token nm file_type ->
  PyStr.eqb file_type (u "folder"%string) = false ->
  process_file py env (S n) token file_info out tr
  = download_entry py env n token file_token file_type
      (choose_extension py file_type (sanitize_filename nm))
      (path_div out (local_name py nm file_type))
      (tr ++ [EPrint (MProcessing (sanitize_filename nm) (JStr file_type))]).
Proof.
  intros [H1 [H2 H3]] Hf. cbn [process_file].
  unfold bind at 1, get at 1. rewrite H1. unfold lift at 1, ret at 1.
  unfold bind at 1, get at 1. rewrite H2. unfold lift at 1, ret at 1.
  unfold bind at 1, sanitize_json, lift at 1, ret at 1.
  unfold bind at 1, get at 1. rewrite H3. unfold lift at 1, ret at 1.
  unfold bind at 1, print, emit.
  unfold py_eq_str. rewrite Hf. reflexivity.
Qed.

End Entry.

Lemma mem_In (x : pystr) (l : list pystr) : mem x l = true <-> In x l.
Proof.
  unfold mem. rewrite existsb_exists. split.
  - intros [y [Hy E]]. apply PyStrFacts.eqb_eq in E. now subst.
  - intros H. exists x. split; [exact H | apply PyStrFacts.eqb_refl].
Qed.

Lemma ascii_lower_ascii (s : pystr) :
  forallb is_ascii (List.map ascii_lower s) = true -> forallb is_ascii s = true.
Proof.
  induction s as [|c r IH]; simpl; [auto|].
  intros H. apply andb_true_iff in H. destruct H as [Hc Hr].
  rewrite (IH Hr), andb_true_r.
  unfold ascii_lower, is_ascii in *.
  destruct ((65 <=? c)%N && (c <=? 90)%N) eqn:E; [|exact Hc].
  apply andb_true_iff in E. destruct E as [_ E].
  apply N.leb_le in E. apply N.ltb_lt. lia.
Qed.

(** A type that is in the export list up to ASCII case takes the first
    branch of line 297 and is not a folder. *)
Lemma type_among_export (py : Python) (ft : pystr) :
  type_among EXPORT_TYPES ft ->
  mem (lower py ft) EXPORT_TYPES = true
  /\ PyStr.eqb ft (u "folder"%string) = false.
Proof.
  unfold type_among. intros H.
  assert (forallb is_ascii ft = true) as Ha.
  { apply ascii_lower_ascii.
    assert (Forall (fun t => forallb is_ascii t = true) EXPORT_TYPES) as Hall
      by (repeat constructor).
    rewrite Forall_forall in Hall. now apply Hall. }
  split.
  - unfold lower. rewrite Ha. now apply mem_In.
  - apply PyStrFacts.eqb_neq. intros ->. vm_compute in H.
    intuition discriminate.
Qed.

(** A type of the binary list takes the branch of line 306. *)
Lemma type_binary (py : Python) (ft : pystr) :
  In ft BINARY_TYPES ->
  mem (lower py ft) EXPORT_TYPES = false
  /\ mem ft BINARY_TYPES = true
  /\ PyStr.eqb ft (u "folder"%string) = false.
Proof.
  intros H. simpl in H.
  repeat (destruct H as [<-|H]; [vm_compute; auto|]). contradiction.
Qed.



(** ** Which workflow was invoked *)

Section Invoked.

Variable py : Python.
Variables token file_token : json.

Lemma download_url_not_query (ticket : json) :
  download_url_request py token file_token
  <> query_export_request py token ticket file_token.
Proof.
  intros H. apply (f_equal url) in H. vm_compute in H. discriminate.
Qed.

Lemma download_url_not_export_download (export_file_token : json) :
  download_url_request py token file_token
  <> export_download_request py token export_file_token.
Proof.
  intros H. apply (f_equal url) in H. vm_compute in H. discriminate.
Qed.

Lemma download_url_not_create (file_type : json) (ext : pystr) :
  download_url_request py token file_token
  <> create_export_request py token file_token file_type ext.
Proof. intros H. apply (f_equal method) in H. discriminate. Qed.

Lemma fetch_not_create (s : pystr) (file_type : json) (ext : pystr) :
  fetch_request s <> create_export_request py token file_token file_type ext.
Proof. intros H. apply (f_equal method) in H. discriminate. Qed.

Lemma export_run_invoked (file_type ext : pystr) (p : path) (new : trace)
    (r : result unit) :
  export_run py token file_token file_type ext p new r ->
  invoked_export py token file_token file_type new
  /\ ~ invoked_direct py token file_token new.
Proof.
  intros [_ [ticket [eft [k [rest [Hr Hrest]]]]]].
  unfold invoked_export, invoked_direct. rewrite Hr. split.
  - exists (ext_for_api ext file_type). now left.
  - intros [H|H].
    + symmetry in H. exact (download_url_not_create _ _ H).
    + apply in_app_or in H. destruct H as [H|H].
      * apply repeat_spec in H. exact (download_url_not_query _ H).
      * destruct Hrest as [[-> _]|[-> _]]; [contradiction|].
        destruct H as [H|[]]. symmetry in H.
        exact (download_url_not_export_download _ H).
Qed.

Lemma direct_run_invoked (file_type : pystr) (p : path) (new : trace)
    (r : result unit) :
  direct_run py token file_token p new r ->
  invoked_direct py token file_token new
  /\ ~ invoked_export py token file_token file_type new.
Proof.
  intros [_ [rest [Hr Hrest]]].
  unfold invoked_export, invoked_direct. rewrite Hr. split; [now left|].
  intros [ext [H|H]].
  - exact (download_url_not_create _ _ H).
  - destruct Hrest as [[-> _]|[s [-> _]]]; [contradiction|].
    destruct H as [H|[]]. exact (fetch_not_create _ _ _ H).
Qed.

End Invoked.




(** ** The local file name *)

Section LocalName.

Variable py : Python.

Lemma endswith_app (a b : pystr) : endswith (a ++ b) b = true.
Proof.
  unfold endswith. rewrite length_app.
  replace (length a + length b - length b)%nat with (length a + 0)%nat by lia.
  rewrite skipn_app, Nat.add_0_r, skipn_all, Nat.sub_diag. simpl.
  rewrite PyStrFacts.eqb_refl, andb_true_r. apply Nat.leb_le. lia.
Qed.

Lemma is_empty_nil (s : pystr) : is_empty s = true <-> s = [].
Proof. destruct s; simpl; split; congruence. Qed.

Lemma choose_extension_cases (file_type name : pystr) :
  name <> [] ->
  let mapped := ext_get (lower py file_type) TYPE_TO_EXT in
  let ext := choose_extension py file_type name in
  ext <> []
  /\ (mapped <> [] -> ext = mapped)
  /\ (mapped = [] -> path_suffix name <> [] -> ext = path_suffix name)
  /\ (mapped = [] -> path_suffix name = [] -> ext = u ".bin"%string).
Proof.
  intros Hn. cbv zeta. unfold choose_extension.
  destruct (ext_get (lower py file_type) TYPE_TO_EXT) as [|c m] eqn:Em.
  - destruct name as [|c0 name']; [contradiction|]. cbn [is_empty andb negb].
    destruct (path_suffix (c0 :: name')) as [|d s] eqn:Es; cbn [is_empty negb].
    + repeat split; intros; try congruence. vm_compute. discriminate.
    + repeat split; intros; congruence.
  - cbn [is_empty andb]. repeat split; intros; congruence.
Qed.

Lemma with_extension_cases (name ext : pystr) :
  let final := with_extension py name ext in
  (endswith (lower py name) (lower py ext) = true -> final = name)
  /\ (endswith (lower py name) (lower py ext) = false ->
      final = name ++ ext /\ endswith final ext = true).
Proof.
  cbv zeta. unfold with_extension.
  destruct (endswith (lower py name) (lower py ext)); cbn [negb].
  - split; [auto | discriminate].
  - split; [discriminate|]. intros _. split; [reflexivity | apply endswith_app].
Qed.

Variable env : Env.
Variables token file_token : json.

Lemma export_run_saved (ft ext : pystr) (p : path) (new : trace) (r : result unit) :
  export_run py token file_token ft ext p new r ->
  saved new = [] \/ saved new = [p].
Proof.
  intros [_ [t [x [k [rest [_ H]]]]]]. unfold wrote_or_failed in H.
  destruct H as [[_ [H _]]|[_ [_ [[H _]|[H _]]]]]; auto.
Qed.

Lemma direct_run_saved (p : path) (new : trace) (r : result unit) :
  direct_run py token file_token p new r ->
  (saved new = [] \/ saved new = [p])
  /\ (failed r -> saved new = []).
Proof.
  intros [_ [rest [_ H]]]. unfold wrote_or_failed in H.
  destruct H as [[_ [H _]]|[s [_ [[H _]|[H Hr]]]]]; auto.
  split; [auto|]. subst r. intros [].
Qed.

(** Whatever its type, a listed file is written at most once, to its
    output path, and its download never raises. *)
Lemma download_entry_saved (ft ext : pystr) (p : path) (fuel : nat) :
  post (download_entry py env fuel token file_token ft ext p)
       (fun new r => settled r /\ (saved new = [] \/ saved new = [p])).
Proof.
  destruct (mem (lower py ft) EXPORT_TYPES) eqn:Hm;
    [|destruct (mem ft BINARY_TYPES) eqn:Hb].
  - eapply post_conseq; [apply (download_entry_export py env token file_token ft ext p fuel Hm)|].
    intros new r [Hs [r0 H]]. split; [exact Hs|]. exact (export_run_saved _ _ _ _ _ H).
  - eapply post_conseq; [apply (download_entry_binary py env token file_token ft ext p fuel Hm Hb)|].
    intros new r [Hs [r0 H]]. split; [exact Hs|]. exact (proj1 (direct_run_saved _ _ _ H)).
  - eapply post_conseq; [apply (download_entry_other py env token file_token ft ext p fuel Hm Hb)|].
    intros new r [Hs [n1 [r1 [n2 [-> [Hd Hrest]]]]]]. split; [exact Hs|].
    rewrite saved_app. destruct (direct_run_saved _ _ _ Hd) as [H1 H2].
    destruct r1 as [a|e|]; [| |contradiction].
    + subst n2. simpl. now rewrite app_nil_r.
    + destruct Hrest as [_ [r2 Hx]]. rewrite (H2 I). simpl.
      exact (export_run_saved _ _ _ _ _ Hx).
Qed.

End LocalName.



(** ** Errors are printed, the loop goes on *)


Section Recovery.

Variable py : Python.
Variable env : Env.
Variable token : json.
Hypothesis Hdirs : dirs_creatable env.
Hypothesis Hlist : listing_wf py env.

Lemma post_bind_mkdir_ok B (S : trace -> result B -> Prop) (p : path)
    (k : unit -> M B) :
  post (k tt) (fun n2 r => S (EMkdir p true :: n2) r) ->
  post (bind (mkdir env p) k) S.
Proof.
  intros Hk tr. unfold bind, mkdir. rewrite Hdirs.
  destruct (Hk (tr ++ [EMkdir p true])) as [new [E K]].
  exists (EMkdir p true :: new). rewrite E, <- app_assoc. auto.
Qed.

Lemma post_bind_send_from B (S : trace -> result B -> Prop) (req : Request)
    (k : Response -> M B) :
  S [EHttp req ConnFail] (Exn RequestException) ->
  (forall r, (exists tr, http env tr req = Resp r) ->
             post (k r) (fun n2 res => S (EHttp req (Resp r) :: n2) res)) ->
  post (bind (send env req) k) S.
Proof.
  intros Hf Hk tr. unfold bind, send.
  destruct (http env tr req) as [|r] eqn:E.
  - exists [EHttp req ConnFail]. auto.
  - destruct (Hk r (ex_intro _ tr E) (tr ++ [EHttp req (Resp r)])) as [new [E' K]].
    exists (EHttp req (Resp r) :: new). rewrite E', <- app_assoc. auto.
Qed.

Lemma post_bind_response_json_eq B (S : trace -> result B -> Prop)
    (r : Response) (k : json -> M B) :
  S [] (Exn JSONDecodeError) ->
  (forall j, parsed r = Some j -> post (k j) S) ->
  post (bind (response_json r) k) S.
Proof.
  intros He Hk. unfold response_json. destruct (parsed r) as [j|] eqn:E.
  - intros tr. destruct (Hk j eq_refl tr) as [new [E' K]]. exists new.
    unfold bind, ret. auto.
  - intros tr. exists []. unfold bind, raise. simpl. rewrite app_nil_r. auto.
Qed.

Lemma post_bind_get_eq B (S : trace -> result B -> Prop) (d : json)
    (key : String.string) (dflt : json) (k : json -> M B) :
  S [] (Exn WrongType) ->
  (forall v, dict_get d (u key) dflt = inr v -> post (k v) S) ->
  post (bind (get d key dflt) k) S.
Proof.
  intros He Hk. unfold get. apply post_bind_lift.
  - intros e H. destruct d; simpl in H; try discriminate;
      injection H as <-; exact He.
  - exact Hk.
Qed.

Lemma post_bind_iter B (S : trace -> result B -> Prop) (v : json)
    (k : list json -> M B) :
  S [] (Exn WrongType) ->
  (forall l, py_iter v = inr l -> post (k l) S) ->
  post (bind (lift (py_iter v)) k) S.
Proof.
  intros He Hk. apply post_bind_lift.
  - intros e H. destruct v; simpl in H; try discriminate;
      injection H as <-; exact He.
  - exact Hk.
Qed.

(** A listing raises nothing but [Exception]s and returns well-formed
    items. *)
Lemma list_files_loop_wf (fuel : nat) (folder_token : json) :
  forall (files : list json) (page_token : json),
  Forall (wf_item py) files ->
  post (list_files_loop py env fuel token folder_token files page_token)
       (fun new r => no_exit r /\ forall l, r = Val l -> Forall (wf_item py) l).
Proof.
  induction fuel as [|n IH]; intros files page_token Hfiles; simpl.
  - apply post_out_of_fuel. split; [exact I | discriminate].
  - apply post_bind_send_from; [split; [reflexivity | discriminate]|].
    intros r [tr0 Hr].
    apply post_bind_raise_for_status; [intros s; split; [reflexivity | discriminate]|].
    apply post_bind_response_json_eq; [split; [reflexivity | discriminate]|].
    intros data Hp.
    apply post_bind_get; [split; [reflexivity | discriminate]|]. intros code.
    destruct (negb (py_eq_int code 0)).
    { wp_tac; split; try reflexivity; discriminate. }
    apply post_bind_get_eq; [split; [reflexivity | discriminate]|]. intros fd Hd.
    apply post_bind_get_eq; [split; [reflexivity | discriminate]|]. intros items Hi.
    apply post_bind_iter; [split; [reflexivity | discriminate]|]. intros l Hl.
    assert (Forall (wf_item py) (files ++ l)) as Hall.
    { apply Forall_app. split; [exact Hfiles|].
      exact (Hlist tr0 _ r data fd items l Hr Hp Hd Hi Hl). }
    apply post_bind_get; [split; [reflexivity | discriminate]|]. intros has_more.
    destruct (negb (truthy has_more)).
    + apply post_ret. split; [exact I|]. intros l0 E. injection E as <-. exact Hall.
    + apply post_bind_get; [split; [reflexivity | discriminate]|]. intros pt.
      eapply post_conseq; [apply (IH _ pt Hall)|].
      intros new res H. exact H.
Qed.

Lemma post_bind_lift_inr A B (S : trace -> result B -> Prop) (a : A)
    (k : A -> M B) :
  post (k a) S -> post (bind (lift (inr a)) k) S.
Proof. intros H tr. exact (H tr). Qed.

Lemma for_each_recovers (f : json -> M unit) (items : list json) :
  (forall fi, In fi items ->
     post (f fi)
          (fun new r => settled r /\ (r = Val tt -> Exists (announces py fi) new))) ->
  post (for_each items f)
       (fun new r =>
          settled r
          /\ (r = Val tt ->
              Forall (fun fi => Exists (announces py fi) new) items)).
Proof.
  induction items as [|x rest IH]; intros Hf; simpl.
  - apply post_ret. split; [now left | constructor].
  - eapply post_bind; [apply (Hf x); now left | | | ].
    + intros n1 [] [_ Ha].
      eapply post_conseq; [apply IH; intros fi Hfi; apply Hf; now right|].
      intros n2 r [Hs Hall]. split; [exact Hs|]. intros Hr.
      constructor.
      * apply Exists_app. left. now apply Ha.
      * eapply Forall_impl; [|exact (Hall Hr)].
        intros fi Hx. apply Exists_app. now right.
    + intros n1 e [[H|H] _]; discriminate.
    + intros n1 _. split; [now right | discriminate].
Qed.

(** A well-formed item never makes [process_file] raise: what goes wrong
    while listing or downloading is caught and printed. *)
Lemma process_file_recovers (fuel : nat) :
  forall (file_info : json) (output_dir : path),
  wf_item py file_info ->
  post (process_file py env fuel token file_info output_dir)
       (fun new r =>
          settled r /\ (r = Val tt -> Exists (announces py file_info) new)).
Proof.
  induction fuel as [|n IH]; intros file_info output_dir Hwf.
  - apply post_out_of_fuel. split; [now right | discriminate].
  - destruct Hwf as [ftk [nm [ft He]]].
    assert (announces py file_info
              (EPrint (MProcessing (sanitize_filename nm) (JStr ft)))) as Hann.
    { exists ftk, nm, ft. auto. }
    destruct He as [H1 [H2 H3]].
    cbn [process_file].
    unfold get at 1. rewrite H1. apply post_bind_lift_inr.
    unfold get at 1. rewrite H2. apply post_bind_lift_inr.
    unfold sanitize_json. apply post_bind_lift_inr.
    unfold get at 1. rewrite H3. apply post_bind_lift_inr.
    apply post_bind_emit. unfold py_eq_str.
    destruct (PyStr.eqb ft (u "folder"%string)).
    + apply post_bind_mkdir_ok. apply post_bind_emit.
      eapply post_try with (S1 := fun new r => no_exit r).
      * unfold list_files_in_folder.
        eapply post_bind; [apply list_files_loop_wf; constructor | | | ].
        -- intros n1 l [_ Hl].
           eapply post_conseq;
             [apply for_each_recovers; intros fi Hfi; apply IH;
              specialize (Hl l eq_refl); rewrite Forall_forall in Hl; now apply Hl|].
           intros n2 r [[->| ->] _]; exact I.
        -- intros n1 e [H _]. exact H.
        -- intros n1 _. exact I.
      * intros n1 [] _. cbv beta. split; [now left|]. intros _.
        now apply Exists_cons_hd.
      * intros n1 e _ _. apply post_emit. cbv beta. split; [now left|]. intros _.
        now apply Exists_cons_hd.
      * intros n1 e H Hx. simpl in H. congruence.
      * intros n1 _. cbv beta. split; [now right | discriminate].
    + eapply post_conseq; [apply download_entry_saved|].
      intros new r [Hs _]. split; [exact Hs|]. intros _.
      now apply Exists_cons_hd.
Qed.

End Recovery.


Lemma env_denied_listing_wf : listing_wf demo_py env_denied.
Proof.
  intros tr req r data fd items l H1 H2 H3 H4 H5.
  simpl in H1. unfold json_response in H1. injection H1 as <-.
  simpl in H2. injection H2 as <-.
  vm_compute in H3. injection H3 as <-.
  vm_compute in H4. injection H4 as <-.
  simpl in H5. injection H5 as <-. constructor.
Qed.

Lemma item_wf (token name type : String.string) :
  wf_item demo_py (item token name type).
Proof.
  exists (str token), (u name), (u type). repeat split; reflexivity.
Qed.


(** ** Folders *)

(** What [process_file] does with a folder whose local directory can be
    created: it creates [output_dir / name], lists the remote folder and
    processes every listed item into that directory, printing what goes
    wrong on the way.  The directory is a new component under
    [output_dir] unless the sanitized name is a single dot. *)
Lemma process_file_folder (py : Python) (env : Env) (n : nat)
    (token file_info file_token : json) (name : pystr) (output_dir : path)
    (tr : trace) :
  entry_of py file_info file_token name (u "folder"%string) ->
  let file_name := sanitize_filename name in
  let sub_dir := path_div output_dir file_name in
  let tr1 := tr ++ [EPrint (MProcessing file_name (str "folder"))] in
  mkdir_ok env tr1 sub_dir = true ->
  process_file py env (S n) token file_info output_dir tr
  = try_except
      (sub_files <- list_files_in_folder py env n token file_token ;;
       for_each sub_files
         (fun sub_file => process_file py env n token sub_file sub_dir))
      (fun e => print (MErrorFolder e))
      (tr1 ++ [EMkdir sub_dir true; EPrint (MEnteringFolder sub_dir)])
  /\ (file_name <> [46%N] -> sub_dir = output_dir ++ [file_name]).
Proof.
  intros [H1 [H2 H3]]. cbv zeta. intros Hmk. split.
  - cbn [process_file].
    unfold bind at 1, get at 1. rewrite H1. unfold lift at 1, ret at 1.
    unfold bind at 1, get at 1. rewrite H2. unfold lift at 1, ret at 1.
    unfold bind at 1, sanitize_json, lift at 1, ret at 1.
    unfold bind at 1, get at 1. rewrite H3. unfold lift at 1, ret at 1.
    unfold bind at 1, print at 1, emit at 1.
    replace (py_eq_str (JStr (u "folder"%string)) (u "folder"%string)) with true
      by (vm_compute; reflexivity).
    unfold bind at 1, mkdir at 1. unfold str in Hmk. rewrite Hmk.
    unfold bind at 1, print at 1, emit at 1.
    rewrite <- !app_assoc. reflexivity.
  - intros Hdot. unfold path_div.
    destruct (sanitize_filename_sanitized name) as [_ _ _ _ Hne].
    destruct (sanitize_filename name) as [|c r] eqn:E; [contradiction|].
    cbn [is_empty orb].
    destruct (PyStr.eqb (c :: r) [46%N]) eqn:Eq; [|reflexivity].
    apply PyStrFacts.eqb_eq in Eq. contradiction.
Qed.

(** C3 fails for a folder named with a single dot: [sanitize_filename]
    keeps the name, [output_dir / name] is [output_dir] itself, so no
    subdirectory is created and the file [memo] of the folder is written
    directly into the output directory. *)
Theorem process_file_dot_folder :
  let run := process_file demo_py env_one_file 4 (str "t-abc")
               (item "f1" "." "folder") [u "out"%string] [] in
  sanitize_filename (u "."%string) = u "."%string
  /\ path_div [u "out"%string] (sanitize_filename (u "."%string)) = [u "out"%string]
  /\ made (fst run) = [[u "out"%string]; [u "out"%string]]
  /\ saved (fst run) = [[u "out"%string; u "memo.txt"%string]]
  /\ snd run = Val tt.
Proof. vm_compute. auto. Qed.

(* ================================================================== *)
(** * Further properties of the script *)

(** ** More on sanitize_filename *)

Section SanitizeMore.

Lemma drop_while_all (p : codepoint -> bool) (s : pystr) :
  forallb p s = true -> drop_while p s = [].
Proof.
  induction s as [|c r IH]; simpl; [reflexivity|].
  intros H. apply andb_true_iff in H. destruct H as [Hc Hr].
  rewrite Hc. now apply IH.
Qed.

Lemma drop_while_length (p : codepoint -> bool) (s : pystr) :
  (length (drop_while p s) <= length s)%nat.
Proof.
  induction s as [|c r IH]; simpl; [lia|]. destruct (p c); simpl; lia.
Qed.

Lemma strip_length (s : pystr) : (length (strip s) <= length s)%nat.
Proof.
  unfold strip, rstrip, lstrip. rewrite length_rev.
  etransitivity; [apply drop_while_length|]. rewrite length_rev.
  apply drop_while_length.
Qed.

Lemma space_not_invalid (c : codepoint) :
  py_isspace c = true -> is_invalid c = false.
Proof.
  intros Hs. destruct (is_invalid c) eqn:E; [|reflexivity].
  unfold is_invalid in E. apply existsb_exists in E.
  destruct E as [x [Hx Hc]]. apply N.eqb_eq in Hc. subst x.
  simpl in Hx.
  repeat (destruct Hx as [<-|Hx]; [vm_compute in Hs; discriminate|]).
  contradiction.
Qed.

End SanitizeMore.

(** X1. A name made only of control characters and whitespace, the empty
    name included, becomes [unnamed_file]. *)
Theorem sanitize_filename_blank (s : pystr) :
  (forall c, In c s -> (c < 32)%N \/ py_isspace c = true) ->
  sanitize_filename s = u "unnamed_file"%string.
Proof.
  intros H. rewrite sanitize_filename_unfold.
  set (body := filter _ _).
  assert (forallb py_isspace body = true) as Hb.
  { apply forallb_forall. intros c Hc. unfold body in Hc.
    apply filter_In in Hc. destruct Hc as [Hc H32].
    apply in_map_iff in Hc. destruct Hc as [x [<- Hx]].
    apply N.leb_le in H32.
    destruct (H x Hx) as [Hlt|Hsp].
    - unfold clean_char in *. destruct (is_invalid x) eqn:E.
      + unfold is_invalid in E. apply existsb_exists in E.
        destruct E as [y [Hy Hxy]]. apply N.eqb_eq in Hxy. subst y.
        simpl in Hy.
        repeat (destruct Hy as [<-|Hy]; [vm_compute in Hlt; discriminate|]).
        contradiction.
      + lia.
    - unfold clean_char. now rewrite (space_not_invalid x Hsp). }
  unfold strip, lstrip. rewrite (drop_while_all _ _ Hb). reflexivity.
Qed.

Lemma sanitize_filename_blank_witness :
  sanitize_filename [32; 9; 0; 12288; 31]%N = u "unnamed_file"%string.
Proof.
  apply (sanitize_filename_blank [32; 9; 0; 12288; 31]%N).
  intros c Hc. simpl in Hc.
  repeat (destruct Hc as [<-|Hc]; [vm_compute; auto|]). contradiction.
Defined.

(** X2. The names [sanitize_filename] leaves unchanged are exactly the
    clean ones: non-empty, without any of the nine invalid characters,
    without control characters, with no whitespace at either end. *)
Theorem sanitize_filename_fixed_points (r : pystr) :
  sanitize_filename r = r <-> sanitized r.
Proof.
  split.
  - intros E. rewrite <- E. apply sanitize_filename_sanitized.
  - apply sanitize_filename_fixed.
Qed.

(** X3. Unless it falls back to [unnamed_file], [sanitize_filename] adds
    nothing but underscores: every other character of the result occurs in
    the input, and the result is not longer than the input. *)
Theorem sanitize_filename_adds_nothing (s : pystr) :
  let r := sanitize_filename s in
  r = u "unnamed_file"%string
  \/ ((forall c, In c r -> c = underscore \/ In c s)
      /\ (length r <= length s)%nat).
Proof.
  cbv zeta. rewrite sanitize_filename_unfold.
  set (body := filter _ _).
  destruct (strip body) as [|c0 t0] eqn:E; [now left|].
  right. simpl py_or. rewrite <- E. split.
  - intros c Hc. apply PyStrFacts.strip_incl in Hc. unfold body in Hc.
    apply filter_In in Hc. destruct Hc as [Hc _].
    apply in_map_iff in Hc. destruct Hc as [x [<- Hx]].
    unfold clean_char. destruct (is_invalid x); auto.
  - etransitivity; [apply strip_length|]. unfold body.
    etransitivity; [apply filter_length_le|]. now rewrite length_map.
Qed.

(** ** The answers of the API *)

Section ApiAnswers.

Variable py : Python.
Variable env : Env.

(** The common beginning of every API call: send, check the status, parse
    the body. *)
Lemma api_prefix_error B (req : Request) (r : Response) (tr : trace)
    (k : json -> M B) :
  http env tr req = Resp r ->
  (400 <= status_code r < 600)%Z ->
  (response <- send env req ;;
   raise_for_status response ;;
   data <- response_json response ;;
   k data) tr
  = (tr ++ [EHttp req (Resp r)], Exn (HTTPError (status_code r))).
Proof.
  intros Hh Hs. unfold bind at 1, send. rewrite Hh.
  unfold bind at 1, raise_for_status.
  replace ((400 <=? status_code r)%Z && (status_code r <? 600)%Z) with true.
  - reflexivity.
  - symmetry. apply andb_true_iff. split; [apply Z.leb_le | apply Z.ltb_lt]; lia.
Qed.

Lemma api_prefix_ok B (req : Request) (r : Response) (data : json)
    (tr : trace) (k : json -> M B) :
  http env tr req = Resp r ->
  status_ok r ->
  parsed r = Some data ->
  (response <- send env req ;;
   raise_for_status response ;;
   data <- response_json response ;;
   k data) tr
  = k data (tr ++ [EHttp req (Resp r)]).
Proof.
  intros Hh Hs Hp. unfold bind at 1, send. rewrite Hh.
  unfold bind at 1, raise_for_status. unfold status_ok in Hs. rewrite Hs.
  unfold ret at 1. unfold bind at 1, response_json. rewrite Hp. reflexivity.
Qed.

End ApiAnswers.

(** X4. An answer with an HTTP error status makes each call raise
    [HTTPError] with that status right after its one request, whatever the
    body says; the two downloads then create no directory and write no
    file. *)
Theorem http_error_status_raises (py : Python) (env : Env)
    (token file_token : json) (r : Response) (tr : trace) :
  (400 <= status_code r < 600)%Z ->
  let fails (req : Request) (A : Type) (m : M A) :=
    http env tr req = Resp r ->
    m tr = (tr ++ [EHttp req (Resp r)], Exn (HTTPError (status_code r))) in
  fails (token_request env) json (get_tenant_access_token env)
  /\ (forall fuel folder_token,
        fails (list_request py token folder_token empty_str) (list json)
              (list_files_in_folder py env (S fuel) token folder_token))
  /\ fails (download_url_request py token file_token) json
           (get_file_download_url py env token file_token)
  /\ (forall file_type ext,
        fails (create_export_request py token file_token file_type ext) json
              (create_export_task py env token file_token file_type ext))
  /\ (forall ticket,
        fails (query_export_request py token ticket file_token) (sum json unit)
              (query_once py env token ticket file_token))
  /\ (forall export_file_token p,
        fails (export_download_request py token export_file_token) unit
              (download_exported_file py env token export_file_token p))
  /\ (forall url p,
        fails (fetch_request url) unit (download_file env (JStr url) p)).
Proof.
  intros Hs. cbv zeta.
  assert (((400 <=? status_code r)%Z && (status_code r <? 600)%Z) = true) as Hb.
  { apply andb_true_iff. split; [apply Z.leb_le | apply Z.ltb_lt]; lia. }
  repeat split; intros.
  - now apply api_prefix_error.
  - unfold list_files_in_folder. cbn [list_files_loop]. now apply api_prefix_error.
  - now apply api_prefix_error.
  - now apply api_prefix_error.
  - now apply api_prefix_error.
  - unfold download_exported_file, bind at 1, send. rewrite H.
    unfold bind at 1, raise_for_status. now rewrite Hb.
  - unfold download_file, bind at 1, send. rewrite H.
    unfold bind at 1, raise_for_status. now rewrite Hb.
Qed.

Lemma http_error_status_raises_witness :
  let py := demo_py in
  let env := env_not_found in
  let token := str "t-abc" in
  let file_token := str "d1" in
  let r := mkResponse 404
             (Some (JObj [ (u "code"%string, JInt 0);
                           (u "tenant_access_token"%string, str "t-abc") ]))
             [[1]]%N in
  let tr : trace := [] in
  let fails (req : Request) (A : Type) (m : M A) :=
    http env tr req = Resp r ->
    m tr = (tr ++ [EHttp req (Resp r)], Exn (HTTPError (status_code r))) in
  fails (token_request env) json (get_tenant_access_token env)
  /\ (forall fuel folder_token,
        fails (list_request py token folder_token empty_str) (list json)
              (list_files_in_folder py env (S fuel) token folder_token))
  /\ fails (download_url_request py token file_token) json
           (get_file_download_url py env token file_token)
  /\ (forall file_type ext,
        fails (create_export_request py token file_token file_type ext) json
              (create_export_task py env token file_token file_type ext))
  /\ (forall ticket,
        fails (query_export_request py token ticket file_token) (sum json unit)
              (query_once py env token ticket file_token))
  /\ (forall export_file_token p,
        fails (export_download_request py token export_file_token) unit
              (download_exported_file py env token export_file_token p))
  /\ (forall url p,
        fails (fetch_request url) unit (download_file env (JStr url) p)).
Proof.
  apply (http_error_status_raises demo_py env_not_found (str "t-abc") (str "d1")
           (mkResponse 404
              (Some (JObj [ (u "code"%string, JInt 0);
                            (u "tenant_access_token"%string, str "t-abc") ]))
              [[1]]%N) []).
  simpl. lia.
Defined.

Section ApiBodies.

Variable py : Python.
Variable env : Env.
Variables token file_token : json.
Variable r : Response.
Variable kv : list (pystr * json).
Variable tr : trace.
Hypothesis Hstatus : status_ok r.
Hypothesis Hparsed : parsed r = Some (JObj kv).

Lemma get_obj (l : list (pystr * json)) (key : String.string) (dflt : json) :
  get (JObj l) key dflt = ret (member l key dflt).
Proof. reflexivity. Qed.

(** After the status check and the parse, a call goes on with the body. *)
Ltac open_body H :=
  rewrite (api_prefix_ok env _ _ r (JObj kv) tr _ H Hstatus Hparsed); cbv beta.

Ltac read_member :=
  rewrite get_obj; unfold bind at 1, ret at 1.

Section Refused.

Hypothesis Hcode : py_eq_int (member kv "code" JNull) 0 = false.

Let refused (req : Request) (c : api_call) (A : Type) (m : M A) : Prop :=
  http env tr req = Resp r ->
  m tr = (tr ++ [EHttp req (Resp r)],
          Exn (ApiError c (member kv "msg" JNull))).

Lemma refused_calls :
  refused (token_request env) CallToken json (get_tenant_access_token env)
  /\ (forall fuel folder_token,
        refused (list_request py token folder_token empty_str) CallList (list json)
                (list_files_in_folder py env (S fuel) token folder_token))
  /\ refused (download_url_request py token file_token) CallDownloadUrl json
             (get_file_download_url py env token file_token)
  /\ (forall file_type ext,
        refused (create_export_request py token file_token file_type ext)
                CallCreateExport json
                (create_export_task py env token file_token file_type ext))
  /\ (forall ticket,
        refused (query_export_request py token ticket file_token)
                CallQueryExport (sum json unit)
                (query_once py env token ticket file_token)).
Proof.
  unfold refused. repeat split; intros.
  - unfold get_tenant_access_token. open_body H. read_member. rewrite Hcode.
    cbn [negb]. read_member. reflexivity.
  - unfold list_files_in_folder. cbn [list_files_loop]. open_body H.
    read_member. rewrite Hcode. cbn [negb]. read_member. reflexivity.
  - unfold get_file_download_url. open_body H. read_member. rewrite Hcode.
    cbn [negb]. read_member. reflexivity.
  - unfold create_export_task. open_body H. read_member. rewrite Hcode.
    cbn [negb]. read_member. reflexivity.
  - unfold query_once. open_body H. read_member. rewrite Hcode.
    cbn [negb]. read_member. reflexivity.
Qed.

End Refused.

Section Lenient.

Hypothesis Hcode : py_eq_int (member kv "code" JNull) 0 = true.
Hypothesis Hdata : assoc (u "data"%string) kv = None.
Hypothesis Htoken : assoc (u "tenant_access_token"%string) kv = None.

Let lenient (req : Request) (A : Type) (m : M A) (a : A) : Prop :=
  http env tr req = Resp r ->
  m tr = (tr ++ [EHttp req (Resp r)], Val a).

Ltac rest_of_body :=
  unfold member, get, dict_get, lift; rewrite ?Hdata, ?Htoken; reflexivity.

Lemma lenient_calls :
  lenient (token_request env) json (get_tenant_access_token env) JNull
  /\ (forall fuel folder_token,
        lenient (list_request py token folder_token empty_str) (list json)
                (list_files_in_folder py env (S fuel) token folder_token) [])
  /\ lenient (download_url_request py token file_token) json
             (get_file_download_url py env token file_token) JNull
  /\ (forall file_type ext,
        lenient (create_export_request py token file_token file_type ext) json
                (create_export_task py env token file_token file_type ext) JNull)
  /\ (forall ticket,
        lenient (query_export_request py token ticket file_token) (sum json unit)
                (query_once py env token ticket file_token) (inr tt)).
Proof.
  unfold lenient. repeat split; intros.
  - unfold get_tenant_access_token. open_body H. read_member. rewrite Hcode.
    cbn [negb]. rest_of_body.
  - unfold list_files_in_folder. cbn [list_files_loop]. open_body H.
    read_member. rewrite Hcode. cbn [negb]. rest_of_body.
  - unfold get_file_download_url. open_body H. read_member. rewrite Hcode.
    cbn [negb]. rest_of_body.
  - unfold create_export_task. open_body H. read_member. rewrite Hcode.
    cbn [negb]. rest_of_body.
  - unfold query_once. open_body H. read_member. rewrite Hcode.
    cbn [negb]. rest_of_body.
Qed.

End Lenient.

End ApiBodies.

(** X5. An answer that passes the status check but whose JSON object has a
    [code] other than 0, or no [code] at all, makes each JSON call raise
    its own error with the [msg] of the body ([None] when there is none),
    right after its one request. *)
Theorem api_code_refused (py : Python) (env : Env) (token file_token : json)
    (r : Response) (kv : list (pystr * json)) (tr : trace) :
  status_ok r ->
  parsed r = Some (JObj kv) ->
  py_eq_int (member kv "code" JNull) 0 = false ->
  let refused (req : Request) (c : api_call) (A : Type) (m : M A) :=
    http env tr req = Resp r ->
    m tr = (tr ++ [EHttp req (Resp r)],
            Exn (ApiError c (member kv "msg" JNull))) in
  refused (token_request env) CallToken json (get_tenant_access_token env)
  /\ (forall fuel folder_token,
        refused (list_request py token folder_token empty_str) CallList (list json)
                (list_files_in_folder py env (S fuel) token folder_token))
  /\ refused (download_url_request py token file_token) CallDownloadUrl json
             (get_file_download_url py env token file_token)
  /\ (forall file_type ext,
        refused (create_export_request py token file_token file_type ext)
                CallCreateExport json
                (create_export_task py env token file_token file_type ext))
  /\ (forall ticket,
        refused (query_export_request py token ticket file_token)
                CallQueryExport (sum json unit)
                (query_once py env token ticket file_token)).
Proof.
  intros Hs Hp Hc.
  exact (refused_calls py env token file_token r kv tr Hs Hp Hc).
Qed.

Lemma api_code_refused_witness :
  let py := demo_py in
  let env := env_empty_object in
  let token := str "t-abc" in
  let file_token := str "d1" in
  let r := mkResponse 200 (Some (JObj [])) [] in
  let kv : list (pystr * json) := [] in
  let tr : trace := [] in
  let refused (req : Request) (c : api_call) (A : Type) (m : M A) :=
    http env tr req = Resp r ->
    m tr = (tr ++ [EHttp req (Resp r)],
            Exn (ApiError c (member kv "msg" JNull))) in
  refused (token_request env) CallToken json (get_tenant_access_token env)
  /\ (forall fuel folder_token,
        refused (list_request py token folder_token empty_str) CallList (list json)
                (list_files_in_folder py env (S fuel) token folder_token))
  /\ refused (download_url_request py token file_token) CallDownloadUrl json
             (get_file_download_url py env token file_token)
  /\ (forall file_type ext,
        refused (create_export_request py token file_token file_type ext)
                CallCreateExport json
                (create_export_task py env token file_token file_type ext))
  /\ (forall ticket,
        refused (query_export_request py token ticket file_token)
                CallQueryExport (sum json unit)
                (query_once py env token ticket file_token)).
Proof.
  apply (api_code_refused demo_py env_empty_object (str "t-abc") (str "d1")
           (mkResponse 200 (Some (JObj [])) []) [] []); reflexivity.
Defined.

(** X6. With [code] 0 but no [data] member in the body (for the token: no
    [tenant_access_token] member) no call raises: the token, the download
    URL and the export ticket come back as [None], the listing comes back
    empty after one request, and the poll takes the job as still
    running. *)
Theorem api_missing_payload (py : Python) (env : Env) (token file_token : json)
    (r : Response) (kv : list (pystr * json)) (tr : trace) :
  status_ok r ->
  parsed r = Some (JObj kv) ->
  py_eq_int (member kv "code" JNull) 0 = true ->
  assoc (u "data"%string) kv = None ->
  assoc (u "tenant_access_token"%string) kv = None ->
  let lenient (req : Request) (A : Type) (m : M A) (a : A) :=
    http env tr req = Resp r ->
    m tr = (tr ++ [EHttp req (Resp r)], Val a) in
  lenient (token_request env) json (get_tenant_access_token env) JNull
  /\ (forall fuel folder_token,
        lenient (list_request py token folder_token empty_str) (list json)
                (list_files_in_folder py env (S fuel) token folder_token) [])
  /\ lenient (download_url_request py token file_token) json
             (get_file_download_url py env token file_token) JNull
  /\ (forall file_type ext,
        lenient (create_export_request py token file_token file_type ext) json
                (create_export_task py env token file_token file_type ext) JNull)
  /\ (forall ticket,
        lenient (query_export_request py token ticket file_token) (sum json unit)
                (query_once py env token ticket file_token) (inr tt)).
Proof.
  intros Hs Hp Hc Hd Ht.
  exact (lenient_calls py env token file_token r kv tr Hs Hp Hc Hd Ht).
Qed.

Lemma api_missing_payload_witness :
  let py := demo_py in
  let env := env_bare_success in
  let token := str "t-abc" in
  let file_token := str "d1" in
  let kv : list (pystr * json) := [ (u "code"%string, JInt 0) ] in
  let r := mkResponse 200 (Some (JObj kv)) [] in
  let tr : trace := [] in
  let lenient (req : Request) (A : Type) (m : M A) (a : A) :=
    http env tr req = Resp r ->
    m tr = (tr ++ [EHttp req (Resp r)], Val a) in
  lenient (token_request env) json (get_tenant_access_token env) JNull
  /\ (forall fuel folder_token,
        lenient (list_request py token folder_token empty_str) (list json)
                (list_files_in_folder py env (S fuel) token folder_token) [])
  /\ lenient (download_url_request py token file_token) json
             (get_file_download_url py env token file_token) JNull
  /\ (forall file_type ext,
        lenient (create_export_request py token file_token file_type ext) json
                (create_export_task py env token file_token file_type ext) JNull)
  /\ (forall ticket,
        lenient (query_export_request py token ticket file_token) (sum json unit)
                (query_once py env token ticket file_token) (inr tt)).
Proof.
  apply (api_missing_payload demo_py env_bare_success (str "t-abc") (str "d1")
           (mkResponse 200 (Some (JObj [ (u "code"%string, JInt 0) ])) [])
           [ (u "code"%string, JInt 0) ] []); reflexivity.
Defined.

(** ** The two downloads *)

Lemma download_tail (env : Env) (req : Request) (p : path) (tr : trace) :
  exists new r,
    (response <- send env req ;;
     raise_for_status response ;;
     mkdir env (parent p) ;;
     save env p (chunks response)) tr
    = (tr ++ new, r)
    /\ download_events req p new r.
Proof.
  unfold bind at 1, send.
  destruct (http env tr req) as [|rsp] eqn:Eh.
  { exists [EHttp req ConnFail], (Exn RequestException).
    split; [reflexivity|]. left. exists ConnFail. simpl. auto. }
  unfold bind at 1, raise_for_status.
  destruct ((400 <=? status_code rsp)%Z && (status_code rsp <? 600)%Z) eqn:Es.
  { exists [EHttp req (Resp rsp)], (Exn (HTTPError (status_code rsp))).
    split; [reflexivity|]. left. exists (Resp rsp). simpl. auto. }
  unfold ret at 1. unfold bind at 1, mkdir.
  destruct (mkdir_ok env (tr ++ [EHttp req (Resp rsp)]) (parent p)) eqn:Em.
  - unfold save.
    destruct (save_ok env ((tr ++ [EHttp req (Resp rsp)]) ++ [EMkdir (parent p) true]) p)
      eqn:Ev.
    + exists [EHttp req (Resp rsp); EMkdir (parent p) true;
              ESave p (concat (chunks rsp)) true], (Val tt).
      split; [now rewrite <- !app_assoc|]. right. exists rsp. split; [exact Es|].
      right. right. auto.
    + exists [EHttp req (Resp rsp); EMkdir (parent p) true; ESave p [] false],
             (Exn OSError).
      split; [now rewrite <- !app_assoc|]. right. exists rsp. split; [exact Es|].
      right. left. auto.
  - exists [EHttp req (Resp rsp); EMkdir (parent p) false], (Exn OSError).
    split; [now rewrite <- !app_assoc|]. right. exists rsp. split; [exact Es|].
    left. auto.
Qed.


(** ** A listing without end *)

Lemma list_files_loop_endless (py : Python) (env : Env)
    (token folder_token : json) (fuel : nat) :
  endless env ->
  forall files page_token tr,
  exists new,
    list_files_loop py env fuel token folder_token files page_token tr
    = (tr ++ new, OutOfFuel)
    /\ length (reqs new) = fuel.
Proof.
  intros He. induction fuel as [|n IH]; intros files page_token tr.
  - exists []. simpl. rewrite app_nil_r. auto.
  - destruct (He tr (list_request py token folder_token page_token))
      as [p [Hh [Hp Hm]]].
    rewrite (list_files_loop_page py env token folder_token n files page_token
               p tr Hh Hp).
    cbv zeta. rewrite Hm.
    destruct (IH (files ++ p_items p) (p_next p)
                 (tr ++ [EHttp (list_request py token folder_token page_token)
                               (Resp (p_resp p))]))
      as [new [E Hl]].
    exists (EHttp (list_request py token folder_token page_token) (Resp (p_resp p))
            :: new).
    rewrite E, <- app_assoc. split; [reflexivity|]. simpl. now rewrite Hl.
Qed.

(** X8. The listing loop has no page limit: against a server whose every
    answer reports [has_more], [list_files_in_folder] never returns; it
    sends a request in every round, however many rounds it is given. *)
Theorem list_files_in_folder_endless (py : Python) (env : Env)
    (token folder_token : json) (fuel : nat) (tr : trace) :
  endless env ->
  exists new,
    list_files_in_folder py env fuel token folder_token tr
    = (tr ++ new, OutOfFuel)
    /\ length (reqs new) = fuel.
Proof.
  intros He. unfold list_files_in_folder.
  exact (list_files_loop_endless py env token folder_token fuel He [] empty_str tr).
Qed.

Lemma env_always_more_endless : endless env_always_more.
Proof.
  intros tr req. exists page_more. split; [reflexivity|]. split; [|reflexivity].
  split; [reflexivity|]. do 4 eexists.
  repeat (split; [reflexivity|]). reflexivity.
Qed.

Lemma list_files_in_folder_endless_witness :
  exists new,
    list_files_in_folder demo_py env_always_more 7 (str "t-abc") (str "fld") []
    = ([] ++ new, OutOfFuel)
    /\ length (reqs new) = 7%nat.
Proof.
  apply (list_files_in_folder_endless demo_py env_always_more (str "t-abc")
           (str "fld") 7 []).
  apply env_always_more_endless.
Defined.

(** ** More on the poll loop *)

(** X9. With a clock that does not run backwards, a [max_wait] of zero or
    less makes [query_export_task] raise the timeout error after reading
    the clock twice, without a single status request. *)
Theorem query_export_task_no_wait (py : Python) (env : Env)
    (token ticket file_token : json) (max_wait : Q) (fuel : nat) (tr : trace) :
  clock_advances env ->
  max_wait <= 0 ->
  query_export_task py env (S fuel) token ticket file_token max_wait tr
  = (tr ++ [ETime (clock env tr);
            ETime (clock env (tr ++ [ETime (clock env tr)]))],
     Exn ExportTimedOut).
Proof.
  intros [Hmono _] Hw. unfold query_export_task, bind at 1, time_time.
  cbn [query_loop]. unfold bind at 1, time_time.
  pose proof (Hmono tr (ETime (clock env tr))) as Hm.
  destruct (Qlt_le_dec
              (clock env (tr ++ [ETime (clock env tr)]) - clock env tr) max_wait)
    as [Hlt|Hge].
  - lra.
  - unfold raise. now rewrite <- app_assoc.
Qed.

Lemma query_export_task_no_wait_witness :
  query_export_task demo_py env_job_done 1 (str "t-abc") (str "ticket1")
    (str "doccn1") 0 []
  = ([] ++ [ETime (clock env_job_done []);
            ETime (clock env_job_done ([] ++ [ETime (clock env_job_done [])]))],
     Exn ExportTimedOut).
Proof.
  apply (query_export_task_no_wait demo_py env_job_done (str "t-abc")
           (str "ticket1") (str "doccn1") 0 0 []).
  - apply tick_clock_advances. reflexivity.
  - lra.
Defined.

Section PollVerdict.

Variable py : Python.
Variable env : Env.
Variables token ticket file_token : json.

Let q := query_export_request py token ticket file_token.

Lemma post_bind_raise_for_status_eq B (S : trace -> result B -> Prop)
    (r : Response) (k : unit -> M B) :
  (forall s, S [] (Exn (HTTPError s))) ->
  (status_ok r -> post (k tt) S) ->
  post (bind (raise_for_status r) k) S.
Proof.
  intros He Hk. unfold raise_for_status.
  destruct ((400 <=? status_code r)%Z && (status_code r <? 600)%Z) eqn:E.
  - intros tr. exists []. unfold bind, raise. simpl. rewrite app_nil_r. auto.
  - intros tr. destruct (Hk E tr) as [new [E' K]]. exists new.
    unfold bind, ret. auto.
Qed.

Let done_by (new : trace) (v : json) : Prop :=
  exists pre rsp,
    new = pre ++ [EHttp q (Resp rsp)] /\ status_ok rsp /\ reports_done rsp v.

Lemma query_once_verdict :
  post (query_once py env token ticket file_token)
       (fun new r => forall v, r = Val (inl v) -> done_by new v).
Proof.
  unfold query_once. fold q.
  apply post_bind_send; [discriminate|]. intros rsp.
  apply post_bind_raise_for_status_eq; [discriminate|]. intros Hst.
  apply post_bind_response_json_eq; [discriminate|]. intros data Hp.
  apply post_bind_get; [discriminate|]. intros code.
  destruct (negb (py_eq_int code 0)).
  { wp_tac; discriminate. }
  apply post_bind_get_eq; [discriminate|]. intros d Hd.
  apply post_bind_get_eq; [discriminate|]. intros result Hr.
  apply post_bind_get_eq; [discriminate|]. intros js Hj.
  destruct (py_eq_int js 0) eqn:E0.
  { apply post_bind_get_eq; [discriminate|]. intros ft Hf.
    apply post_ret. intros v Hv. injection Hv as <-.
    exists [], rsp. split; [reflexivity|]. split; [exact Hst|].
    exists data, d, result, js. auto 10. }
  destruct (py_eq_int js 2).
  { wp_tac; discriminate. }
  destruct js; try (apply post_ret; discriminate).
  apply post_bind_get_eq; [discriminate|]. intros d2 Hd2.
  apply post_bind_get_eq; [discriminate|]. intros ts Hts.
  destruct (py_eq_str ts (u "done"%string)) eqn:Ed.
  - apply post_bind_get_eq; [discriminate|]. intros d3 Hd3.
    apply post_bind_get_eq; [discriminate|]. intros r3 Hr3.
    apply post_bind_get_eq; [discriminate|]. intros ft Hf.
    apply post_ret. intros v Hv. injection Hv as <-.
    assert (d2 = d) by congruence. assert (d3 = d) by congruence. subst d2 d3.
    assert (r3 = result) by congruence. subst r3.
    exists [], rsp. split; [reflexivity|]. split; [exact Hst|].
    exists data, d, result, JNull. repeat (split; [assumption|]).
    right. split; [reflexivity|]. exists ts. auto.
  - destruct (py_eq_str ts (u "failed"%string)).
    + apply post_raise. discriminate.
    + apply post_ret. discriminate.
Qed.

Lemma query_loop_verdict (fuel : nat) (start max_wait : Q) :
  post (query_loop py env fuel token ticket file_token start max_wait)
       (fun new r => forall v, r = Val v -> done_by new v).
Proof.
  induction fuel as [|n IH]; simpl.
  - apply post_out_of_fuel. discriminate.
  - apply post_bind_time. intros t.
    destruct (Qlt_le_dec (t - start) max_wait); [|apply post_raise; discriminate].
    eapply post_bind; [apply query_once_verdict | | | ].
    + intros n1 a Ha. destruct a as [ft|[]].
      * apply post_ret. intros v Hv. injection Hv as <-.
        destruct (Ha ft eq_refl) as [pre [rsp [-> H]]].
        exists (ETime t :: pre), rsp. rewrite app_nil_r. auto.
      * apply post_bind_emit. eapply post_conseq; [apply IH|].
        intros new r H v Hv. destruct (H v Hv) as [pre [rsp [-> Hx]]].
        exists (ETime t :: n1 ++ ESleep 1 :: pre), rsp.
        split; [|exact Hx]. simpl. now rewrite <- app_assoc.
    + discriminate.
    + discriminate.
Qed.

Lemma query_export_task_verdict (fuel : nat) (max_wait : Q) :
  post (query_export_task py env fuel token ticket file_token max_wait)
       (fun new r => forall v, r = Val v -> done_by new v).
Proof.
  unfold query_export_task. apply post_bind_time. intros t.
  eapply post_conseq; [apply query_loop_verdict|].
  intros new r H v Hv. destruct (H v Hv) as [pre [rsp [-> Hx]]].
  exists (ETime t :: pre), rsp. auto.
Qed.

End PollVerdict.

(** X10. [query_export_task] returns a file token only on the word of the
    server: when it returns [v], the last thing it did was a status
    request whose answer passed the status check and reported the export
    as done with the file token [v]. *)
Theorem query_export_task_returns_reported (py : Python) (env : Env)
    (token ticket file_token : json) (max_wait : Q) (fuel : nat) (tr : trace) :
  exists new r,
    query_export_task py env fuel token ticket file_token max_wait tr
    = (tr ++ new, r)
    /\ forall v, r = Val v ->
       exists pre rsp,
         new = pre ++ [EHttp (query_export_request py token ticket file_token)
                             (Resp rsp)]
         /\ status_ok rsp /\ reports_done rsp v.
Proof.
  apply post_run.
  exact (query_export_task_verdict py env token ticket file_token fuel max_wait).
Qed.

(** ** Items the API would not send *)

(** X11. An item whose name is present and not a string, or whose type is
    not a string, makes [process_file] raise outside its [try] blocks:
    nothing is requested, created or written. *)
Theorem process_file_rejects_malformed (py : Python) (env : Env) (n : nat)
    (token file_info file_token name file_type : json) (output_dir : path)
    (tr : trace) :
  dict_get file_info (u "token"%string) JNull = inr file_token ->
  dict_get file_info (u "name"%string)
    (JStr (u "file_"%string ++ fstr py file_token)) = inr name ->
  dict_get file_info (u "type"%string) empty_str = inr file_type ->
  (forall s, name <> JStr s) \/ (forall s, file_type <> JStr s) ->
  exists new,
    process_file py env (S n) token file_info output_dir tr
    = (tr ++ new, Exn WrongType)
    /\ reqs new = [] /\ made new = [] /\ saved new = [].
Proof.
  intros H1 H2 H3 Hbad. cbn [process_file].
  unfold bind at 1, get at 1. rewrite H1. unfold lift at 1, ret at 1.
  unfold bind at 1, get at 1. rewrite H2. unfold lift at 1, ret at 1.
  assert (forall s, name = JStr s -> forall t, file_type <> JStr t) as Hty.
  { intros s -> t. destruct Hbad as [Hb|Hb]; [destruct (Hb s eq_refl) | apply Hb]. }
  destruct name as [| | | |s| |];
    try (exists []; rewrite app_nil_r; repeat split; reflexivity).
  unfold bind at 1, sanitize_json, lift at 1, ret at 1.
  unfold bind at 1, get at 1. rewrite H3. unfold lift at 1, ret at 1.
  unfold bind at 1, print, emit.
  specialize (Hty s eq_refl).
  exists [EPrint (MProcessing (sanitize_filename s) file_type)].
  destruct file_type as [| | | |t| |];
    try (repeat split; reflexivity).
  destruct (Hty t eq_refl).
Qed.

Lemma process_file_rejects_malformed_witness :
  exists new,
    process_file demo_py env_ok 3 (str "t-abc")
      (JObj [ (u "token"%string, str "d1"); (u "name"%string, JNull);
              (u "type"%string, str "docx") ])
      [u "out"%string] []
    = ([] ++ new, Exn WrongType)
    /\ reqs new = [] /\ made new = [] /\ saved new = [].
Proof.
  apply (process_file_rejects_malformed demo_py env_ok 2 (str "t-abc")
           (JObj [ (u "token"%string, str "d1"); (u "name"%string, JNull);
                   (u "type"%string, str "docx") ])
           (str "d1") JNull (str "docx") [u "out"%string] []);
    try reflexivity.
  left. discriminate.
Defined.

(** ** Binary types are matched as written *)

Lemma type_among_binary (py : Python) (ft : pystr) :
  type_among BINARY_TYPES ft ->
  mem (lower py ft) EXPORT_TYPES = false
  /\ PyStr.eqb ft (u "folder"%string) = false.
Proof.
  unfold type_among. intros H.
  assert (forallb is_ascii ft = true) as Ha.
  { apply ascii_lower_ascii.
    assert (Forall (fun t => forallb is_ascii t = true) BINARY_TYPES) as Hall
      by (repeat constructor).
    rewrite Forall_forall in Hall. now apply Hall. }
  split.
  - unfold lower. rewrite Ha. simpl in H.
    repeat (destruct H as [<-|H]; [reflexivity|]). contradiction.
  - apply PyStrFacts.eqb_neq. intros ->. vm_compute in H.
    intuition discriminate.
Qed.



(** ** The extension sent to the export API *)

Section Extension.

Variable py : Python.

Lemma rfind_dot_from_spec (s : pystr) :
  forall i last j,
  rfind_dot_from i s last = Some j ->
  (last = Some j /\ ~ In 46%N s)
  \/ exists a b, s = a ++ 46%N :: b /\ j = (i + length a)%nat /\ ~ In 46%N b.
Proof.
  induction s as [|c r IH]; intros i last j H; simpl in H.
  - left. split; [exact H | intros []].
  - destruct (IH _ _ _ H) as [[Hl Hn]|[a [b [-> [-> Hb]]]]].
    + destruct (N.eqb_spec c 46) as [->|Hc].
      * injection Hl as <-. right. exists [], r. simpl.
        repeat split; [lia | exact Hn].
      * left. split; [exact Hl|]. intros [Hx|Hx]; [congruence | contradiction].
    + right. exists (c :: a), b. simpl. repeat split; [lia | exact Hb].
Qed.

Lemma path_suffix_dotted (name : pystr) :
  path_suffix name = [] \/ dotted (path_suffix name) = true.
Proof.
  unfold path_suffix, rfind_dot.
  destruct (rfind_dot_from 0 name None) as [i|] eqn:E; [|now left].
  destruct ((0 <? i)%nat && (i <? length name - 1)%nat) eqn:Ec; [|now left].
  right. apply andb_true_iff in Ec. destruct Ec as [_ Hi].
  apply Nat.ltb_lt in Hi.
  destruct (rfind_dot_from_spec name 0 None i E) as [[Hl _]|[a [b [-> [-> Hb]]]]];
    [discriminate|].
  cbn [Nat.add]. rewrite skipn_app, skipn_all, Nat.sub_diag.
  cbn [skipn app].
  rewrite length_app in Hi. cbn [length] in Hi.
  destruct b as [|d b']; [cbn [length] in Hi; lia|].
  unfold dotted. rewrite N.eqb_refl. cbn [is_empty negb andb].
  destruct (existsb (N.eqb 46) (d :: b')) eqn:Ex; [|reflexivity].
  apply existsb_exists in Ex. destruct Ex as [x [Hx Hxe]].
  apply N.eqb_eq in Hxe. subst x. contradiction.
Qed.

Lemma ext_get_values (k : pystr) (m : list (pystr * pystr)) :
  ext_get k m = [] \/ In (ext_get k m) (List.map snd m).
Proof.
  induction m as [|[k' v] r IH]; simpl; [now left|].
  destruct (PyStr.eqb k' k); [right; now left|].
  destruct IH; [now left | right; now right].
Qed.

Lemma ext_get_dotted (k : pystr) :
  ext_get k TYPE_TO_EXT = [] \/ dotted (ext_get k TYPE_TO_EXT) = true.
Proof.
  destruct (ext_get_values k TYPE_TO_EXT) as [H|H]; [now left|]. right.
  assert (forallb dotted (List.map snd TYPE_TO_EXT) = true) as Hall by reflexivity.
  rewrite forallb_forall in Hall. now apply Hall.
Qed.

Lemma choose_extension_dotted (file_type name : pystr) :
  name <> [] -> dotted (choose_extension py file_type name) = true.
Proof.
  intros Hn. unfold choose_extension.
  destruct (ext_get_dotted (lower py file_type)) as [E|E].
  - rewrite E. destruct name as [|c0 name']; [contradiction|].
    cbn [is_empty andb negb].
    destruct (path_suffix_dotted (c0 :: name')) as [Es|Es].
    + rewrite Es. reflexivity.
    + destruct (path_suffix (c0 :: name')); [discriminate|]. exact Es.
  - destruct (ext_get (lower py file_type) TYPE_TO_EXT); [discriminate|].
    exact E.
Qed.

Lemma dotted_ext_for_api (ext file_type : pystr) :
  dotted ext = true ->
  ext = 46%N :: ext_for_api ext file_type
  /\ ext_for_api ext file_type <> []
  /\ ~ In 46%N (ext_for_api ext file_type).
Proof.
  destruct ext as [|c rest]; [discriminate|]. simpl.
  intros H. apply andb_true_iff in H. destruct H as [H Hd].
  apply andb_true_iff in H. destruct H as [Hc Hr].
  apply N.eqb_eq in Hc. subst c.
  assert (~ In 46%N rest) as Hno.
  { intros Hin. apply negb_true_iff in Hd.
    assert (existsb (N.eqb 46) rest = true) as K.
    { apply existsb_exists. exists 46%N. split; [exact Hin | apply N.eqb_refl]. }
    congruence. }
  unfold ext_for_api, lstrip_dot. cbn [is_empty negb drop_while].
  rewrite N.eqb_refl.
  destruct rest as [|d rest']; [discriminate|]. cbn [drop_while].
  destruct (N.eqb_spec 46 d) as [Heq|Hne].
  - destruct Hno. now left.
  - repeat split; [discriminate | exact Hno].
Qed.

End Extension.

(** X13. For every listed file the extension chosen is a dot followed by
    the extension sent to the export API, which is never empty and holds
    no dot; the body of the request that creates the export task
    therefore always carries a [file_extension]. *)
Theorem export_extension_is_dotless (py : Python) (raw file_type : pystr)
    (file_token : json) :
  let ext := choose_extension py file_type (sanitize_filename raw) in
  let api := ext_for_api ext file_type in
  ext = 46%N :: api
  /\ api <> []
  /\ ~ In 46%N api
  /\ export_payload file_token (JStr file_type) api
     = JObj [ (u "token"%string, file_token);
              (u "type"%string, JStr file_type);
              (u "file_extension"%string, JStr api) ].
Proof.
  cbv zeta.
  destruct (sanitize_filename_sanitized raw) as [_ _ _ _ Hne].
  pose proof (choose_extension_dotted py file_type (sanitize_filename raw) Hne) as Hd.
  destruct (dotted_ext_for_api _ file_type Hd) as [H1 [H2 H3]].
  repeat split; auto.
  unfold export_payload.
  destruct (ext_for_api (choose_extension py file_type (sanitize_filename raw))
              file_type); [contradiction | reflexivity].
Qed.

Lemma unmapped_export_type (py : Python) (ft : pystr) :
  type_among UNMAPPED_EXPORT_TYPES ft ->
  type_among EXPORT_TYPES ft
  /\ ext_get (lower py ft) TYPE_TO_EXT = [].
Proof.
  intros H. assert (type_among EXPORT_TYPES ft) as He.
  { unfold type_among in *. simpl in H. simpl.
    repeat (destruct H as [<-|H]; [auto 20|]). contradiction. }
  split; [exact He|].
  unfold type_among in H.
  assert (forallb is_ascii ft = true) as Ha.
  { apply ascii_lower_ascii.
    assert (Forall (fun t => forallb is_ascii t = true) UNMAPPED_EXPORT_TYPES)
      as Hall by (repeat constructor).
    rewrite Forall_forall in Hall. now apply Hall. }
  unfold lower. rewrite Ha. simpl in H.
  repeat (destruct H as [<-|H]; [reflexivity|]). contradiction.
Qed.



(** ** main authenticates first *)

(** X15. Before it holds a token [main] only prints: either its first
    request is the token request, answered with a token, and everything
    else follows it; or the run ends with an exception (missing
    credentials, a failed token request) having created no directory,
    written no file and sent at most that one request. *)
Theorem main_authenticates_first (py : Python) (env : Env) (fuel : nat)
    (folder_token : pystr) (output_dir : path) (tr0 : trace) :
  exists new r,
    main py env fuel folder_token output_dir tr0 = (tr0 ++ new, r)
    /\ ((exists pre res post token,
           new = pre ++ EHttp (token_request env) res :: post
           /\ Forall printed pre
           /\ get_tenant_access_token env (tr0 ++ pre)
              = ((tr0 ++ pre) ++ [EHttp (token_request env) res], Val token))
        \/ (made new = [] /\ saved new = [] /\ (length (reqs new) <= 1)%nat
            /\ exists e, r = Exn e)).
Proof.
  unfold main.
  destruct (falsy_opt (FEISHU_APP_ID env) || falsy_opt (FEISHU_APP_SECRET env)).
  - unfold bind, print, emit, raise. cbv iota beta.
    eexists [_; _; _], _. split; [now rewrite <- !app_assoc|].
    right. simpl. repeat split; [lia | eauto].
  - match goal with
    | |- context [bind (get_tenant_access_token env) ?k] => set (K := k)
    end.
    assert (forall token, appends (with_token py token) (K token)) as HK.
    { intros token. subst K. cbv beta.
      appends_step; [appends_tac|].
      appends_step; [appends_tac; exact I|].
      appends_step; [appends_tac; exact I|].
      appends_step; [appends_tac; exact I|].
      appends_step; [apply list_files_loop_token|].
      appends_step; [appends_tac; exact I|].
      appends_step; [apply print_items_token|].
      appends_step; [appends_tac; exact I|].
      appends_step; [appends_tac; exact I|].
      appends_step.
      { apply appends_for_each. intros x _. apply process_file_token. }
      appends_tac; exact I. }
    unfold bind at 1 2 3, print, emit. cbv iota beta.
    set (pre := [EPrint (MText (u "Feishu File Downloader"%string));
                 EPrint (MText (rule 61%N));
                 EPrint (MText (u "Getting access token..."%string))]).
    replace (((tr0 ++ [EPrint (MText (u "Feishu File Downloader"%string))])
              ++ [EPrint (MText (rule 61%N))])
             ++ [EPrint (MText (u "Getting access token..."%string))])
      with (tr0 ++ pre) by (subst pre; now rewrite <- !app_assoc).
    assert (Forall printed pre) as Hpre.
    { subst pre. repeat constructor; eexists; reflexivity. }
    unfold bind.
    pose proof (get_tenant_access_token_trace env (tr0 ++ pre)) as Ht.
    destruct (get_tenant_access_token env (tr0 ++ pre)) as [tr1 r1] eqn:Eg.
    simpl in Ht. subst tr1.
    set (res := http env (tr0 ++ pre) (token_request env)) in *.
    destruct r1 as [token|e|].
    + destruct (HK token ((tr0 ++ pre) ++ [EHttp (token_request env) res]))
        as [post [E HP]].
      exists (pre ++ EHttp (token_request env) res :: post),
             (snd (K token ((tr0 ++ pre) ++ [EHttp (token_request env) res]))).
      split.
      { destruct (K token ((tr0 ++ pre) ++ [EHttp (token_request env) res]))
          as [trk rk]. simpl in E. subst trk. simpl. now rewrite <- !app_assoc. }
      left. exists pre, res, post, token. auto.
    + exists (pre ++ [EHttp (token_request env) res]), (Exn e).
      split; [now rewrite <- app_assoc|].
      right. subst pre. simpl. repeat split; [lia | eauto].
    + exfalso. revert Eg. unfold get_tenant_access_token.
      assert (post (response <- send env (token_request env);;
                    raise_for_status response;;
                    data <- response_json response;;
                    code <- get data "code" JNull;;
                    (if negb (py_eq_int code 0)
                     then msg <- get data "msg" JNull;;
                          raise (ApiError CallToken msg)
                     else get data "tenant_access_token" JNull))
                   (fun _ r => r <> OutOfFuel)) as Hp.
      { wp_tac; discriminate. }
      intros Eg. destruct (Hp (tr0 ++ pre)) as [n [_ Hn]].
      rewrite Eg in Hn. now apply Hn.
Qed.

(** ** Where the script writes *)

Section Below.

Variable py : Python.
Variable env : Env.
Variable token : json.

Lemma below_refl (root : path) : below root root.
Proof. exists []. rewrite app_nil_r. split; [reflexivity | constructor]. Qed.

Lemma below_trans (a b c : path) : below a b -> below b c -> below a c.
Proof.
  intros [r1 [-> H1]] [r2 [-> H2]]. exists (r1 ++ r2).
  rewrite app_assoc. split; [reflexivity | now apply Forall_app].
Qed.

Lemma touches_below_trans (a b : path) (ev : Event) :
  below a b -> touches_below b ev -> touches_below a ev.
Proof.
  intros Hab. destruct ev; simpl; auto; intros H; eapply below_trans; eauto.
Qed.

Lemma sanitized_clean (raw : pystr) : clean_component (sanitize_filename raw).
Proof.
  destruct (sanitize_filename_sanitized raw) as [Hv _ _ _ _]. exact Hv.
Qed.

Lemma path_div_below (root : path) (name : pystr) :
  clean_component name -> below root (path_div root name).
Proof.
  intros Hc. unfold path_div.
  destruct (is_empty name || PyStr.eqb name [46%N]); [apply below_refl|].
  exists [name]. split; [reflexivity | repeat constructor; exact Hc].
Qed.

Lemma path_suffix_incl (name : pystr) (c : codepoint) :
  In c (path_suffix name) -> In c name.
Proof.
  unfold path_suffix. destruct (rfind_dot name) as [i|]; [|intros []].
  destruct (_ && _); [|intros []].
  intros H. rewrite <- (firstn_skipn i name). apply in_or_app. now right.
Qed.

Lemma choose_extension_clean (file_type name : pystr) :
  clean_component name ->
  clean_component (choose_extension py file_type name).
Proof.
  intros Hn. unfold choose_extension.
  assert (forall k, clean_component (ext_get k TYPE_TO_EXT)) as Hm.
  { intros k. destruct (ext_get_values k TYPE_TO_EXT) as [E|E].
    - rewrite E. intros c [].
    - revert E. generalize (ext_get k TYPE_TO_EXT). apply Forall_forall.
      repeat constructor; intros c Hc; apply is_invalid_In; revert c Hc;
        apply Forall_forall; repeat constructor. }
  destruct (is_empty (ext_get (lower py file_type) TYPE_TO_EXT)
            && negb (is_empty name)); [|apply Hm].
  destruct (negb (is_empty (path_suffix name))).
  - intros c Hc. apply Hn. now apply path_suffix_incl.
  - intros c Hc. apply is_invalid_In. revert c Hc.
    apply Forall_forall. repeat constructor.
Qed.

Lemma local_name_clean (raw file_type : pystr) :
  clean_component (local_name py raw file_type).
Proof.
  unfold local_name, with_extension.
  pose proof (sanitized_clean raw) as Hn.
  pose proof (choose_extension_clean file_type (sanitize_filename raw) Hn) as He.
  destruct (negb _); [|exact Hn].
  intros c Hc. apply in_app_or in Hc. destruct Hc; [now apply Hn | now apply He].
Qed.

(** The local name of a file is a component of its own: neither empty nor
    a single dot. *)
Lemma local_name_component (raw file_type : pystr) (root : path) :
  path_div root (local_name py raw file_type)
  = root ++ [local_name py raw file_type].
Proof.
  assert (local_name py raw file_type <> []
          /\ local_name py raw file_type <> [46%N]) as [H1 H2].
  { unfold local_name, with_extension.
    destruct (sanitize_filename_sanitized raw) as [_ _ _ _ Hne].
    pose proof (choose_extension_dotted py file_type (sanitize_filename raw) Hne)
      as Hd.
    destruct (endswith (lower py (sanitize_filename raw))
                (lower py (choose_extension py file_type (sanitize_filename raw))))
      eqn:Ee; cbn [negb].
    - split; [exact Hne|]. intros Hdot. rewrite Hdot in Ee.
      destruct (choose_extension_cases py file_type (sanitize_filename raw) Hne)
        as [_ [Hm [_ Hb]]].
      rewrite Hdot in Hm, Hb.
      assert (Forall (fun v => endswith (lower py [46%N]) (lower py v) = false)
                     (u ".bin"%string :: List.map snd TYPE_TO_EXT)) as Hall
        by (repeat constructor).
      rewrite Forall_forall in Hall.
      destruct (ext_get_values (lower py file_type) TYPE_TO_EXT) as [E|E].
      + rewrite (Hb E eq_refl) in Ee.
        rewrite (Hall (u ".bin"%string)) in Ee; [discriminate | now left].
      + assert (ext_get (lower py file_type) TYPE_TO_EXT <> []) as Hx.
        { intros E0. rewrite E0 in E. simpl in E.
          repeat (destruct E as [E|E]; [discriminate|]). contradiction. }
        rewrite (Hm Hx) in Ee.
        rewrite (Hall _ (or_intror E)) in Ee. discriminate.
    - destruct (sanitize_filename raw) as [|c r]; [contradiction|].
      destruct (choose_extension py file_type (c :: r)) as [|d e]; [discriminate|].
      split; [discriminate|]. destruct r; discriminate. }
  unfold path_div.
  destruct (local_name py raw file_type) as [|c r] eqn:E; [contradiction|].
  cbn [is_empty orb].
  destruct (PyStr.eqb (c :: r) [46%N]) eqn:Eq; [|reflexivity].
  apply PyStrFacts.eqb_eq in Eq. contradiction.
Qed.

End Below.

Section BelowRoot.

Variable py : Python.
Variable env : Env.
Variable token : json.
Variable root : path.

Let P := touches_below root.

Ltac below_tac :=
  appends_tac; try exact I; try (unfold P; simpl; assumption).

Lemma list_files_loop_below fuel folder_token files page_token :
  appends P (list_files_loop py env fuel token folder_token files page_token).
Proof.
  revert files page_token.
  induction fuel as [|n IH]; intros files page_token; simpl.
  - apply appends_out_of_fuel.
  - below_tac. apply IH.
Qed.

Lemma get_file_download_url_below file_token :
  appends P (get_file_download_url py env token file_token).
Proof. unfold get_file_download_url. below_tac. Qed.

Lemma create_export_task_below file_token file_type ext :
  appends P (create_export_task py env token file_token file_type ext).
Proof. unfold create_export_task. below_tac. Qed.

Lemma query_once_below ticket file_token :
  appends P (query_once py env token ticket file_token).
Proof. unfold query_once. below_tac. Qed.

Lemma query_export_task_below fuel ticket file_token max_wait :
  appends P (query_export_task py env fuel token ticket file_token max_wait).
Proof.
  unfold query_export_task. appends_step; [below_tac|]. 
  generalize a as start. intros start.
  induction fuel as [|n IH]; simpl.
  - apply appends_out_of_fuel.
  - appends_step; [below_tac|].
    destruct (Qlt_le_dec _ _); [|apply appends_raise].
    appends_step; [apply query_once_below|].
    destruct a1; [apply appends_ret|].
    appends_step; [apply appends_emit; exact I | apply IH].
Qed.

Section OneFile.

Variable p : path.
Hypothesis Hdir : below root (parent p).
Hypothesis Hfile : below root p.

Lemma download_file_below url : appends P (download_file env url p).
Proof. unfold download_file. below_tac. Qed.

Lemma download_exported_file_below export_file_token :
  appends P (download_exported_file py env token export_file_token p).
Proof. unfold download_exported_file. below_tac. Qed.

Lemma export_workflow_below fuel file_token file_type ext :
  appends P (export_workflow py env fuel token file_token file_type ext p).
Proof.
  unfold export_workflow.
  appends_step; [apply create_export_task_below|].
  appends_step; [apply query_export_task_below|].
  appends_step; [apply download_exported_file_below|].
  below_tac.
Qed.

Lemma direct_workflow_below file_token :
  appends P (direct_workflow py env token file_token p).
Proof.
  unfold direct_workflow.
  appends_step; [apply get_file_download_url_below|].
  appends_step; [apply download_file_below|].
  below_tac.
Qed.

Lemma download_entry_below fuel file_token file_type ext :
  appends P (download_entry py env fuel token file_token file_type ext p).
Proof.
  unfold download_entry.
  pose proof (export_workflow_below fuel file_token file_type ext).
  pose proof (direct_workflow_below file_token).
  appends_step; [|below_tac].
  destruct (mem _ _).
  { appends_step; [below_tac | assumption]. }
  destruct (mem _ _); [assumption|].
  appends_step; [assumption|].
  appends_step; [below_tac|].
  appends_step; [|below_tac].
  appends_step; [below_tac | assumption].
Qed.

End OneFile.

End BelowRoot.

Lemma appends_weaken A (P Q : Event -> Prop) (m : M A) :
  (forall ev, P ev -> Q ev) -> appends P m -> appends Q m.
Proof.
  intros H Hm. eapply post_conseq; [exact Hm|].
  intros new r Hn. eapply Forall_impl; [exact H | exact Hn].
Qed.

Lemma appends_bind_lift_inr A B (P : Event -> Prop) (a : A) (k : A -> M B) :
  appends P (k a) -> appends P (bind (lift (inr a)) k).
Proof. intros H tr. exact (H tr). Qed.

Lemma process_file_below (py : Python) (env : Env) (token : json) (fuel : nat) :
  forall (file_info : json) (output_dir : path),
  appends (touches_below output_dir)
          (process_file py env fuel token file_info output_dir).
Proof.
  induction fuel as [|n IH]; intros file_info output_dir; simpl.
  - apply appends_out_of_fuel.
  - appends_step; [appends_tac|]. appends_step; [appends_tac|].
    unfold sanitize_json.
    destruct a0 as [| | | |nm| |]; try (appends_tac; fail).
    apply appends_bind_lift_inr.
    appends_step; [appends_tac|].
    appends_step; [apply appends_print; exact I|].
    pose proof (path_div_below output_dir (sanitize_filename nm)
                  (sanitized_clean nm)) as Hsub.
    destruct (py_eq_str a0 (u "folder"%string)).
    + appends_step; [apply appends_mkdir; intros ok; exact Hsub|].
      appends_step; [apply appends_print; exact I|].
      apply appends_try; [|intros e; apply appends_print; exact I].
      unfold list_files_in_folder.
      appends_step; [apply list_files_loop_below|].
      apply appends_for_each. intros x _.
      eapply appends_weaken; [|apply IH].
      intros ev. apply touches_below_trans. exact Hsub.
    + destruct a0 as [| | | |ft| |]; try apply appends_raise.
      change (with_extension py (sanitize_filename nm)
                (choose_extension py ft (sanitize_filename nm)))
        with (local_name py nm ft).
      rewrite (local_name_component py nm ft output_dir).
      apply download_entry_below.
      * unfold parent. rewrite removelast_last. apply below_refl.
      * exists [local_name py nm ft]. split; [reflexivity|].
        repeat constructor. apply local_name_clean.
Qed.

(** X16. Whatever the server sends, every directory [process_file] creates
    and every file it writes is [output_dir] followed by components that
    hold none of the nine invalid characters, so a listed name cannot
    smuggle in a path separator (a component can still be two dots); and
    a file is written under its local name, as a component of its own. *)
Theorem process_file_writes_below (py : Python) (env : Env) (token : json)
    (fuel : nat) (file_info : json) (output_dir : path) (tr : trace) :
  (exists new,
     fst (process_file py env fuel token file_info output_dir tr) = tr ++ new
     /\ Forall (touches_below output_dir) new)
  /\ forall raw file_type,
       path_div output_dir (local_name py raw file_type)
       = output_dir ++ [local_name py raw file_type]
       /\ clean_component (local_name py raw file_type).
Proof.
  split.
  - apply (process_file_below py env token fuel file_info output_dir tr).
  - intros raw file_type. split.
    + apply local_name_component.
    + apply local_name_clean.
Qed.

(** ** Bodies that are not what the script expects *)

Lemma api_prefix_body_error (env : Env) B (req : Request) (r : Response)
    (e : exn) (tr : trace) (k : json -> M B) :
  http env tr req = Resp r ->
  status_ok r ->
  body_error r e ->
  (forall v, (forall kv, v <> JObj kv) -> forall t, k v t = (t, Exn WrongType)) ->
  (response <- send env req ;;
   raise_for_status response ;;
   data <- response_json response ;;
   k data) tr
  = (tr ++ [EHttp req (Resp r)], Exn e).
Proof.
  intros Hh Hs Hb Hk.
  destruct Hb as [[Hp ->]|[v [Hp [Hv ->]]]].
  - unfold bind at 1, send. rewrite Hh.
    unfold bind at 1, raise_for_status. unfold status_ok in Hs. rewrite Hs.
    unfold ret at 1. unfold bind at 1, response_json. rewrite Hp. reflexivity.
  - rewrite (api_prefix_ok env B req r v tr k Hh Hs Hp). now apply Hk.
Qed.

Lemma get_not_object B (v : json) (key : String.string) (dflt : json)
    (k : json -> M B) (t : trace) :
  (forall kv, v <> JObj kv) ->
  bind (get v key dflt) k t = (t, Exn WrongType).
Proof.
  intros Hv. destruct v; try reflexivity. destruct (Hv kv eq_refl).
Qed.

(** X17. An answer that passes the status check but whose body is not
    JSON (say, the bytes of the file itself) makes each JSON call raise
    [JSONDecodeError]; a JSON body that is not an object makes it raise
    the error of a failed [get]; either way right after its one
    request. *)
Theorem api_body_unusable (py : Python) (env : Env) (token file_token : json)
    (r : Response) (e : exn) (tr : trace) :
  status_ok r ->
  body_error r e ->
  let fails (req : Request) (A : Type) (m : M A) :=
    http env tr req = Resp r ->
    m tr = (tr ++ [EHttp req (Resp r)], Exn e) in
  fails (token_request env) json (get_tenant_access_token env)
  /\ (forall fuel folder_token,
        fails (list_request py token folder_token empty_str) (list json)
              (list_files_in_folder py env (S fuel) token folder_token))
  /\ fails (download_url_request py token file_token) json
           (get_file_download_url py env token file_token)
  /\ (forall file_type ext,
        fails (create_export_request py token file_token file_type ext) json
              (create_export_task py env token file_token file_type ext))
  /\ (forall ticket,
        fails (query_export_request py token ticket file_token) (sum json unit)
              (query_once py env token ticket file_token)).
Proof.
  intros Hs Hb. cbv zeta. repeat split; intros.
  - unfold get_tenant_access_token.
    apply api_prefix_body_error; auto. intros v Hv t. now apply get_not_object.
  - unfold list_files_in_folder. cbn [list_files_loop].
    apply api_prefix_body_error; auto. intros v Hv t. now apply get_not_object.
  - unfold get_file_download_url.
    apply api_prefix_body_error; auto. intros v Hv t. now apply get_not_object.
  - unfold create_export_task.
    apply api_prefix_body_error; auto. intros v Hv t. now apply get_not_object.
  - unfold query_once.
    apply api_prefix_body_error; auto. intros v Hv t. now apply get_not_object.
Qed.

Lemma api_body_unusable_witness :
  let py := demo_py in
  let env := env_raw_bytes in
  let token := str "t-abc" in
  let file_token := str "d1" in
  let r := mkResponse 200 None [[80; 75; 3; 4]]%N in
  let e := JSONDecodeError in
  let tr : trace := [] in
  let fails (req : Request) (A : Type) (m : M A) :=
    http env tr req = Resp r ->
    m tr = (tr ++ [EHttp req (Resp r)], Exn e) in
  fails (token_request env) json (get_tenant_access_token env)
  /\ (forall fuel folder_token,
        fails (list_request py token folder_token empty_str) (list json)
              (list_files_in_folder py env (S fuel) token folder_token))
  /\ fails (download_url_request py token file_token) json
           (get_file_download_url py env token file_token)
  /\ (forall file_type ext,
        fails (create_export_request py token file_token file_type ext) json
              (create_export_task py env token file_token file_type ext))
  /\ (forall ticket,
        fails (query_export_request py token ticket file_token) (sum json unit)
              (query_once py env token ticket file_token)).
Proof.
  apply (api_body_unusable demo_py env_raw_bytes (str "t-abc") (str "d1")
           (mkResponse 200 None [[80; 75; 3; 4]]%N) JSONDecodeError []).
  - reflexivity.
  - left. split; reflexivity.
Defined.

(** X18. When the answer to the request for the download URL holds no URL
    that is a string (none at all, or [null]), the direct download raises
    without fetching anything: one request is sent, no directory is
    created, no file is written. *)
Theorem direct_workflow_without_url (py : Python) (env : Env)
    (token file_token url : json) (r : Response) (kv : list (pystr * json))
    (output_path : path) (tr : trace) :
  http env tr (download_url_request py token file_token) = Resp r ->
  status_ok r ->
  parsed r = Some (JObj kv) ->
  py_eq_int (member kv "code" JNull) 0 = true ->
  dict_get (member kv "data" empty_obj) (u "url"%string) JNull = inr url ->
  (forall s, url <> JStr s) ->
  direct_workflow py env token file_token output_path tr
  = (tr ++ [EHttp (download_url_request py token file_token) (Resp r)],
     Exn RequestException).
Proof.
  intros Hh Hs Hp Hc Hu Hn.
  unfold direct_workflow, bind at 1, get_file_download_url.
  rewrite (api_prefix_ok env _ _ r (JObj kv) tr _ Hh Hs Hp). cbv beta.
  rewrite get_obj. unfold bind at 1, ret at 1. rewrite Hc. cbn [negb].
  rewrite get_obj. unfold bind at 1, ret at 1.
  unfold get. rewrite Hu. unfold lift, ret.
  unfold bind at 1, download_file.
  destruct url; try reflexivity. destruct (Hn s eq_refl).
Qed.

Lemma direct_workflow_without_url_witness :
  direct_workflow demo_py env_null_url (str "t-abc") (str "d1")
    [u "out"%string; u "a.png"%string] []
  = ([] ++ [EHttp (download_url_request demo_py (str "t-abc") (str "d1"))
                  (Resp (mkResponse 200
                           (Some (JObj [ (u "code"%string, JInt 0);
                                         (u "data"%string,
                                          JObj [ (u "url"%string, JNull) ]) ]))
                           []))],
     Exn RequestException).
Proof.
  apply (direct_workflow_without_url demo_py env_null_url (str "t-abc")
           (str "d1") JNull
           (mkResponse 200
              (Some (JObj [ (u "code"%string, JInt 0);
                            (u "data"%string, JObj [ (u "url"%string, JNull) ]) ]))
              [])
           [ (u "code"%string, JInt 0);
             (u "data"%string, JObj [ (u "url"%string, JNull) ]) ]
           [u "out"%string; u "a.png"%string] []);
    try reflexivity.
  discriminate.
Defined.
